(** * AIForge model-serving gateway: model resolution and invocation engine

    A shallow embedding of the two model loaders of the repository

      - [Api]: apps/api/app/utils/model_loader.py and
               apps/api/app/routers/predict.py
      - [App]: the deployed copy under apps/app/tmp/cmi4r60k.../app, i.e.
               utils/model_loader.py and schemas/model_config.py

    and of what surrounds them

      - [Legacy]: the first generation of the loader,
               apps/app/tmp/cmi1cb1cz.../app/utils/model_loader.py
      - [Service]: core/security.py, the security settings of
               core/config.py and the GET /health route
      - [Gcs]: apps/api/app/utils/gcs.py

    Python objects are values of [pyval]; a raised exception is the [Raise]
    case of [outcome]; methods of [ModelLoader] are computations in the
    monad [M], which threads the attributes of [self] and the list of calls
    made into code outside the loader (the user's script, importlib, the
    framework runtimes).  The file system, the parsed manifest and the
    user's script are the fields of [world]. *)

From Stdlib Require Import ZArith Lia Ascii String List Bool.
From stdpp Require Import base option strings list gmap.

Open Scope string_scope.
Open Scope list_scope.
Set Warnings "-register-all".

(** ** Python values and exceptions *)

Inductive pyval : Type :=
| PNone
| PNum (z : Z)
| PFloat (m e : Z)             (* the float m * 2^e *)
| PStr (s : string)
| PList (l : list pyval)
| PNdarray (src : pyval)       (* the array np.array(src), where it exists *)
| PTorchTensor (src : pyval)   (* torch.tensor(src) *)
| PTfTensor (src : pyval)      (* tf.convert_to_tensor(src) *)
| PObj (id : nat).             (* any other object: a loaded model, ... *)

(** [x is None] *)
Definition is_none (v : pyval) : bool :=
  match v with PNone => true | _ => false end.

(** Exception classes raised or caught by the loaders.  All of them derive
    from [Exception]; [JSONDecodeError] also derives from [ValueError]. *)
Inductive exn_class : Type :=
| TypeError | ValueError | AttributeError | ImportError | KeyError
| FileNotFoundError | JSONDecodeError | RuntimeError.

Record exn : Type := Exn { exn_cls : exn_class; exn_msg : string }.

Definition is_class (c : exn_class) (e : exn) : bool :=
  match c, exn_cls e with
  | TypeError, TypeError | ValueError, ValueError
  | ValueError, JSONDecodeError
  | AttributeError, AttributeError | ImportError, ImportError
  | KeyError, KeyError | FileNotFoundError, FileNotFoundError
  | JSONDecodeError, JSONDecodeError | RuntimeError, RuntimeError => true
  | _, _ => false
  end.

Inductive outcome (A : Type) : Type :=
| Ret (a : A)
| Raise (e : exn).
Arguments Ret {A} a.
Arguments Raise {A} e.

Definition raised {A} (r : outcome A) : bool :=
  match r with Ret _ => false | Raise _ => true end.

(** ** Strings and paths: str.lower, str.endswith, pathlib's suffix,
       os.path.join and os.path.dirname (POSIX).  Strings are sequences of
       bytes; [lower] maps the ASCII capitals, which is what [str.lower]
       does on ASCII paths. *)

Definition lower_ascii (c : ascii) : ascii :=
  let n := nat_of_ascii c in
  if (65 <=? n)%nat && (n <=? 90)%nat then ascii_of_nat (n + 32) else c.

Fixpoint lower (s : string) : string :=
  match s with
  | EmptyString => EmptyString
  | String c s' => String (lower_ascii c) (lower s')
  end.

Fixpoint rev_string (s : string) : string :=
  match s with
  | EmptyString => EmptyString
  | String c s' => rev_string s' +:+ String c EmptyString
  end.

Definition startswith (s p : string) : bool := String.prefix p s.
Definition endswith (s p : string) : bool :=
  String.prefix (rev_string p) (rev_string s).

(** [s.rfind(c)], [None] standing for -1 *)
Fixpoint rfind (c : ascii) (s : string) : option nat :=
  match s with
  | EmptyString => None
  | String a s' =>
      match rfind c s' with
      | Some i => Some (S i)
      | None => if Ascii.eqb a c then Some 0%nat else None
      end
  end.

Fixpoint split_on (c : ascii) (cur s : string) : list string :=
  match s with
  | EmptyString => [cur]
  | String a s' =>
      if Ascii.eqb a c then cur :: split_on c EmptyString s'
      else split_on c (cur +:+ String a EmptyString) s'
  end.

(** [Path(p).name]: the last component, empty and "." components dropped *)
Definition path_name (p : string) : string :=
  List.last
    (List.filter (fun c => negb (String.eqb c "" || String.eqb c "."))
       (split_on "/" "" p))
    "".

(** [PurePath.suffix]: [i = name.rfind('.')], the tail from [i] when
    [0 < i < len(name) - 1], else the empty string *)
Definition suffix (p : string) : string :=
  let name := path_name p in
  match rfind "." name with
  | Some i =>
      if (0 <? i)%nat && (i <? String.length name - 1)%nat
      then String.substring i (String.length name - i) name
      else ""
  | None => ""
  end.

(** [os.path.join(a, b)] *)
Definition join (a b : string) : string :=
  if startswith b "/" then b
  else if String.eqb a "" || endswith a "/" then a +:+ b
  else a +:+ "/" +:+ b.

Fixpoint lstrip_slash (s : string) : string :=
  match s with
  | String a s' => if Ascii.eqb a "/" then lstrip_slash s' else s
  | EmptyString => EmptyString
  end.

Definition rstrip_slash (s : string) : string :=
  rev_string (lstrip_slash (rev_string s)).

(** [os.path.dirname(p)] *)
Definition dirname (p : string) : string :=
  let head :=
    match rfind "/" p with
    | Some i => String.substring 0 (S i) p
    | None => ""
    end in
  if String.eqb (lstrip_slash head) "" then head else rstrip_slash head.

(** [x in l] for a list of strings *)
Definition in_list (x : string) (l : list string) : bool :=
  existsb (String.eqb x) l.

(** [key in d] for a key of a parsed JSON object *)
Definition has_key {A} (v : option A) : bool :=
  match v with Some _ => true | None => false end.

(** Truth value of an [Optional[str]] argument *)
Definition truthy (s : option string) : bool :=
  match s with
  | Some s => negb (String.eqb s "")
  | None => false
  end.

(** ** The user's script, the manifest and the outside world *)

(** A callable of the user's script: what [inspect.signature] gives for it
    (the number of parameters, or the exception raised) and what a call
    with positional and keyword arguments gives. *)
Record pyfunc : Type := PyFunc {
  fn_signature : outcome nat;
  fn_call : list pyval -> gmap string pyval -> outcome pyval
}.

(** [json.load] of model_config.json, for the keys the loaders read.  A key
    that is absent is [None]. *)
Record function_spec : Type := FunctionSpec {
  fs_name : option string;
  fs_function : option string;
  fs_args : option (list string)
}.

Record config_data : Type := ConfigData {
  cd_name : option string;
  cd_version : option string;
  cd_framework : option string;
  cd_entry_point : option string;
  cd_entry_point_type : option string;
  cd_class_name : option string;
  cd_load : option function_spec;
  cd_predict : option function_spec;
  cd_model_file : option string;
  cd_load_function : option string
}.

Record world : Type := World {
  path_exists : string -> bool;                        (* os.path.exists *)
  path_isdir : string -> bool;                         (* os.path.isdir *)
  exec_module : string -> outcome (gmap string pyfunc);(* importlib on a script *)
  read_json : string -> outcome config_data;           (* open + json.load *)
  schema_available : bool;     (* app.schemas.model_config could be imported *)
  torch_load : string -> outcome pyval;
  keras_load_model : string -> outcome pyval;
  saved_model_load : string -> outcome pyval;
  ort_InferenceSession : string -> outcome pyval;
  pickle_load : string -> outcome pyval;
  torch_forward : pyval -> pyval -> outcome pyval;     (* model.eval(); model(x) *)
  tf_forward : pyval -> pyval -> outcome pyval;        (* model(x) *)
  onnx_run : pyval -> pyval -> outcome pyval;          (* model.run(...)[0] *)
  (* each of the three with the conversion of its input, see [_predict_pytorch] *)
  sklearn_predict : pyval -> pyval -> outcome pyval;   (* model.predict(x) *)
  obj_tolist : nat -> option (outcome pyval);          (* obj.tolist, if any *)
  obj_numpy : nat -> option (outcome pyval);           (* obj.numpy, if any *)
  np_array : pyval -> outcome pyval                    (* np.array(x) *)
}.

(** ** The loader object and the monad of its methods *)

(** ** schemas/model_config.py: the pydantic schema of model_config.json *)

Module Schema.

Inductive EntryPointType : Type := MODULE | CLASS.

Record FunctionConfig : Type := MkFunctionConfig {
  name : string;
  args : list string
}.

Record ModelConfig : Type := MkModelConfig {
  mc_name : string;
  version : string;
  framework : string;
  entry_point : string;
  entry_point_type : EntryPointType;
  class_name : option string;
  load : FunctionConfig;
  predict : FunctionConfig;
  model_file : string
}.

(** [valid_args] of [FunctionConfig.validate_args] *)
Definition valid_args : list string :=
  ["model_path"; "model_dir"; "input_data"; "model"].

Definition invalid_argument (arg : string) : exn :=
  Exn ValueError
    ("Invalid argument '" +:+ arg +:+ "'. Must be one of: "
       +:+ String.concat ", " valid_args).

(** [FunctionConfig.validate_args]: the loop over [v] raises at the first
    token that is not in [valid_args]; otherwise [v] is returned. *)
Fixpoint validate_args_loop (v : list string) : outcome unit :=
  match v with
  | [] => Ret tt
  | arg :: rest =>
      if negb (in_list arg valid_args) then Raise (invalid_argument arg)
      else validate_args_loop rest
  end.

Definition validate_args (v : list string) : outcome (list string) :=
  match validate_args_loop v with
  | Ret _ => Ret v
  | Raise e => Raise e
  end.

(** Pydantic collects one message per failing field. *)
Definition field (A : Type) : Type := (list string * option A)%type.

Definition required {A} (loc : string) (v : option A) : field A :=
  match v with
  | Some a => ([], Some a)
  | None => ([loc +:+ ": field required"], None)
  end.

(** Construction of a [FunctionConfig] from a dict: [name] is required, [args] defaults to the empty
    list and goes through [validate_args]. *)
Definition parse_FunctionConfig (loc : string) (d : option function_spec)
  : field FunctionConfig :=
  match d with
  | None => ([loc +:+ ": field required"], None)
  | Some d =>
      let n := required (loc +:+ " -> name") (fs_name d) in
      let a :=
        match validate_args (default [] (fs_args d)) with
        | Ret v => ([], Some v)
        | Raise e => ([loc +:+ " -> args: " +:+ exn_msg e], None)
        end in
      match n, a with
      | (_, Some n'), (_, Some a') => ([], Some (MkFunctionConfig n' a'))
      | (en, _), (ea, _) => (en ++ ea, None)
      end
  end.

Definition frameworks : list string :=
  ["sklearn"; "pytorch"; "tensorflow"; "onnx"; "custom"].

Definition parse_framework (v : option string) : field string :=
  match v with
  | None => (["framework: field required"], None)
  | Some f =>
      if in_list f frameworks then ([], Some f)
      else (["framework: unexpected value"], None)
  end.

(** [validate_entry_point] *)
Definition validate_entry_point (v : option string) : field string :=
  match v with
  | None => (["entry_point: field required"], None)
  | Some p =>
      if negb (endswith p ".py")
      then (["entry_point: entry_point must be a Python file (.py)"], None)
      else ([], Some p)
  end.

Definition parse_entry_point_type (v : option string) : field EntryPointType :=
  match v with
  | None => ([], Some MODULE)
  | Some t =>
      if String.eqb t "module" then ([], Some MODULE)
      else if String.eqb t "class" then ([], Some CLASS)
      else (["entry_point_type: value is not a valid enumeration member"], None)
  end.

(** [validate_class_name]: run only when the key is supplied; [values] holds
    the fields validated so far. *)
Definition validate_class_name (v : option string) (ept : option EntryPointType)
  : field (option string) :=
  match v with
  | None => ([], Some None)
  | Some c =>
      match ept with
      | Some CLASS =>
          if String.eqb c ""
          then (["class_name: class_name is required when entry_point_type is 'class'"], None)
          else ([], Some (Some c))
      | _ => ([], Some (Some c))
      end
  end.

(** Construction of a [ModelConfig] from the parsed document; pydantic's
    ValidationError is a ValueError. *)
Definition parse_ModelConfig (d : config_data) : outcome ModelConfig :=
  let n := required "name" (cd_name d) in
  let v := required "version" (cd_version d) in
  let f := parse_framework (cd_framework d) in
  let e := validate_entry_point (cd_entry_point d) in
  let t := parse_entry_point_type (cd_entry_point_type d) in
  let c := validate_class_name (cd_class_name d) (snd t) in
  let l := parse_FunctionConfig "load" (cd_load d) in
  let p := parse_FunctionConfig "predict" (cd_predict d) in
  let m := required "model_file" (cd_model_file d) in
  match snd n, snd v, snd f, snd e, snd t, snd c, snd l, snd p, snd m with
  | Some n', Some v', Some f', Some e', Some t', Some c', Some l', Some p', Some m' =>
      Ret (MkModelConfig n' v' f' e' t' c' l' p' m')
  | _, _, _, _, _, _, _, _, _ =>
      Raise (Exn ValueError
               (String.concat "; "
                  (fst n ++ fst v ++ fst f ++ fst e ++ fst t ++ fst c
                     ++ fst l ++ fst p ++ fst m)))
  end.

(** [ModelConfigValidator.validate_file] *)
Definition validate_file (w : world) (config_path : string) : outcome ModelConfig :=
  match read_json w config_path with
  | Ret data =>
      match parse_ModelConfig data with
      | Ret config => Ret config
      | Raise e => Raise (Exn ValueError ("Invalid model_config.json: " +:+ exn_msg e))
      end
  | Raise e =>
      if is_class JSONDecodeError e
      then Raise (Exn ValueError ("Invalid JSON in model_config.json: " +:+ exn_msg e))
      else Raise (Exn ValueError ("Invalid model_config.json: " +:+ exn_msg e))
  end.

End Schema.

(** What [self.model_config] holds: [None], the raw dict, or the validated
    pydantic object. *)
Inductive config_slot : Type :=
| NoConfig
| ConfigDict (d : config_data)
| ConfigObject (c : Schema.ModelConfig).

Record session : Type := Session {
  model : pyval;
  framework : option string;
  model_path : option string;
  custom_inference : option (gmap string pyfunc);
  use_custom_inference : bool;
  model_config : config_slot
}.

(** [ModelLoader.__init__] *)
Definition init : session :=
  Session PNone None None None false NoConfig.

Inductive warning : Type :=
| WNoLoadModelFunction     (* "Custom inference.py found but no load_model() function ..." *)
| WCustomLoadFailed        (* "Custom inference script found but couldn't load model ..." *)
| WAutoDetect              (* "No model_config.json found. Using auto-detection ..." *)
| WFallbackPredict         (* "Using fallback predict method. Consider adding model_config.json" *)
| WUnknownLoadArg (tok : string)     (* "Unknown argument '{arg}' in load config, skipping" *)
| WUnknownPredictArg (tok : string)  (* "Unknown argument '{arg}' in predict config, skipping" *)
| WSignatureCheckFailed (func_name : string) (* "Signature check failed for ..., trying direct call" *)
| WCandidateFailed (func_name : string).  (* "Failed to load using ..." / "Failed to use ..." / "Failed to call ..." *)

(** What a method does outside the loader object. *)
Inductive event : Type :=
| EvExecModule (path : string)
| EvSignature (func_name : string)
| EvCall (func_name : string) (pos : list pyval) (kw : gmap string pyval)
| EvAdapterLoad (fw : string) (path : string)
| EvAdapterPredict (fw : string) (x : pyval)
| EvWarn (w : warning).

Record state : Type := State { self : session; calls : list event }.

Definition M (A : Type) : Type := state -> outcome A * state.

Definition ret {A} (a : A) : M A := fun st => (Ret a, st).
Definition raise {A} (e : exn) : M A := fun st => (Raise e, st).
Definition bind {A B} (c : M A) (k : A -> M B) : M B :=
  fun st =>
    match c st with
    | (Ret a, st') => k a st'
    | (Raise e, st') => (Raise e, st')
    end.

Notation "x <- c ;; k" := (bind c (fun x => k))
  (at level 100, c at next level, right associativity).
Notation "c ;; k" := (bind c (fun _ => k))
  (at level 100, right associativity).

(** [try: c  except Exception as e: h e].  The exceptions of [exn] are
    all instances of [Exception]; what [except Exception] lets pass
    (SystemExit, KeyboardInterrupt) is not modelled. *)
Definition try_except {A} (c : M A) (h : exn -> M A) : M A :=
  fun st =>
    match c st with
    | (Ret a, st') => (Ret a, st')
    | (Raise e, st') => h e st'
    end.

Definition get {A} (f : session -> A) : M A := fun st => (Ret (f (self st)), st).
Definition modify (f : session -> session) : M unit :=
  fun st => (Ret tt, State (f (self st)) (calls st)).
Definition emit (e : event) : M unit :=
  fun st => (Ret tt, State (self st) (calls st ++ [e])).
Definition lift {A} (r : outcome A) : M A := fun st => (r, st).

Definition set_model (v : pyval) (s : session) : session :=
  Session v (framework s) (model_path s) (custom_inference s)
          (use_custom_inference s) (model_config s).
Definition set_framework (f : option string) (s : session) : session :=
  Session (model s) f (model_path s) (custom_inference s)
          (use_custom_inference s) (model_config s).
Definition set_model_path (p : option string) (s : session) : session :=
  Session (model s) (framework s) p (custom_inference s)
          (use_custom_inference s) (model_config s).
Definition set_custom_inference (m : option (gmap string pyfunc)) (s : session) : session :=
  Session (model s) (framework s) (model_path s) m
          (use_custom_inference s) (model_config s).
Definition set_use_custom_inference (b : bool) (s : session) : session :=
  Session (model s) (framework s) (model_path s) (custom_inference s)
          b (model_config s).
Definition set_model_config (c : config_slot) (s : session) : session :=
  Session (model s) (framework s) (model_path s) (custom_inference s)
          (use_custom_inference s) c.

(** [hasattr(module, name)] and [getattr(module, name)] on [self.custom_inference] *)
Definition getattr (m : option (gmap string pyfunc)) (n : string) : option pyfunc :=
  match m with
  | Some ns => ns !! n
  | None => None
  end.
Definition hasattr (m : option (gmap string pyfunc)) (n : string) : bool :=
  match getattr m n with Some _ => true | None => false end.

(** A call into the user's script, recorded. *)
Definition call (n : string) (f : pyfunc) (pos : list pyval) (kw : gmap string pyval)
  : M pyval :=
  emit (EvCall n pos kw) ;; lift (fn_call f pos kw).

Definition signature (n : string) (f : pyfunc) : M nat :=
  emit (EvSignature n) ;; lift (fn_signature f).

(** The state after some more calls *)
Definition record (st : state) (evs : list event) : state :=
  State (self st) (calls st ++ evs).

(** ** Framework adapters: detection, load and predict

    [_detect_framework], [_load_*] and [_predict_*] are the same text in
    both copies of model_loader.py. *)

Section Adapters.
Variable w : world.

Definition _detect_framework (model_path : string) : outcome string :=
  let ext := lower (suffix model_path) in
  if in_list ext [".pt"; ".pth"] then Ret "pytorch"
  else if in_list ext [".h5"] then Ret "tensorflow"
  else if String.eqb ext ".onnx" then Ret "onnx"
  else if String.eqb ext ".pkl" then Ret "sklearn"
  else if path_isdir w model_path then
    if path_exists w (join model_path "saved_model.pb") then Ret "tensorflow"
    else Raise (Exn ValueError ("Could not detect framework for: " +:+ model_path))
  else Raise (Exn ValueError ("Could not detect framework for: " +:+ model_path)).

(** [try: ... except ImportError: raise ImportError(msg)] around a runtime *)
Definition or_not_installed (r : outcome pyval) (msg : string) : outcome pyval :=
  match r with
  | Ret v => Ret v
  | Raise e => if is_class ImportError e then Raise (Exn ImportError msg) else Raise e
  end.

Definition _load_pytorch (model_path : string) : M pyval :=
  emit (EvAdapterLoad "pytorch" model_path) ;;
  lift (or_not_installed (torch_load w model_path)
          "PyTorch not installed. Add 'torch' to requirements.txt").

Definition _load_tensorflow (model_path : string) : M pyval :=
  emit (EvAdapterLoad "tensorflow" model_path) ;;
  lift (or_not_installed
          (if endswith model_path ".h5" then keras_load_model w model_path
           else saved_model_load w model_path)
          "TensorFlow not installed. Add 'tensorflow' to requirements.txt").

Definition _load_onnx (model_path : string) : M pyval :=
  emit (EvAdapterLoad "onnx" model_path) ;;
  lift (or_not_installed (ort_InferenceSession w model_path)
          "ONNX Runtime not installed. Add 'onnxruntime' to requirements.txt").

Definition _load_sklearn (model_path : string) : M pyval :=
  emit (EvAdapterLoad "sklearn" model_path) ;;
  lift (match pickle_load w model_path with
        | Ret v => Ret v
        | Raise e => Raise (Exn ValueError ("Failed to load sklearn model: " +:+ exn_msg e))
        end).

(** The tail of [load_model], from "Auto-detect framework from file
    extension" on. *)
Definition load_builtin (model_path : string) (framework : option string) : M pyval :=
  fw <- match framework with
        | None => lift (_detect_framework model_path)
        | Some f => ret f
        end ;;
  modify (set_framework (Some fw)) ;;
  v <- (if String.eqb fw "pytorch" then _load_pytorch model_path
        else if String.eqb fw "tensorflow" then _load_tensorflow model_path
        else if String.eqb fw "onnx" then _load_onnx model_path
        else if String.eqb fw "sklearn" then _load_sklearn model_path
        else raise (Exn ValueError ("Unsupported framework: " +:+ fw))) ;;
  modify (set_model v) ;;
  ret v.

(** The predict adapters of the three tensor runtimes.  [PTorchTensor x],
    [PTfTensor x] and [PNdarray x] stand for the converted input, and the
    oracle of each runtime covers what its adapter does from the
    conversion on (for pytorch [model.eval()] too, for onnx
    [get_inputs()]): a conversion that raises is a [Raise] of that
    oracle. *)
Definition _predict_pytorch (input_data : pyval) : M pyval :=
  m <- get model ;;
  let x := match input_data with
           | PTorchTensor _ => input_data
           | _ => PTorchTensor input_data
           end in
  emit (EvAdapterPredict "pytorch" x) ;;
  lift (torch_forward w m x).

Definition _predict_tensorflow (input_data : pyval) : M pyval :=
  m <- get model ;;
  let x := match input_data with
           | PTfTensor _ => input_data
           | _ => PTfTensor input_data
           end in
  emit (EvAdapterPredict "tensorflow" x) ;;
  lift (tf_forward w m x).

Definition _predict_onnx (input_data : pyval) : M pyval :=
  m <- get model ;;
  let x := match input_data with
           | PNdarray _ => input_data
           | _ => PNdarray input_data
           end in
  emit (EvAdapterPredict "onnx" x) ;;
  lift (onnx_run w m x).

Definition isinstance_str (v : pyval) : bool :=
  match v with PStr _ => true | _ => false end.
Definition isinstance_list (v : pyval) : bool :=
  match v with PList _ => true | _ => false end.
Definition isinstance_ndarray (v : pyval) : bool :=
  match v with PNdarray _ => true | _ => false end.
(** [len(v)] and [v[0]] for a list [v] *)
Definition len (v : pyval) : nat :=
  match v with PList l => length l | _ => 0%nat end.
Definition item0 (v : pyval) : pyval :=
  match v with PList (x :: _) => x | _ => PNone end.
Definition items (v : pyval) : list pyval :=
  match v with PList l => l | _ => [] end.

(** [item[0] if isinstance(item, list) and len(item) > 0 else item] *)
Definition first_or_self (item : pyval) : pyval :=
  if isinstance_list item && (0 <? len item)%nat then item0 item else item.

(** The argument [_predict_sklearn] hands to [self.model.predict].  The
    three text cases build it without NumPy; in the last case
    [np.array(input_data)] is asked for it and can raise, as it does for
    rows of unequal length.  The [import numpy] that opens the method is
    taken to succeed. *)
Definition sklearn_argument (input_data : pyval) : outcome pyval :=
  if isinstance_str input_data then Ret (PList [input_data])
  else if isinstance_list input_data && (0 <? len input_data)%nat
          && isinstance_str (item0 input_data)
  then Ret input_data
  else if isinstance_list input_data && (0 <? len input_data)%nat
          && isinstance_list (item0 input_data)
          && ((0 <? len (item0 input_data))%nat
              && isinstance_str (item0 (item0 input_data)))
  then Ret (PList (List.map first_or_self (items input_data)))
  else if negb (isinstance_ndarray input_data) then np_array w input_data
  else Ret input_data.

Definition _predict_sklearn (input_data : pyval) : M pyval :=
  m <- get model ;;
  x <- lift (sklearn_argument input_data) ;;
  emit (EvAdapterPredict "sklearn" x) ;;
  lift (sklearn_predict w m x).

End Adapters.

(** ** apps/api: utils/model_loader.py and routers/predict.py *)

Module Api.
Section Loader.
Variable w : world.

Definition _load_custom_inference (inference_path : string) : M (gmap string pyfunc) :=
  emit (EvExecModule inference_path) ;;
  lift (exec_module w inference_path).

(** [ModelLoader.load_model]; its custom-script branch gives [Some] of the
    value it returns, or [None] when control goes on to the adapters. *)
Definition load_custom (model_path : string) (custom_inference_path : option string)
  : M (option pyval) :=
  if truthy custom_inference_path
     && path_exists w (default "" custom_inference_path)
  then
    m <- _load_custom_inference (default "" custom_inference_path) ;;
    modify (set_custom_inference (Some m)) ;;
    modify (set_use_custom_inference true) ;;
    match m !! "load_model" with
    | Some f =>
        v <- call "load_model" f [PStr model_path] ∅ ;;
        modify (set_model v) ;;
        modify (set_framework (Some "custom")) ;;
        ret (Some v)
    | None =>
        emit (EvWarn WNoLoadModelFunction) ;;
        modify (set_use_custom_inference false) ;;
        ret None
    end
  else ret None.

Definition load_model (model_path : string) (framework : option string)
    (custom_inference_path : option string) : M pyval :=
  modify (set_model_path (Some model_path)) ;;
  r <- load_custom model_path custom_inference_path ;;
  match r with
  | Some v => ret v
  | None => load_builtin w model_path framework
  end.

Definition not_loaded : exn :=
  Exn ValueError "Model not loaded. Call load_model() first.".

(** [ModelLoader.predict] *)
Definition predict (input_data : pyval) : M pyval :=
  m <- get model ;;
  if is_none m then raise not_loaded
  else
    use <- get use_custom_inference ;;
    ci <- get custom_inference ;;
    match (if use then getattr ci "predict" else None) with
    | Some f => call "predict" f [m; input_data] ∅
    | None =>
        fw <- get framework ;;
        if bool_decide (fw = Some "pytorch") then _predict_pytorch w input_data
        else if bool_decide (fw = Some "tensorflow") then _predict_tensorflow w input_data
        else if bool_decide (fw = Some "onnx") then _predict_onnx w input_data
        else if bool_decide (fw = Some "sklearn") then _predict_sklearn w input_data
        else if bool_decide (fw = Some "custom") then
          raise (Exn ValueError
                   "Custom model loaded but no predict() function found in inference.py")
        else ret PNone
    end.

End Loader.

(** routers/predict.py.  The module-level [model_loader] is [None] until
    the startup hook of main.py stores a [ModelLoader()] in it; the route is
    modelled from the point where the API key has been accepted. *)

Inductive response : Type :=
| PredictResponse (prediction : pyval) (model_id : option string)
                  (framework : option string)
| InfoResponse (model_path : option string) (framework : option string)
| HTTPException (status_code : nat) (detail : string).

(** [getattr(v, "tolist", None)]: arrays and torch tensors have the method,
    TensorFlow tensors, lists, strings, numbers and None do not. *)
Definition getattr_tolist (w : world) (v : pyval) : option (outcome pyval) :=
  match v with
  | PNdarray src => Some (Ret src)
  | PTorchTensor src => Some (Ret src)
  | PObj id => obj_tolist w id
  | _ => None
  end.

(** [getattr(v, "numpy", None)]: torch and TensorFlow tensors have it. *)
Definition getattr_numpy (w : world) (v : pyval) : option (outcome pyval) :=
  match v with
  | PTorchTensor src => Some (Ret (PNdarray src))
  | PTfTensor src => Some (Ret (PNdarray src))
  | PObj id => obj_numpy w id
  | _ => None
  end.

(** "Convert prediction to serializable format" *)
Definition to_serializable (w : world) (prediction : pyval) : outcome pyval :=
  match getattr_tolist w prediction with
  | Some tolist => tolist
  | None =>
      match getattr_numpy w prediction with
      | Some numpy =>
          match numpy with
          | Ret a =>
              match getattr_tolist w a with
              | Some tolist => tolist
              | None => Raise (Exn AttributeError "object has no attribute 'tolist'")
              end
          | Raise e => Raise e
          end
      | None => Ret prediction
      end
  end.

Definition get_model_loader (model_loader : option state) : response + state :=
  match model_loader with
  | None =>
      inl (HTTPException 503 "Model not loaded yet. Please wait for initialization.")
  | Some loader => inr loader
  end.

(** The handler of POST /predict: the response it returns or the
    HTTPException it raises, and the loader afterwards.  What FastAPI
    makes of a returned PredictResponse when it serialises it comes after
    the handler and is not part of it. *)
Definition predict_route (w : world) (model_loader : option state) (input : pyval)
  : response * option state :=
  match get_model_loader model_loader with
  | inl r => (r, model_loader)
  | inr loader =>
      match (prediction <- predict w input ;;
             lift (to_serializable w prediction)) loader with
      | (Ret prediction, st) =>
          (PredictResponse prediction (model_path (self st)) (framework (self st)),
           Some st)
      | (Raise e, st) =>
          (HTTPException 500 ("Prediction failed: " +:+ exn_msg e), Some st)
      end
  end.

(** The GET /info route *)
Definition model_info (model_loader : option state) : response :=
  match model_loader with
  | None => HTTPException 503 "Model not loaded"
  | Some loader =>
      if is_none (model (self loader)) then HTTPException 503 "Model not loaded"
      else InfoResponse (model_path (self loader)) (framework (self loader))
  end.

End Api.

(** ** apps/app/tmp/cmi4r60k...: utils/model_loader.py *)

Module App.
Section Loader.
Variable w : world.

Definition _load_custom_inference (inference_path : string) : M (gmap string pyfunc) :=
  emit (EvExecModule inference_path) ;;
  lift (exec_module w inference_path).

(** *** Manifest-driven loading *)

(** "Basic validation without pydantic" *)
Definition missing_fields (d : config_data) : list string :=
  (if has_key (cd_entry_point d) then [] else ["entry_point"])
    ++ (if has_key (cd_load d) then [] else ["load"])
    ++ (if has_key (cd_predict d) then [] else ["predict"])
    ++ (if has_key (cd_model_file d) then [] else ["model_file"]).

(** The first [try] block of [_load_from_config]: parse and validate. *)
Definition parse_and_validate (config_path : string) : M config_data :=
  try_except
    (config_data <- lift (read_json w config_path) ;;
     (if schema_available w then
        c <- lift (Schema.validate_file w config_path) ;;
        modify (set_model_config (ConfigObject c))
      else
        match missing_fields config_data with
        | [] => modify (set_model_config (ConfigDict config_data))
        | missing =>
            raise (Exn ValueError
                     ("model_config.json missing required fields: "
                        +:+ String.concat ", " missing))
        end) ;;
     ret config_data)
    (fun e =>
       if is_class JSONDecodeError e then
         raise (Exn ValueError ("Invalid JSON in model_config.json: " +:+ exn_msg e))
       else if is_class FileNotFoundError e then
         raise (Exn ValueError ("model_config.json not found at: " +:+ config_path))
       else
         raise (Exn ValueError ("Invalid model_config.json: " +:+ exn_msg e))).

(** [d[key]] on a dict *)
Definition subscript {A} (key : string) (v : option A) : M A :=
  match v with
  | Some a => ret a
  | None => raise (Exn KeyError key)
  end.

(** [cfg.get('name') or cfg.get('function')] *)
Definition func_name_of (cfg : function_spec) : option string :=
  if truthy (fs_name cfg) then fs_name cfg else fs_function cfg.

(** "Prepare arguments based on config" in [_load_from_config] *)
Fixpoint load_kwargs (model_file_path model_dir : string) (load_args : list string)
    (kwargs : gmap string pyval) : M (gmap string pyval) :=
  match load_args with
  | [] => ret kwargs
  | arg :: rest =>
      if String.eqb arg "model_path" then
        load_kwargs model_file_path model_dir rest
          (<["model_path" := PStr model_file_path]> kwargs)
      else if String.eqb arg "model_dir" then
        load_kwargs model_file_path model_dir rest
          (<["model_dir" := PStr model_dir]> kwargs)
      else
        emit (EvWarn (WUnknownLoadArg arg)) ;;
        load_kwargs model_file_path model_dir rest kwargs
  end.

Definition _load_from_config (config_path model_dir : string) : M pyval :=
  config_data <- parse_and_validate config_path ;;
  entry_point <- subscript "entry_point" (cd_entry_point config_data) ;;
  let entry_point_path := join model_dir entry_point in
  (if negb (path_exists w entry_point_path) then
     raise (Exn FileNotFoundError ("Entry point file not found: " +:+ entry_point))
   else ret tt) ;;
  try_except
    (m <- _load_custom_inference entry_point_path ;;
     modify (set_custom_inference (Some m)) ;;
     modify (set_use_custom_inference true))
    (fun e =>
       raise (Exn ImportError
                ("Failed to import " +:+ entry_point +:+ ": " +:+ exn_msg e))) ;;
  load_config <- subscript "load" (cd_load config_data) ;;
  let load_func_name := func_name_of load_config in
  let load_args := default [] (fs_args load_config) in
  ci <- get custom_inference ;;
  load_func <-
    match load_func_name with
    | None => raise (Exn TypeError "attribute name must be string, not 'NoneType'")
    | Some n =>
        match getattr ci n with
        | None =>
            raise (Exn AttributeError
                     ("Function '" +:+ n +:+ "' not found in " +:+ entry_point))
        | Some f => ret (n, f)
        end
    end ;;
  model_file <- subscript "model_file" (cd_model_file config_data) ;;
  let model_file_path := join model_dir model_file in
  kwargs <- load_kwargs model_file_path model_dir load_args ∅ ;;
  v <- call (fst load_func) (snd load_func) [] kwargs ;;
  modify (set_model v) ;;
  modify (set_framework (Some (default "custom" (cd_framework config_data)))) ;;
  ret v.

(** *** Loading through a custom script *)

Definition load_functions : list string :=
  ["load_model"; "load"; "initialize"; "init"; "setup"].

(** The positional arguments chosen from the number of parameters *)
Definition load_arguments (params : nat) (model_path : string)
    (model_dir : option string) : list pyval :=
  match params with
  | 0 => []
  | 1 => [PStr model_path]
  | 2 => [PStr model_path;
          PStr (if truthy model_dir then default "" model_dir
                else dirname model_path)]
  | _ => [PStr model_path]
  end.

(** One round of the loop of [_try_custom_load] for a candidate that
    exists: [true] is [return True], [false] goes on with the next name. *)
Definition try_load_function (model_path : string) (model_dir : option string)
    (func_name : string) (func : pyfunc) : M bool :=
  try_except
    (params <- signature func_name func ;;
     v <- call func_name func (load_arguments params model_path model_dir) ∅ ;;
     modify (set_model v) ;;
     ret (negb (is_none v)))
    (fun e => emit (EvWarn (WCandidateFailed func_name)) ;; ret false).

Fixpoint try_load_functions (model_path : string) (model_dir : option string)
    (names : list string) : M bool :=
  match names with
  | [] => ret false
  | func_name :: rest =>
      ci <- get custom_inference ;;
      match getattr ci func_name with
      | Some func =>
          ok <- try_load_function model_path model_dir func_name func ;;
          if ok then ret true
          else try_load_functions model_path model_dir rest
      | None => try_load_functions model_path model_dir rest
      end
  end.

Definition _try_custom_load (model_path : string) (model_dir : option string) : M bool :=
  ci <- get custom_inference ;;
  match ci with
  | None => ret false
  | Some _ => try_load_functions model_path model_dir load_functions
  end.

Definition inference_files : list string :=
  ["inference.py"; "predict.py"; "model.py"; "handler.py"; "main.py"].

(** Step 1 of [_try_auto_detect_custom_inference]: a model_config.json in
    the directory.  [true] is [return True]. *)
Definition auto_detect_config (model_dir model_path : string) : M bool :=
  let config_path := join model_dir "model_config.json" in
  if path_exists w config_path then
    try_except
      (config <- lift (read_json w config_path) ;;
       let entry_point := default "inference.py" (cd_entry_point config) in
       let inference_path := join model_dir entry_point in
       if path_exists w inference_path then
         m <- _load_custom_inference inference_path ;;
         modify (set_custom_inference (Some m)) ;;
         modify (set_use_custom_inference true) ;;
         let load_func_name := default "load_model" (cd_load_function config) in
         match m !! load_func_name with
         | Some func =>
             v <- call load_func_name func [PStr model_path] ∅ ;;
             modify (set_model v) ;;
             ret true
         | None => ret false
         end
       else ret false)
      (fun e => emit (EvWarn (WCandidateFailed "model_config.json")) ;; ret false)
  else ret false.

(** Step 2: the loop over the common file names. *)
Fixpoint auto_detect_files (model_dir model_path : string) (files : list string)
  : M bool :=
  match files with
  | [] => ret false
  | filename :: rest =>
      let inference_path := join model_dir filename in
      if path_exists w inference_path then
        ok <- try_except
                (m <- _load_custom_inference inference_path ;;
                 modify (set_custom_inference (Some m)) ;;
                 modify (set_use_custom_inference true) ;;
                 _try_custom_load model_path (Some model_dir))
                (fun e => emit (EvWarn (WCandidateFailed filename)) ;; ret false) ;;
        if ok then ret true
        else auto_detect_files model_dir model_path rest
      else auto_detect_files model_dir model_path rest
  end.

Definition _try_auto_detect_custom_inference (model_dir model_path : string) : M bool :=
  ok <- auto_detect_config model_dir model_path ;;
  if ok then ret true
  else auto_detect_files model_dir model_path inference_files.

(** *** load_model *)

(** "Priority 1": is there a model_config.json in [model_dir]? *)
Definition manifest_present (model_dir : option string) : bool :=
  truthy model_dir
  && path_exists w (default "" model_dir)
  && path_exists w (join (default "" model_dir) "model_config.json").

(** "Priority 2" and "Priority 3": [Some v] is [return self.model]. *)
Definition load_custom (model_path : string)
    (custom_inference_path model_dir : option string) : M (option pyval) :=
  if truthy custom_inference_path
     && path_exists w (default "" custom_inference_path)
  then
    m <- _load_custom_inference (default "" custom_inference_path) ;;
    modify (set_custom_inference (Some m)) ;;
    modify (set_use_custom_inference true) ;;
    load_success <- _try_custom_load model_path model_dir ;;
    if load_success then
      modify (set_framework (Some "custom")) ;;
      v <- get model ;;
      ret (Some v)
    else
      emit (EvWarn WCustomLoadFailed) ;;
      modify (set_use_custom_inference false) ;;
      ret None
  else if truthy model_dir && path_exists w (default "" model_dir) then
    emit (EvWarn WAutoDetect) ;;
    custom_loaded <- _try_auto_detect_custom_inference (default "" model_dir) model_path ;;
    if custom_loaded then
      modify (set_framework (Some "custom")) ;;
      v <- get model ;;
      ret (Some v)
    else ret None
  else ret None.

Definition load_model (model_path : string) (framework : option string)
    (custom_inference_path model_dir : option string) : M pyval :=
  modify (set_model_path (Some model_path)) ;;
  if manifest_present model_dir then
    _load_from_config (join (default "" model_dir) "model_config.json")
      (default "" model_dir)
  else
    r <- load_custom model_path custom_inference_path model_dir ;;
    match r with
    | Some v => ret v
    | None => load_builtin w model_path framework
    end.

(** *** Prediction *)

(** [bool(d)] for the dict stored by [_load_from_config] *)
Definition dict_truthy (d : config_data) : bool :=
  has_key (cd_name d) || has_key (cd_version d) || has_key (cd_framework d)
  || has_key (cd_entry_point d) || has_key (cd_entry_point_type d)
  || has_key (cd_class_name d) || has_key (cd_load d) || has_key (cd_predict d)
  || has_key (cd_model_file d) || has_key (cd_load_function d).

(** "Prepare arguments based on config" in [_predict_from_config] *)
Fixpoint predict_kwargs (input_data : pyval) (predict_args : list string)
    (kwargs : gmap string pyval) : M (gmap string pyval) :=
  match predict_args with
  | [] => ret kwargs
  | arg :: rest =>
      if String.eqb arg "input_data" then
        predict_kwargs input_data rest (<["input_data" := input_data]> kwargs)
      else if String.eqb arg "model" then
        m <- get model ;;
        predict_kwargs input_data rest (<["model" := m]> kwargs)
      else if String.eqb arg "data" then
        predict_kwargs input_data rest (<["data" := input_data]> kwargs)
      else
        emit (EvWarn (WUnknownPredictArg arg)) ;;
        predict_kwargs input_data rest kwargs
  end.

Definition _predict_from_config (model_config : config_data) (input_data : pyval)
  : M pyval :=
  predict_config <- subscript "predict" (cd_predict model_config) ;;
  let predict_func_name := func_name_of predict_config in
  let predict_args := default [] (fs_args predict_config) in
  ci <- get custom_inference ;;
  predict_func <-
    match predict_func_name with
    | None => raise (Exn TypeError "attribute name must be string, not 'NoneType'")
    | Some n =>
        match getattr ci n with
        | None =>
            raise (Exn AttributeError
                     ("Function '" +:+ n +:+ "' not found in entry point"))
        | Some f => ret (n, f)
        end
    end ;;
  kwargs <- predict_kwargs input_data predict_args ∅ ;;
  call (fst predict_func) (snd predict_func) [] kwargs.

Definition predict_functions : list string :=
  ["predict"; "inference"; "run"; "forward"; "__call__"].

(** [try: c  except TypeError: h] *)
Definition try_except_TypeError {A} (c : M A) (h : exn -> M A) : M A :=
  try_except c (fun e => if is_class TypeError e then h e else raise e).

(** One round of the loop of [_try_custom_predict] for a candidate that
    exists: [Some v] is [return v], [None] is [continue]. *)
Definition try_predict_function (func_name : string) (func : pyfunc)
    (input_data : pyval) : M (option pyval) :=
  try_except
    (params <- signature func_name func ;;
     m <- get model ;;
     v <- match params with
          | 0 => call func_name func [] ∅
          | 1 => call func_name func [input_data] ∅
          | _ => call func_name func [m; input_data] ∅
          end ;;
     ret (Some v))
    (fun e =>
       if is_class TypeError e then
         emit (EvWarn (WSignatureCheckFailed func_name)) ;;
         try_except_TypeError
           (v <- call func_name func [input_data] ∅ ;; ret (Some v))
           (fun _ =>
              try_except
                (m <- get model ;;
                 v <- call func_name func [m; input_data] ∅ ;;
                 ret (Some v))
                (fun e2 => emit (EvWarn (WCandidateFailed func_name)) ;; ret None))
       else
         emit (EvWarn (WCandidateFailed func_name)) ;; ret None).

Fixpoint try_predict_functions (names : list string) (input_data : pyval) : M pyval :=
  match names with
  | [] =>
      raise (Exn ValueError
               ("Custom inference loaded but no compatible predict function found. "
                  +:+ "Tried: predict(), inference(), run(), forward(), __call__()"))
  | func_name :: rest =>
      ci <- get custom_inference ;;
      match getattr ci func_name with
      | Some func =>
          r <- try_predict_function func_name func input_data ;;
          match r with
          | Some v => ret v
          | None => try_predict_functions rest input_data
          end
      | None => try_predict_functions rest input_data
      end
  end.

Definition _try_custom_predict (input_data : pyval) : M pyval :=
  mc <- get model_config ;;
  match mc with
  | ConfigDict d =>
      if dict_truthy d then _predict_from_config d input_data
      else
        emit (EvWarn WFallbackPredict) ;;
        try_predict_functions predict_functions input_data
  | _ =>
      emit (EvWarn WFallbackPredict) ;;
      try_predict_functions predict_functions input_data
  end.

Definition not_loaded : exn :=
  Exn ValueError "Model not loaded. Call load_model() first.".

(** [ModelLoader.predict] *)
Definition predict (input_data : pyval) : M pyval :=
  m <- get model ;;
  if is_none m then raise not_loaded
  else
    use <- get use_custom_inference ;;
    ci <- get custom_inference ;;
    if use && has_key ci then _try_custom_predict input_data
    else
      fw <- get framework ;;
      if bool_decide (fw = Some "pytorch") then _predict_pytorch w input_data
      else if bool_decide (fw = Some "tensorflow") then _predict_tensorflow w input_data
      else if bool_decide (fw = Some "onnx") then _predict_onnx w input_data
      else if bool_decide (fw = Some "sklearn") then _predict_sklearn w input_data
      else if bool_decide (fw = Some "custom") then
        raise (Exn ValueError
                 "Custom model loaded but no predict() function found in inference.py")
      else ret PNone.

End Loader.
End App.

(** ** The first generation of the loader

    apps/app/tmp/cmi1cb1cz000ekseadbma0wfg/app/utils/model_loader.py is
    the loader before custom scripts were supported: [_detect_framework],
    the [_load_*] adapters and the pytorch, tensorflow and onnx predict
    adapters have the text modelled above; its session has only the
    handle, the tag and the path, so the other fields of [session] are
    never read nor written here. *)

Module Legacy.
Section Loader.
Variable w : world.

Definition load_model (model_path : string) (framework : option string) : M pyval :=
  modify (set_model_path (Some model_path)) ;;
  load_builtin w model_path framework.

Definition _predict_sklearn (input_data : pyval) : M pyval :=
  m <- get model ;;
  x <- (if negb (isinstance_ndarray input_data) then lift (np_array w input_data)
        else ret input_data) ;;
  emit (EvAdapterPredict "sklearn" x) ;;
  lift (sklearn_predict w m x).

Definition predict (input_data : pyval) : M pyval :=
  m <- get model ;;
  if is_none m then raise (Exn ValueError "Model not loaded. Call load_model() first.")
  else
    fw <- get framework ;;
    if bool_decide (fw = Some "pytorch") then _predict_pytorch w input_data
    else if bool_decide (fw = Some "tensorflow") then _predict_tensorflow w input_data
    else if bool_decide (fw = Some "onnx") then _predict_onnx w input_data
    else if bool_decide (fw = Some "sklearn") then _predict_sklearn input_data
    else ret PNone.

End Loader.
End Legacy.

(** ** The service around the loader

    core/config.py, core/security.py and the routes of routers/predict.py
    that the loader does not appear in. *)

Module Service.

(** The "API Security" settings of [Settings] *)
Record Settings : Type := MkSettings {
  api_key : string;
  enable_api_key_auth : bool
}.

(** The values [Settings()] has when the environment sets none *)
Definition default_settings : Settings :=
  MkSettings "dev-api-key-change-in-production" true.

(** An [HTTPException] raised by a dependency *)
Record http_error : Type := HttpError {
  status_code : nat;
  detail : string;
  headers : list (string * string)
}.

(** [verify_api_key]; [api_key] is what [APIKeyHeader(name="X-API-Key",
    auto_error=False)] delivers: the key, or None. *)
Definition verify_api_key (settings : Settings) (key : option string)
  : http_error + string :=
  if negb (enable_api_key_auth settings) then inr "anonymous"
  else
    match key with
    | None =>
        inl (HttpError 401 "Missing API Key. Please provide X-API-Key header."
               [("WWW-Authenticate", "ApiKey")])
    | Some k =>
        if negb (String.eqb k (api_key settings))
        then inl (HttpError 403 "Invalid API Key" [])
        else inr k
    end.

(** POST /predict with its dependencies, which are resolved in the order
    of the route's parameters: [verify_api_key], then [get_model_loader];
    the first one that raises answers the request (tests/test_api.py
    expects 401 and 403 from an application whose loader was never
    stored). *)
Definition predict_endpoint (settings : Settings) (w : world) (key : option string)
    (model_loader : option state) (input : pyval)
  : (http_error + Api.response) * option state :=
  match verify_api_key settings key with
  | inl e => (inl e, model_loader)
  | inr _ =>
      (inr (fst (Api.predict_route w model_loader input)),
       snd (Api.predict_route w model_loader input))
  end.

(** GET /info with its dependency *)
Definition info_endpoint (settings : Settings) (key : option string)
    (model_loader : option state) : http_error + Api.response :=
  match verify_api_key settings key with
  | inl e => inl e
  | inr _ => inr (Api.model_info model_loader)
  end.

Record HealthResponse : Type := MkHealthResponse {
  status : string;
  model_loaded : bool;
  model_id : option string;
  health_framework : option string
}.

(** GET /health, which has no dependency *)
Definition health_check (model_loader : option state) : HealthResponse :=
  let loaded :=
    match model_loader with
    | Some loader => negb (is_none (model (self loader)))
    | None => false
    end in
  MkHealthResponse
    (if loaded then "healthy" else "initializing")
    loaded
    (match model_loader with
     | Some loader => if loaded then model_path (self loader) else None
     | None => None
     end)
    (match model_loader with
     | Some loader => if loaded then framework (self loader) else None
     | None => None
     end).

End Service.

(** ** apps/api: utils/gcs.py *)

Module Gcs.

(** What the client works on: a local disk and a bucket in some state of
    type [disk].  [mkdir p] is [Path(p).mkdir(parents=True, exist_ok=True)],
    [download_to_filename b d] is [bucket.blob(b).download_to_filename(d)];
    [parent p] and [div a b] are [str(Path(p).parent)] and
    [str(Path(a) / b)]. *)
Record cloud (disk : Type) : Type := Cloud {
  mkdir : string -> disk -> outcome unit * disk;
  download_to_filename : string -> string -> disk -> outcome unit * disk;
  parent : string -> string;
  div : string -> string -> string
}.
Arguments mkdir {disk}.
Arguments download_to_filename {disk}.
Arguments parent {disk}.
Arguments div {disk}.

Section Client.
Context {disk : Type}.
Variable c : cloud disk.
(** [self.bucket] is a bucket or, when no credentials were found, None *)
Variable bucket : bool.

Definition download_file (blob_path destination_path : string) (s : disk)
  : bool * disk :=
  if negb bucket then (false, s)
  else
    match mkdir c (parent c destination_path) s with
    | (Ret _, s1) =>
        match download_to_filename c blob_path destination_path s1 with
        | (Ret _, s2) => (true, s2)
        | (Raise _, s2) => (false, s2)
        end
    | (Raise _, s1) => (false, s1)
    end.

Definition model_files : list string :=
  ["model.pt"; "model.pth"; "model.h5"; "saved_model.pb"; "model.onnx";
   "model.pkl"; "config.json"; "metadata.json"].

(** The loop of [download_model_files] *)
Fixpoint download_loop (model_id user_id model_dir : string) (files : list string)
    (downloaded_any : bool) (s : disk) : bool * disk :=
  match files with
  | [] => (downloaded_any, s)
  | filename :: rest =>
      let blob_path := user_id +:+ "/" +:+ model_id +:+ "/" +:+ filename in
      let local_path := div c model_dir filename in
      let r := download_file blob_path local_path s in
      download_loop model_id user_id model_dir rest
        (if fst r then true else downloaded_any) (snd r)
  end.

Definition download_model_files (model_id user_id local_dir : string) (s : disk)
  : outcome (option string) * disk :=
  let model_dir := div c (div c local_dir user_id) model_id in
  match mkdir c model_dir s with
  | (Raise e, s1) => (Raise e, s1)
  | (Ret _, s1) =>
      let r := download_loop model_id user_id model_dir model_files false s1 in
      (Ret (if fst r then Some model_dir else None), snd r)
  end.

End Client.
End Gcs.

(** ** Vocabulary of the statements *)

(** A function entry of the manifest whose [args] hold a token outside the
    vocabulary of the schema *)
Definition has_invalid_token (spec : option function_spec) : Prop :=
  exists l tok,
    spec = Some l /\ In tok (default [] (fs_args l)) /\ ~ In tok Schema.valid_args.

(** The candidate [n] of script [m] does not load the model: it is not
    defined, or its introspection raises, or its call raises or answers
    None. *)
Definition candidate_fails (model_path : string) (model_dir : option string)
    (m : gmap string pyfunc) (n : string) : bool :=
  match m !! n with
  | None => true
  | Some f =>
      match fn_signature f with
      | Raise _ => true
      | Ret params =>
          match fn_call f (App.load_arguments params model_path model_dir) ∅ with
          | Raise _ => true
          | Ret v => is_none v
          end
      end
  end.

(** What the search for a load function is expected to do outside the
    loader for the candidate [n]: nothing when it is not defined; else an
    introspection, then the call with the arguments its arity selects, and
    a warning when either raised. *)
Definition attempt_events (model_path : string) (model_dir : option string)
    (m : gmap string pyfunc) (n : string) : list event :=
  match m !! n with
  | None => []
  | Some f =>
      EvSignature n ::
      match fn_signature f with
      | Raise _ => [EvWarn (WCandidateFailed n)]
      | Ret params =>
          EvCall n (App.load_arguments params model_path model_dir) ∅ ::
          match fn_call f (App.load_arguments params model_path model_dir) ∅ with
          | Raise _ => [EvWarn (WCandidateFailed n)]
          | Ret _ => []
          end
      end
  end.

(** The calls the manifest tier can make: the import of the entry point,
    the call of the declared load function with keyword arguments only,
    and the warning about a token it skips. *)
Definition manifest_tier_event (e : event) : bool :=
  match e with
  | EvExecModule _ => true
  | EvCall _ [] _ => true
  | EvWarn (WUnknownLoadArg _) => true
  | _ => false
  end.

(** The name a function entry of the manifest declares: its name, or its
    function entry when the name is absent or empty. *)
Definition declared_name (l : function_spec) : option string :=
  match fs_name l with
  | Some (String a n) => Some (String a n)
  | _ => fs_function l
  end.

(** The failures of the manifest tier, for the manifest of directory
    [model_dir] in world [w]: the file cannot be read as JSON; the
    schema, where it is importable, rejects the document; one of the keys
    entry_point, load, predict, model_file is absent; the load entry
    declares no name; the entry point is not a file of the directory; its
    import raises; it does not define the declared load function; that
    function raises on the keyword arguments it is given. *)
Inductive manifest_failure (w : world) (model_dir : string) : Prop :=
| InvalidJSON (e : exn) :
    read_json w (join model_dir "model_config.json") = Raise e ->
    manifest_failure w model_dir
| SchemaRejects (d : config_data) (e : exn) :
    schema_available w = true ->
    read_json w (join model_dir "model_config.json") = Ret d ->
    Schema.parse_ModelConfig d = Raise e ->
    manifest_failure w model_dir
| MissingKey (d : config_data) :
    read_json w (join model_dir "model_config.json") = Ret d ->
    cd_entry_point d = None \/ cd_load d = None \/ cd_predict d = None
    \/ cd_model_file d = None ->
    manifest_failure w model_dir
| MissingLoadName (d : config_data) (l : function_spec) :
    read_json w (join model_dir "model_config.json") = Ret d ->
    cd_load d = Some l ->
    declared_name l = None ->
    manifest_failure w model_dir
| MissingEntryPoint (d : config_data) (ep : string) :
    read_json w (join model_dir "model_config.json") = Ret d ->
    cd_entry_point d = Some ep ->
    path_exists w (join model_dir ep) = false ->
    manifest_failure w model_dir
| ImportFailure (d : config_data) (ep : string) (e : exn) :
    read_json w (join model_dir "model_config.json") = Ret d ->
    cd_entry_point d = Some ep ->
    exec_module w (join model_dir ep) = Raise e ->
    manifest_failure w model_dir
| MissingLoadFunction (d : config_data) (ep : string) (m : gmap string pyfunc)
    (l : function_spec) (n : string) :
    read_json w (join model_dir "model_config.json") = Ret d ->
    cd_entry_point d = Some ep ->
    exec_module w (join model_dir ep) = Ret m ->
    cd_load d = Some l ->
    declared_name l = Some n ->
    m !! n = None ->
    manifest_failure w model_dir
| LoadFunctionRaises (d : config_data) (ep mf : string) (m : gmap string pyfunc)
    (l : function_spec) (n : string) (f : pyfunc) :
    read_json w (join model_dir "model_config.json") = Ret d ->
    cd_entry_point d = Some ep ->
    exec_module w (join model_dir ep) = Ret m ->
    cd_load d = Some l ->
    declared_name l = Some n ->
    m !! n = Some f ->
    cd_model_file d = Some mf ->
    (forall kw,
        (forall k,
            kw !! k
            = if String.eqb k "model_path"
                 && in_list "model_path" (default [] (fs_args l))
              then Some (PStr (join model_dir mf))
              else if String.eqb k "model_dir"
                      && in_list "model_dir" (default [] (fs_args l))
                   then Some (PStr model_dir)
                   else None) ->
        raised (fn_call f [] kw) = true) ->
    manifest_failure w model_dir.

(** The positional arguments the search for a predict function chooses
    from the number of parameters: none, the input, or the handle and the
    input. *)
Definition predict_arguments (params : nat) (m x : pyval) : list pyval :=
  match params with
  | 0 => []
  | 1 => [x]
  | _ => [m; x]
  end.

(** The candidate [n] of script [s] is passed over by the search for a
    predict function: it is not defined, or its introspection or its call
    raises something other than a TypeError. *)
Definition predict_candidate_skipped (s : gmap string pyfunc) (m x : pyval)
    (n : string) : bool :=
  match s !! n with
  | None => true
  | Some f =>
      match fn_signature f with
      | Raise e => negb (is_class TypeError e)
      | Ret params =>
          match fn_call f (predict_arguments params m x) ∅ with
          | Raise e => negb (is_class TypeError e)
          | Ret _ => false
          end
      end
  end.

(** What passing over the candidate [n] is expected to leave in the list
    of calls. *)
Definition predict_skip_events (s : gmap string pyfunc) (m x : pyval)
    (n : string) : list event :=
  match s !! n with
  | None => []
  | Some f =>
      EvSignature n ::
      match fn_signature f with
      | Raise _ => [EvWarn (WCandidateFailed n)]
      | Ret params =>
          [EvCall n (predict_arguments params m x) ∅; EvWarn (WCandidateFailed n)]
      end
  end.

(** The inputs the later [_predict_sklearn] treats as text: a string, a
    list that starts with a string, or a list that starts with a list
    starting with a string. *)
Definition text_input (x : pyval) : bool :=
  isinstance_str x
  || (isinstance_list x && (0 <? len x)%nat && isinstance_str (item0 x))
  || (isinstance_list x && (0 <? len x)%nat && isinstance_list (item0 x)
      && ((0 <? len (item0 x))%nat && isinstance_str (item0 (item0 x)))).

(** Numbers, and lists of them to any depth *)
Fixpoint numeric_input (x : pyval) : bool :=
  match x with
  | PNum _ | PFloat _ _ => true
  | PList l => forallb numeric_input l
  | _ => false
  end.

(** ** Sample deployments, used to run the loaders on concrete inputs *)

Module Samples.

Definition no_such_file {A} (p : string) : outcome A :=
  Raise (Exn FileNotFoundError ("No such file or directory: " +:+ p)).

Definition no_method (m x : pyval) : outcome pyval :=
  Raise (Exn AttributeError "object has no such method").

(** [np.array] on nested lists as NumPy 1.24 and later have it: rows of
    unequal length are refused, anything else becomes an array. *)
Definition ragged (v : pyval) : bool :=
  match v with
  | PList (PList r :: rest) =>
      negb (forallb (fun x => isinstance_list x && (len x =? length r)%nat) rest)
  | _ => false
  end.

Definition numpy_array (v : pyval) : outcome pyval :=
  if ragged v
  then Raise (Exn ValueError "setting an array element with a sequence.")
  else Ret (PNdarray v).

(** A deployment: the files and directories that exist, the scripts that
    can be imported, the manifest, whether the pydantic schema is
    importable, what unpickling gives and how a scikit-learn model
    answers. *)
Definition deployment (files dirs : list string)
    (scripts : string -> outcome (gmap string pyfunc))
    (manifest : string -> outcome config_data) (schema : bool)
    (pickle : string -> outcome pyval)
    (sk : pyval -> pyval -> outcome pyval) : world :=
  World (fun p => in_list p files || in_list p dirs) (fun p => in_list p dirs)
        scripts manifest schema
        no_such_file no_such_file no_such_file no_such_file pickle
        no_method no_method no_method sk
        (fun _ => None) (fun _ => None) numpy_array.

(** A function of [n] parameters answering [r] to any call *)
Definition constant (n : nat) (r : outcome pyval) : pyfunc :=
  PyFunc (Ret n) (fun _ _ => r).

(** A function of [n] parameters that insists on [n] positional arguments *)
Definition strict (n : nat) (r : list pyval -> outcome pyval) : pyfunc :=
  PyFunc (Ret n)
    (fun pos kw =>
       if (length pos =? n)%nat then r pos
       else Raise (Exn TypeError "wrong number of positional arguments")).

(** A world whose only content is the attribute table of its objects *)
Definition tensors (tolist numpy : nat -> option (outcome pyval)) : world :=
  World (fun _ => false) (fun _ => false) no_such_file no_such_file true
        no_such_file no_such_file no_such_file no_such_file no_such_file
        no_method no_method no_method no_method tolist numpy numpy_array.

Definition the_model : pyval := PObj 1.
Definition a_label : pyval := PList [PStr "positive"].

(** Nothing on disk *)
Definition empty_disk : world :=
  deployment [] [] no_such_file no_such_file true no_such_file no_method.

(** A model.pkl that cannot be unpickled *)
Definition corrupt {A} (p : string) : outcome A :=
  Raise (Exn RuntimeError "invalid load key").

Definition corrupt_disk : world :=
  deployment ["model.pkl"] [] no_such_file no_such_file true corrupt no_method.

(** Two directories holding a TensorFlow SavedModel: bundle.pkl and models/1 *)
Definition saved_model_dir : world :=
  deployment ["bundle.pkl/saved_model.pb"; "models/1/saved_model.pb"]
    ["bundle.pkl"; "models/1"]
    no_such_file no_such_file true no_such_file no_method.

(** A session whose script guards its own state: predict raises the very
    message the loader uses for an unloaded session. *)
Definition guarded_script : gmap string pyfunc :=
  {[ "predict" :=
       constant 2 (Raise (Exn ValueError "Model not loaded. Call load_model() first.")) ]}.

Definition guarded_session : session :=
  Session the_model (Some "custom") (Some "model.pkl") (Some guarded_script)
          true NoConfig.

(** A script whose load_model answers None, next to a model file that
    cannot be unpickled *)
Definition null_loader_script : gmap string pyfunc :=
  {[ "load_model" := constant 1 (Ret PNone) ]}.

Definition null_loader_disk : world :=
  deployment ["model.pkl"; "inference.py"] []
    (fun p => if String.eqb p "inference.py" then Ret null_loader_script
              else no_such_file p)
    no_such_file true corrupt no_method.

Definition sklearn_session : session :=
  Session the_model (Some "sklearn") (Some "old.pkl") None false NoConfig.

(** A manifest deployment under /app/user_model.  The manifest declares
    [classify(input_data)] as the predict function; the script also has a
    two-parameter helper called [predict]. *)
Definition a_manifest (load_args predict_args : list string) : config_data :=
  ConfigData (Some "Movie reviews") (Some "1.0.0") (Some "custom")
    (Some "inference.py") None None
    (Some (FunctionSpec (Some "load_model") None (Some load_args)))
    (Some (FunctionSpec (Some "classify") None (Some predict_args)))
    (Some "model.pkl") None.

(** The same manifest with the name of the load function left out *)
Definition broken_manifest : config_data :=
  ConfigData (Some "Movie reviews") (Some "1.0.0") (Some "custom")
    (Some "inference.py") None None
    (Some (FunctionSpec None None (Some ["model_path"])))
    (Some (FunctionSpec (Some "classify") None (Some ["input_data"])))
    (Some "model.pkl") None.

(** The same manifest with the name of the predict function left out *)
Definition unnamed_predict_manifest : config_data :=
  ConfigData (Some "Movie reviews") (Some "1.0.0") (Some "custom")
    (Some "inference.py") None None
    (Some (FunctionSpec (Some "load_model") None (Some ["model_path"])))
    (Some (FunctionSpec None None (Some ["input_data"])))
    (Some "model.pkl") None.

Definition helper_answer : pyval := PList [PStr "raw scores"].

Definition manifest_script : gmap string pyfunc :=
  {[ "load_model" := constant 1 (Ret the_model);
     "classify" := constant 1 (Ret a_label);
     "predict" := constant 2 (Ret helper_answer) ]}.

Definition manifest_disk (schema : bool) (manifest : config_data) : world :=
  deployment
    ["/app/user_model/model_config.json"; "/app/user_model/inference.py";
     "/app/user_model/model.pkl"]
    ["/app/user_model"]
    (fun p => if String.eqb p "/app/user_model/inference.py" then Ret manifest_script
              else no_such_file p)
    (fun p => if String.eqb p "/app/user_model/model_config.json" then Ret manifest
              else no_such_file p)
    schema no_such_file no_method.

(** An explicit script whose load_model raises, whose load answers None
    and whose initialize takes the model path and the model directory *)
Definition staged_script : gmap string pyfunc :=
  {[ "load_model" := constant 1 (Raise (Exn RuntimeError "weights file is corrupt"));
     "load" := constant 0 (Ret PNone);
     "initialize" := strict 2 (fun _ => Ret the_model) ]}.

(** An explicit script that only defines predict *)
Definition predict_only_script : gmap string pyfunc :=
  {[ "predict" := constant 2 (Ret a_label) ]}.

Definition script_disk (script : gmap string pyfunc) : world :=
  deployment ["model.pkl"; "custom/inference.py"] []
    (fun p => if String.eqb p "custom/inference.py" then Ret script
              else no_such_file p)
    no_such_file true (fun _ => Ret the_model) no_method.

(** A model directory whose handler.py can load the model, an explicit
    script outside it that only defines predict, and a model file whose
    suffix no adapter knows *)
Definition handler_script : gmap string pyfunc :=
  {[ "load_model" := constant 1 (Ret the_model) ]}.

Definition shadowed_disk : world :=
  deployment ["/srv/m/weights.bin"; "/srv/m/handler.py"; "custom/inference.py"]
    ["/srv/m"]
    (fun p => if String.eqb p "custom/inference.py" then Ret predict_only_script
              else if String.eqb p "/srv/m/handler.py" then Ret handler_script
                   else no_such_file p)
    no_such_file true no_such_file no_method.

(** A scikit-learn model that answers a label to anything *)
Definition labelling_disk : world :=
  deployment [] [] no_such_file no_such_file true no_such_file
    (fun _ _ => Ret a_label).

(** A session loaded by the heuristics, whose script was written in a way
    [inspect.signature] cannot handle. *)
Definition heuristic_session (script : gmap string pyfunc) : session :=
  Session the_model (Some "custom") (Some "model.pkl") (Some script) true NoConfig.

(** [predict] cannot be introspected (TypeError); called with the input
    alone it rejects the input with a ValueError, called with the model
    and the input it answers. *)
Definition opaque_predict : pyfunc :=
  PyFunc (Raise (Exn TypeError "unsupported callable"))
    (fun pos _ =>
       match pos with
       | [_; _] => Ret a_label
       | _ => Raise (Exn ValueError "bad input")
       end).

(** [predict] cannot be introspected (TypeError) and takes the model and
    the input. *)
Definition two_argument_predict : pyfunc :=
  PyFunc (Raise (Exn TypeError "unsupported callable"))
    (fun pos _ =>
       match pos with
       | [_; _] => Ret a_label
       | _ => Raise (Exn TypeError "missing 1 required positional argument")
       end).

(** [predict] has no signature to report (ValueError) but answers to the
    input alone. *)
Definition builtin_predict : pyfunc :=
  PyFunc (Raise (Exn ValueError "no signature found"))
    (fun pos _ =>
       match pos with
       | [_] => Ret a_label
       | _ => Raise (Exn TypeError "takes exactly one argument")
       end).

End Samples.

(** * Properties *)

Import Samples.

(** ** Paths *)

Example suffix_examples :
  suffix "/app/user_model/model.pkl" = ".pkl" /\
  suffix "weights/Net.PTH" = ".PTH" /\
  suffix "archive.tar.gz" = ".gz" /\
  suffix "bundle.pkl/" = ".pkl" /\
  suffix ".hidden" = "" /\
  suffix "name." = "" /\
  suffix "saved_model" = "".
Proof. repeat split; reflexivity. Qed.

Example join_dirname_examples :
  join "/app/user_model" "model_config.json" = "/app/user_model/model_config.json" /\
  join "dir/" "x.py" = "dir/x.py" /\
  join "dir" "/abs/x.py" = "/abs/x.py" /\
  dirname "/app/user_model/model.pkl" = "/app/user_model" /\
  dirname "model.pkl" = "" /\
  dirname "/model.pkl" = "/".
Proof. repeat split; reflexivity. Qed.

Lemma in_list_In (x : string) (l : list string) : in_list x l = true <-> In x l.
Proof.
  unfold in_list. rewrite existsb_exists. split.
  - intros (y & Hy & E). apply String.eqb_eq in E. now subst.
  - intros H. exists x. split; [done | apply String.eqb_refl].
Qed.

Lemma in_list_false (x : string) (l : list string) : ~ In x l -> in_list x l = false.
Proof.
  intros H. destruct (in_list x l) eqn:E; [|done].
  apply in_list_In in E. contradiction.
Qed.

(** Unfolding of the monad's operations *)
Ltac run :=
  unfold bind, ret, raise, lift, get, modify, emit, try_except, call, signature in *;
  simpl in *.

(** ** Framework detection *)

Lemma unknown_suffix (ext : string) :
  ~ In ext [".pt"; ".pth"; ".h5"; ".onnx"; ".pkl"] ->
  in_list ext [".pt"; ".pth"] = false /\ in_list ext [".h5"] = false /\
  String.eqb ext ".onnx" = false /\ String.eqb ext ".pkl" = false.
Proof.
  intros Hn. repeat split.
  - apply in_list_false. simpl in *. tauto.
  - apply in_list_false. simpl in *. tauto.
  - apply String.eqb_neq. intros ->. apply Hn. simpl. tauto.
  - apply String.eqb_neq. intros ->. apply Hn. simpl. tauto.
Qed.

(** C6, as the code has it: the suffix is compared after lower-casing and
    the suffix table is consulted before the directory test.  A path whose
    lower-cased suffix is .pt or .pth gives pytorch, .h5 gives tensorflow,
    .onnx gives onnx, .pkl gives sklearn; a path whose lower-cased suffix
    is none of these gives tensorflow when it is a directory containing
    saved_model.pb, and raises the "could not detect" error when it is not
    a directory. *)
Theorem detect_framework_table (w : world) (p : string) :
  let ext := lower (suffix p) in
  (ext = ".pt" \/ ext = ".pth" -> _detect_framework w p = Ret "pytorch") /\
  (ext = ".h5" -> _detect_framework w p = Ret "tensorflow") /\
  (ext = ".onnx" -> _detect_framework w p = Ret "onnx") /\
  (ext = ".pkl" -> _detect_framework w p = Ret "sklearn") /\
  (~ In ext [".pt"; ".pth"; ".h5"; ".onnx"; ".pkl"] ->
   path_isdir w p = true ->
   path_exists w (join p "saved_model.pb") = true ->
   _detect_framework w p = Ret "tensorflow") /\
  (~ In ext [".pt"; ".pth"; ".h5"; ".onnx"; ".pkl"] ->
   path_isdir w p = false ->
   _detect_framework w p
   = Raise (Exn ValueError ("Could not detect framework for: " +:+ p))).
Proof.
  intros ext. unfold _detect_framework. fold ext.
  repeat split.
  - intros [-> | ->]; reflexivity.
  - intros ->; reflexivity.
  - intros ->; reflexivity.
  - intros ->; reflexivity.
  - intros Hn Hd He. destruct (unknown_suffix ext Hn) as (-> & -> & -> & ->).
    now rewrite Hd, He.
  - intros Hn Hd. destruct (unknown_suffix ext Hn) as (-> & -> & -> & ->).
    now rewrite Hd.
Qed.

Lemma detect_framework_table_witness :
  _detect_framework saved_model_dir "weights/Net.PTH" = Ret "pytorch" /\
  _detect_framework saved_model_dir "model.h5" = Ret "tensorflow" /\
  _detect_framework saved_model_dir "model.onnx" = Ret "onnx" /\
  _detect_framework saved_model_dir "model.pkl" = Ret "sklearn" /\
  _detect_framework saved_model_dir "models/1" = Ret "tensorflow" /\
  _detect_framework empty_disk "notes.txt"
  = Raise (Exn ValueError "Could not detect framework for: notes.txt").
Proof.
  split; [|split; [|split; [|split; [|split]]]].
  - destruct (detect_framework_table saved_model_dir "weights/Net.PTH")
      as (H & _). apply H. right. reflexivity.
  - destruct (detect_framework_table saved_model_dir "model.h5")
      as (_ & H & _). apply H. reflexivity.
  - destruct (detect_framework_table saved_model_dir "model.onnx")
      as (_ & _ & H & _). apply H. reflexivity.
  - destruct (detect_framework_table saved_model_dir "model.pkl")
      as (_ & _ & _ & H & _). apply H. reflexivity.
  - destruct (detect_framework_table saved_model_dir "models/1")
      as (_ & _ & _ & _ & H & _). apply H.
    + vm_compute. intuition discriminate.
    + reflexivity.
    + reflexivity.
  - destruct (detect_framework_table empty_disk "notes.txt")
      as (_ & _ & _ & _ & _ & H). apply H.
    + vm_compute. intuition discriminate.
    + reflexivity.
Defined.

(** C6 as stated fails twice: a directory that contains saved_model.pb but
    is named bundle.pkl is tagged sklearn, and the file MODEL.PKL, whose
    suffix is none of the five listed, is tagged sklearn instead of
    raising. *)
Lemma detect_framework_counterexample :
  (path_isdir saved_model_dir "bundle.pkl" = true /\
   path_exists saved_model_dir (join "bundle.pkl" "saved_model.pb") = true /\
   _detect_framework saved_model_dir "bundle.pkl" = Ret "sklearn" /\
   _detect_framework saved_model_dir "bundle.pkl" <> Ret "tensorflow") /\
  (path_isdir saved_model_dir "MODEL.PKL" = false /\
   ~ In (suffix "MODEL.PKL") [".pt"; ".pth"; ".h5"; ".onnx"; ".pkl"] /\
   _detect_framework saved_model_dir "MODEL.PKL" = Ret "sklearn").
Proof.
  repeat split; try reflexivity.
  - discriminate.
  - vm_compute. intuition discriminate.
Qed.

(** ** The scikit-learn predict path *)

(** What [_predict_sklearn] does with any input: when
    [sklearn_argument] gives an argument, one call of the model's
    [predict] on it; when the conversion raises, nothing but that
    exception. *)
Lemma predict_sklearn_run (w : world) (input_data : pyval) (st : state) :
  _predict_sklearn w input_data st
  = match sklearn_argument w input_data with
    | Ret x =>
        (sklearn_predict w (model (self st)) x,
         State (self st) (calls st ++ [EvAdapterPredict "sklearn" x]))
    | Raise e => (Raise e, st)
    end.
Proof.
  unfold _predict_sklearn. run.
  destruct (sklearn_argument w input_data) as [x|e]; [|now destruct st].
  now destruct (sklearn_predict w _ _).
Qed.

Lemma first_or_self_singletons (ss : list string) :
  List.map first_or_self (List.map (fun s => PList [PStr s]) ss) = List.map PStr ss.
Proof. induction ss as [|s ss IH]; simpl; [done | now rewrite IH]. Qed.

Lemma numeric_input_not_text (x : pyval) :
  numeric_input x = true -> text_input x = false /\ isinstance_ndarray x = false.
Proof.
  destruct x as [| | | |l| | | |]; try discriminate; try (split; reflexivity).
  destruct l as [|a l]; [split; reflexivity|].
  cbn [numeric_input forallb]. intros H. apply andb_prop in H as [Ha _].
  destruct a as [| | | |r| | | |]; try discriminate; try (split; reflexivity).
  destruct r as [|b r]; [split; reflexivity|].
  cbn [numeric_input forallb] in Ha. apply andb_prop in Ha as [Hb _].
  destruct b; try discriminate; split; reflexivity.
Qed.

Lemma sklearn_argument_numeric (w : world) (x : pyval) :
  text_input x = false ->
  sklearn_argument w x = if negb (isinstance_ndarray x) then np_array w x else Ret x.
Proof.
  unfold text_input, sklearn_argument.
  destruct (isinstance_str x); [discriminate|]. cbn [orb].
  destruct (isinstance_list x && (0 <? len x)%nat && isinstance_str (item0 x));
    [discriminate|]. cbn [orb].
  now intros ->.
Qed.

(** C7, as the code has it.  For text the model's predict is invoked
    once, on: the one-element list for a single string; the input itself
    for a list that starts with a string; for a list that starts with a
    non-empty list starting with a string, the list made of the first
    element of every non-empty inner list (other items kept as they are),
    which for a list of one-element lists of strings is the flat list of
    these strings.  Any other input that is not yet an array, so a
    number, a list of numbers or a list of lists of numbers, is handed to
    [np.array]: when that gives an array the model's predict is invoked
    once on the array; when it raises, as for rows of unequal length, the
    exception is raised and the model is not invoked.  An input that
    already is an array is passed as it is. *)
Theorem predict_sklearn_input_shapes (w : world) (st : state) :
  let invoked input x :=
    _predict_sklearn w input st
    = (sklearn_predict w (model (self st)) x,
       State (self st) (calls st ++ [EvAdapterPredict "sklearn" x])) in
  let converted input :=
    match np_array w input with
    | Ret a => invoked input a
    | Raise e => _predict_sklearn w input st = (Raise e, st)
    end in
  (forall s, invoked (PStr s) (PList [PStr s])) /\
  (forall s l, invoked (PList (PStr s :: l)) (PList (PStr s :: l))) /\
  (forall s r l,
      invoked (PList (PList (PStr s :: r) :: l))
              (PList (PStr s :: List.map first_or_self l))) /\
  (forall ss : list string, ss <> [] ->
      invoked (PList (List.map (fun s => PList [PStr s]) ss))
              (PList (List.map PStr ss))) /\
  (forall input,
      text_input input = false -> isinstance_ndarray input = false ->
      converted input) /\
  (forall input, numeric_input input = true -> converted input) /\
  (forall src, invoked (PNdarray src) (PNdarray src)).
Proof.
  intros invoked converted. unfold converted, invoked.
  assert (forall input,
             text_input input = false -> isinstance_ndarray input = false ->
             match np_array w input with
             | Ret a =>
                 _predict_sklearn w input st
                 = (sklearn_predict w (model (self st)) a,
                    State (self st) (calls st ++ [EvAdapterPredict "sklearn" a]))
             | Raise e => _predict_sklearn w input st = (Raise e, st)
             end) as Hconv.
  { intros input Ht Ha. rewrite predict_sklearn_run.
    rewrite (sklearn_argument_numeric w input Ht), Ha. cbn [negb].
    now destruct (np_array w input). }
  repeat apply conj; intros; try rewrite predict_sklearn_run.
  - reflexivity.
  - reflexivity.
  - reflexivity.
  - destruct ss as [|s ss]; [done|].
    unfold sklearn_argument. simpl. now rewrite first_or_self_singletons.
  - now apply Hconv.
  - apply Hconv; now apply numeric_input_not_text.
  - reflexivity.
Qed.

Lemma predict_sklearn_input_shapes_witness :
  _predict_sklearn empty_disk (PList [PList [PStr "a"]; PList [PStr "b"]])
    (State init [])
  = (no_method PNone (PList [PStr "a"; PStr "b"]),
     State init [EvAdapterPredict "sklearn" (PList [PStr "a"; PStr "b"])]) /\
  _predict_sklearn empty_disk (PList [PList [PNum 1; PNum 2]; PList [PNum 3]])
    (State init [])
  = (Raise (Exn ValueError "setting an array element with a sequence."),
     State init []) /\
  _predict_sklearn empty_disk (PList [PList [PFloat 41 (-3); PNum 2]])
    (State init [])
  = (no_method PNone (PNdarray (PList [PList [PFloat 41 (-3); PNum 2]])),
     State init
       [EvAdapterPredict "sklearn" (PNdarray (PList [PList [PFloat 41 (-3); PNum 2]]))]).
Proof.
  destruct (predict_sklearn_input_shapes empty_disk (State init []))
    as (_ & _ & _ & H & _ & N & _).
  split; [|split].
  - apply (H ["a"; "b"]). discriminate.
  - apply (N (PList [PList [PNum 1; PNum 2]; PList [PNum 3]])). reflexivity.
  - apply (N (PList [PList [PFloat 41 (-3); PNum 2]])). reflexivity.
Defined.

(** C7 as stated fails on inner lists of more than one element and on inner
    lists that do not start with a string: only the first element of each
    inner list is kept, whatever it is. *)
Lemma predict_sklearn_flatten_counterexample :
  let two := PList [PList [PStr "a"; PStr "b"]; PList [PStr "c"]] in
  let mixed := PList [PList [PStr "a"]; PList [PNum 1]] in
  (sklearn_argument empty_disk two = Ret (PList [PStr "a"; PStr "c"]) /\
   sklearn_argument empty_disk two <> Ret (PList [PStr "a"; PStr "b"; PStr "c"]) /\
   fst (_predict_sklearn empty_disk two (State init []))
   = sklearn_predict empty_disk PNone (PList [PStr "a"; PStr "c"])) /\
  (sklearn_argument empty_disk mixed = Ret (PList [PStr "a"; PNum 1]) /\
   ~ Forall (fun x => isinstance_str x = true) [PStr "a"; PNum 1]).
Proof.
  repeat apply conj; try reflexivity.
  - discriminate.
  - intros H.
    apply Forall_cons_1 in H as [_ H]. apply Forall_cons_1 in H as [H _].
    discriminate.
Qed.

(** ** Output normalisation *)

(** C10.  A prediction that has a [tolist] method is converted by it,
    whether or not it also has a [numpy] method; one that has no [tolist]
    but a [numpy] method is converted by [numpy()] then [tolist()] of the
    array obtained; one that has neither is passed through unchanged. *)
Theorem to_serializable_order (w : world) (prediction : pyval) :
  (forall tolist,
      Api.getattr_tolist w prediction = Some tolist ->
      Api.to_serializable w prediction = tolist) /\
  (forall a tolist,
      Api.getattr_tolist w prediction = None ->
      Api.getattr_numpy w prediction = Some (Ret a) ->
      Api.getattr_tolist w a = Some tolist ->
      Api.to_serializable w prediction = tolist) /\
  (Api.getattr_tolist w prediction = None ->
   Api.getattr_numpy w prediction = None ->
   Api.to_serializable w prediction = Ret prediction).
Proof.
  unfold Api.to_serializable. repeat apply conj.
  - intros tolist ->. reflexivity.
  - intros a tolist -> -> ->. reflexivity.
  - intros -> ->. reflexivity.
Qed.

Lemma to_serializable_order_witness :
  let w :=
    tensors (fun id => if (id =? 7)%nat then Some (Ret (PList [PNum 1])) else None)
            (fun id => if (id <? 9)%nat then Some (Ret (PNdarray (PList [PNum 2])))
                       else None) in
  Api.to_serializable w (PObj 7) = Ret (PList [PNum 1]) /\
  Api.to_serializable w (PObj 8) = Ret (PList [PNum 2]) /\
  Api.to_serializable w (PObj 9) = Ret (PObj 9).
Proof.
  intros w. split; [|split].
  - destruct (to_serializable_order w (PObj 7)) as (H & _).
    apply H. reflexivity.
  - destruct (to_serializable_order w (PObj 8)) as (_ & H & _).
    apply (H (PNdarray (PList [PNum 2]))); reflexivity.
  - destruct (to_serializable_order w (PObj 9)) as (_ & _ & H).
    apply H; reflexivity.
Defined.

(** On the route, the converted value is what the response carries. *)
Lemma predict_route_serializes (w : world) (st st' : state) (input v : pyval) :
  Api.predict w input st = (Ret v, st') ->
  fst (Api.predict_route w (Some st) input)
  = match Api.to_serializable w v with
    | Ret j => Api.PredictResponse j (model_path (self st')) (framework (self st'))
    | Raise e => Api.HTTPException 500 ("Prediction failed: " +:+ exn_msg e)
    end.
Proof.
  intros H. unfold Api.predict_route. simpl. unfold bind at 1. rewrite H.
  unfold lift. now destruct (Api.to_serializable w v).
Qed.

(** ** The session after load_model *)

Lemma load_builtin_state (w : world) (p : string) (fw : option string) (st : state) :
  match load_builtin w p fw st with
  | (Ret v, st') => model (self st') = v /\ framework (self st') <> None
  | (Raise _, st') => model (self st') = model (self st)
  end.
Proof.
  unfold load_builtin, _load_pytorch, _load_tensorflow, _load_onnx, _load_sklearn,
    or_not_installed.
  run.
  repeat case_match; simplify_eq; simpl; auto.
Qed.

Lemma api_load_custom_state (w : world) (p : string) (cip : option string) (st : state) :
  match Api.load_custom w p cip st with
  | (Ret (Some v), st') => model (self st') = v /\ framework (self st') <> None
  | (_, st') => model (self st') = model (self st)
  end.
Proof.
  unfold Api.load_custom, Api._load_custom_inference. run.
  repeat case_match; simplify_eq; simpl; auto.
Qed.

(** C5, as the code has it.  When load_model returns, in either loader,
    the handle of the session is the value returned; the framework tag
    is then set in the API loader, and in the deployed loader whenever the
    load did not go through a manifest (a manifest load stores what the
    manifest gives for its framework, which this statement leaves open).
    When load_model of the API loader raises, the handle is the one the
    session had before the call. *)
Theorem load_model_outcome_state :
  (forall (w : world) (p : string) (fw cip : option string) (st : state),
      match Api.load_model w p fw cip st with
      | (Ret v, st') => model (self st') = v /\ framework (self st') <> None
      | (Raise _, st') => model (self st') = model (self st)
      end) /\
  (forall (w : world) (p : string) (fw cip dir : option string) (st : state),
      match App.load_model w p fw cip dir st with
      | (Ret v, st') =>
          model (self st') = v /\
          (App.manifest_present w dir = true \/ framework (self st') <> None)
      | (Raise _, st') => True
      end).
Proof.
  split.
  - intros. unfold Api.load_model. unfold bind at 1. unfold modify at 1.
    unfold bind.
    pose proof (api_load_custom_state w p cip
                  (State (set_model_path (Some p) (self st)) (calls st))) as L.
    destruct (Api.load_custom w p cip _) as [[[v|]|e] st1]; simpl in *; auto.
    pose proof (load_builtin_state w p fw st1) as B.
    destruct (load_builtin w p fw st1) as [[v|e] st2]; simpl in *; [done|congruence].
  - intros. unfold App.load_model. run.
    destruct (App.manifest_present w dir).
    + unfold App._load_from_config. run.
      repeat case_match; simplify_eq; simpl; auto.
    + unfold App.load_custom. run.
      repeat case_match; simplify_eq; simpl;
        try match goal with
            | H : load_builtin ?w ?p ?fw ?s = _ |- _ =>
                let L := fresh in
                pose proof (load_builtin_state w p fw s) as L;
                rewrite H in L; simpl in L; destruct L
            end;
        auto.
Qed.

(** C5 as stated fails: a first load whose model file cannot be unpickled leaves
    the framework tag set next to a null handle; and in the deployed
    loader a failed reload replaces the prior handle by None. *)
Lemma load_model_partial_state_counterexample :
  (let r := Api.load_model corrupt_disk "model.pkl" None None (State init []) in
   raised (fst r) = true /\
   model (self (snd r)) = PNone /\
   framework (self (snd r)) = Some "sklearn" /\
   ~ (model (self (snd r)) <> PNone <-> framework (self (snd r)) <> None)) /\
  (let r := App.load_model null_loader_disk "model.pkl" None (Some "inference.py")
              None (State sklearn_session []) in
   raised (fst r) = true /\
   model sklearn_session = the_model /\
   model (self (snd r)) = PNone).
Proof.
  split.
  - cbv zeta. repeat apply conj; try reflexivity.
    intros [_ H]. vm_compute in H. apply H; congruence.
  - cbv zeta. repeat apply conj; vm_compute; reflexivity.
Qed.

(** ** Predicting on an unloaded session *)

Lemma predict_unloaded (w : world) (st : state) (input : pyval) :
  model (self st) = PNone ->
  Api.predict w input st = (Raise Api.not_loaded, st).
Proof. intros H. unfold Api.predict. run. now rewrite H. Qed.

Lemma predict_route_unloaded (w : world) (st : state) (input : pyval) :
  model (self st) = PNone ->
  Api.predict_route w (Some st) input
  = (Api.HTTPException 500 "Prediction failed: Model not loaded. Call load_model() first.",
     Some st).
Proof.
  intros H. unfold Api.predict_route. simpl. unfold bind.
  now rewrite (predict_unloaded w st input H).
Qed.

(** Once main.py has stored a loader, the route answers 200 or 500, never
    the 503 of [get_model_loader]. *)
Lemma predict_route_status (w : world) (st : state) (input : pyval) :
  match fst (Api.predict_route w (Some st) input) with
  | Api.PredictResponse _ _ _ => True
  | Api.HTTPException code _ => code = 500%nat
  | Api.InfoResponse _ _ => False
  end.
Proof.
  unfold Api.predict_route. simpl.
  destruct (bind _ _ st) as [[v|e] st']; simpl; auto.
Qed.

(** C8 on the code.  The loader left by a failed start-up load is
    unloaded; POST /predict answers it with status 500 and a "Prediction
    failed: ..." detail, exactly the response given for a loaded session
    whose predict function raises with that message, while GET /info
    answers the same unloaded loader with 503. *)
Theorem predict_unloaded_conflated :
  let unloaded :=
    snd (Api.load_model corrupt_disk "model.pkl" None None (State init [])) in
  let loaded := State guarded_session [] in
  let failure :=
    Api.HTTPException 500 "Prediction failed: Model not loaded. Call load_model() first." in
  model (self unloaded) = PNone /\
  model (self loaded) = the_model /\
  fst (Api.predict_route corrupt_disk (Some unloaded) (PStr "good movie")) = failure /\
  fst (Api.predict_route corrupt_disk (Some loaded) (PStr "good movie")) = failure /\
  Api.model_info (Some unloaded) = Api.HTTPException 503 "Model not loaded".
Proof.
  cbv zeta. repeat apply conj; reflexivity.
Qed.

(** ** Prediction after a manifest load *)

(** Unfolding of the monad's operations that leaves everything else folded *)
Ltac exec :=
  cbv beta iota zeta delta
    [bind ret raise lift get modify emit try_except call signature record
     App.subscript App.try_except_TypeError App._load_custom_inference] in *;
  cbn [self calls fst snd model framework model_path custom_inference
       use_custom_inference model_config set_model set_framework set_model_path
       set_custom_inference set_use_custom_inference set_model_config] in *.

Lemma load_kwargs_self (mfp dir : string) (args : list string) (kw kw' : gmap string pyval)
    (st st' : state) (r : outcome (gmap string pyval)) :
  App.load_kwargs mfp dir args kw st = (r, st') -> self st' = self st.
Proof.
  revert kw st. induction args as [|a args IH]; intros kw st; simpl.
  - exec. now intros [= _ <-].
  - destruct (String.eqb a "model_path"); [apply IH|].
    destruct (String.eqb a "model_dir"); [apply IH|].
    exec. intros H. now apply IH in H.
Qed.

Lemma parse_and_validate_ret (w : world) (cfg : string) (st st' : state) (d : config_data) :
  App.parse_and_validate w cfg st = (Ret d, st') ->
  read_json w cfg = Ret d /\ calls st' = calls st /\
  exists slot, self st' = set_model_config slot (self st) /\
    if schema_available w
    then exists c, Schema.validate_file w cfg = Ret c /\ slot = ConfigObject c
    else App.missing_fields d = [] /\ slot = ConfigDict d.
Proof.
  unfold App.parse_and_validate. exec. intros H.
  destruct (read_json w cfg) as [d0|e].
  - destruct (schema_available w).
    + destruct (Schema.validate_file w cfg) as [c|e].
      * simplify_eq. simpl. eauto 10.
      * repeat case_match; simplify_eq.
    + destruct (App.missing_fields d0) eqn:Hm.
      * simplify_eq. simpl. eauto 10.
      * repeat case_match; simplify_eq.
  - repeat case_match; simplify_eq.
Qed.

Lemma load_from_config_slot (w : world) (cfg dir : string) (st st' : state) (v : pyval) :
  App._load_from_config w cfg dir st = (Ret v, st') ->
  if schema_available w
  then exists c, model_config (self st') = ConfigObject c
  else exists d, read_json w cfg = Ret d /\ model_config (self st') = ConfigDict d.
Proof.
  unfold App._load_from_config. unfold bind at 1.
  destruct (App.parse_and_validate w cfg st) as [[d|e] st1] eqn:Hp; [|discriminate].
  apply parse_and_validate_ret in Hp as (Hd & _ & slot & Hs & Hslot).
  intros H.
  assert (model_config (self st') = slot) as ->.
  { exec.
    repeat (case_match; try discriminate);
      simplify_eq; cbn;
      match goal with
      | Hk : App.load_kwargs _ _ _ _ _ = _ |- _ =>
          apply load_kwargs_self in Hk; [|exact ∅]; cbn in Hk; rewrite Hk
      end;
      cbn; now rewrite Hs. }
  destruct (schema_available w).
  - destruct Hslot as (c & _ & ->). eauto.
  - destruct Hslot as (_ & ->). eauto.
Qed.

(** [_try_custom_predict] on a session holding the validated object: the
    test [isinstance(self.model_config, dict)] fails and the search through
    the common names starts. *)
Lemma custom_predict_object (c : Schema.ModelConfig) (st : state) (x : pyval) :
  model_config (self st) = ConfigObject c ->
  App._try_custom_predict x st
  = App.try_predict_functions App.predict_functions x
      (record st [EvWarn WFallbackPredict]).
Proof. intros H. unfold App._try_custom_predict. run. now rewrite H. Qed.

(** On a session holding the raw dict, the manifest's predict function is
    the only one called. *)
Lemma custom_predict_dict (d : config_data) (st : state) (x : pyval) :
  model_config (self st) = ConfigDict d ->
  App.dict_truthy d = true ->
  App._try_custom_predict x st = App._predict_from_config d x st.
Proof. intros H T. unfold App._try_custom_predict. run. now rewrite H, T. Qed.

(** C1 on the code.  A deployment whose manifest declares
    [classify(input_data)] is loaded through the manifest, with the schema
    importable; the next predict call logs the fallback warning, inspects
    the script's function named [predict] and returns what that helper
    answers to (model, input).  The declared [classify] is not called. *)
Theorem manifest_session_enters_heuristics :
  let w := manifest_disk true (a_manifest ["model_path"] ["input_data"]) in
  let loaded :=
    App.load_model w "/app/user_model/model.pkl" None None
      (Some "/app/user_model") (State init []) in
  let r := App.predict w (PStr "good movie") (State (self (snd loaded)) []) in
  App.manifest_present w (Some "/app/user_model") = true /\
  fst loaded = Ret the_model /\
  calls (snd r)
  = [EvWarn WFallbackPredict; EvSignature "predict";
     EvCall "predict" [the_model; PStr "good movie"] ∅] /\
  fst r = Ret helper_answer /\
  fn_call (constant 1 (Ret a_label)) [] {[ "input_data" := PStr "good movie" ]}
  <> fst r.
Proof.
  cbv zeta. repeat apply conj; try (vm_compute; reflexivity).
  vm_compute. discriminate.
Qed.

(** The same deployment where the schema module cannot be imported: the
    declared function is called, with the declared keyword. *)
Lemma manifest_session_without_schema :
  let w := manifest_disk false (a_manifest ["model_path"] ["input_data"]) in
  let loaded :=
    App.load_model w "/app/user_model/model.pkl" None None
      (Some "/app/user_model") (State init []) in
  let r := App.predict w (PStr "good movie") (State (self (snd loaded)) []) in
  fst loaded = Ret the_model /\
  calls (snd r) = [EvCall "classify" [] {[ "input_data" := PStr "good movie" ]}] /\
  fst r = Ret a_label.
Proof. cbv zeta. repeat apply conj; vm_compute; reflexivity. Qed.

(** ** The direct-call fallback of the heuristic predict search *)

(** What one round of the search does for a candidate whose introspection
    raises a TypeError. *)
Lemma direct_call_fallback (n : string) (f : pyfunc) (x : pyval) (st : state) (e : exn) :
  fn_signature f = Raise e ->
  is_class TypeError e = true ->
  let m := model (self st) in
  let tried := [EvSignature n; EvWarn (WSignatureCheckFailed n); EvCall n [x] ∅] in
  App.try_predict_function n f x st
  = match fn_call f [x] ∅ with
    | Ret v => (Ret (Some v), record st tried)
    | Raise e1 =>
        if is_class TypeError e1 then
          match fn_call f [m; x] ∅ with
          | Ret v => (Ret (Some v), record st (tried ++ [EvCall n [m; x] ∅]))
          | Raise e2 =>
              (Ret None,
               record st (tried ++ [EvCall n [m; x] ∅; EvWarn (WCandidateFailed n)]))
          end
        else (Raise e1, record st tried)
    end.
Proof.
  intros Hs Ht m tried. subst m tried. unfold App.try_predict_function. exec.
  rewrite Hs, Ht.
  destruct (fn_call f [x] ∅) as [v|e1]; cbn [self calls].
  - now rewrite <- !app_assoc.
  - destruct (is_class TypeError e1); cbn [self calls].
    + destruct (fn_call f [model (self st); x] ∅); cbn [self calls];
        now rewrite <- !app_assoc.
    + now rewrite <- !app_assoc.
Qed.

(** A candidate whose introspection raises anything but a TypeError is
    given up without a call. *)
Lemma introspection_error_skips (n : string) (f : pyfunc) (x : pyval) (st : state)
    (e : exn) :
  fn_signature f = Raise e ->
  is_class TypeError e = false ->
  App.try_predict_function n f x st
  = (Ret None, record st [EvSignature n; EvWarn (WCandidateFailed n)]).
Proof.
  intros Hs Ht. unfold App.try_predict_function. exec. rewrite Hs, Ht.
  cbn [self calls]. now rewrite <- !app_assoc.
Qed.

(** C9 on the code.  [predict] cannot be introspected; its call with the
    input alone raises a ValueError, which leaves [_try_custom_predict] at
    once: the call with the model and the input, which would answer, is
    not made and the next candidate, [inference], is not tried.  And a
    [predict] whose introspection raises a ValueError is given up without
    any direct call, although it answers to the input alone. *)
Theorem direct_call_error_aborts_resolution :
  let x := PStr "good movie" in
  let script : gmap string pyfunc :=
    {[ "predict" := opaque_predict; "inference" := constant 1 (Ret a_label) ]} in
  let r := App._try_custom_predict x (State (heuristic_session script) []) in
  let r' := App._try_custom_predict x
              (State (heuristic_session {[ "predict" := builtin_predict ]}) []) in
  (fst r = Raise (Exn ValueError "bad input") /\
   calls (snd r)
   = [EvWarn WFallbackPredict; EvSignature "predict";
      EvWarn (WSignatureCheckFailed "predict"); EvCall "predict" [x] ∅] /\
   fn_call opaque_predict [the_model; x] ∅ = Ret a_label) /\
  (raised (fst r') = true /\
   calls (snd r')
   = [EvWarn WFallbackPredict; EvSignature "predict";
      EvWarn (WCandidateFailed "predict")] /\
   fn_call builtin_predict [x] ∅ = Ret a_label).
Proof. cbv zeta. repeat apply conj; vm_compute; reflexivity. Qed.

(** Where the first direct attempt raises a TypeError, the second one is
    made and its answer returned. *)
Lemma direct_call_two_attempts :
  let x := PStr "good movie" in
  let r := App._try_custom_predict x
             (State (heuristic_session {[ "predict" := two_argument_predict ]}) []) in
  fst r = Ret a_label /\
  calls (snd r)
  = [EvWarn WFallbackPredict; EvSignature "predict";
     EvWarn (WSignatureCheckFailed "predict"); EvCall "predict" [x] ∅;
     EvCall "predict" [the_model; x] ∅].
Proof. cbv zeta. repeat apply conj; vm_compute; reflexivity. Qed.

(** ** Argument tokens of the manifest *)

Lemma validate_args_loop_ok (v : list string) :
  Forall (fun a => In a Schema.valid_args) v ->
  Schema.validate_args_loop v = Ret tt.
Proof.
  induction 1 as [|a v Ha _ IH]; [reflexivity|].
  cbn [Schema.validate_args_loop].
  now rewrite (proj2 (in_list_In a Schema.valid_args) Ha).
Qed.

Lemma validate_args_loop_first (pre post : list string) (tok : string) :
  Forall (fun a => In a Schema.valid_args) pre ->
  ~ In tok Schema.valid_args ->
  Schema.validate_args_loop (pre ++ tok :: post) = Raise (Schema.invalid_argument tok).
Proof.
  intros Hpre Htok. induction Hpre as [|a pre Ha _ IH].
  - cbn [app Schema.validate_args_loop]. now rewrite (in_list_false _ _ Htok).
  - cbn [app Schema.validate_args_loop].
    now rewrite (proj2 (in_list_In a Schema.valid_args) Ha).
Qed.

(** A list with a token outside the vocabulary splits at the first one. *)
Lemma first_invalid_token (v : list string) (bad : string) :
  In bad v -> ~ In bad Schema.valid_args ->
  exists pre tok post,
    v = pre ++ tok :: post /\
    Forall (fun a => In a Schema.valid_args) pre /\
    ~ In tok Schema.valid_args.
Proof.
  induction v as [|a v IH]; [intros []|].
  intros Hin Hbad.
  destruct (in_list a Schema.valid_args) eqn:Ha.
  - apply in_list_In in Ha.
    destruct Hin as [-> | Hin]; [contradiction|].
    destruct (IH Hin Hbad) as (pre & tok & post & -> & Hpre & Htok).
    exists (a :: pre), tok, post. repeat split; [now constructor | done].
  - exists [], a, v. repeat split; [constructor|].
    intros Hin'. apply in_list_In in Hin'. congruence.
Qed.

Lemma load_kwargs_run (mfp dir : string) (args : list string) (kw : gmap string pyval)
    (st : state) :
  exists kw',
    App.load_kwargs mfp dir args kw st
    = (Ret kw',
       record st
         (List.map (fun a => EvWarn (WUnknownLoadArg a))
            (List.filter (fun a => negb (in_list a ["model_path"; "model_dir"])) args)))
    /\ (forall tok, ~ In tok ["model_path"; "model_dir"] -> kw' !! tok = kw !! tok).
Proof.
  revert kw st. induction args as [|a args IH]; intros kw st.
  - exists kw. split; [|done]. unfold record. cbn. now rewrite app_nil_r; destruct st.
  - cbn [App.load_kwargs List.filter in_list existsb].
    destruct (String.eqb a "model_path") eqn:E1; cbn [orb negb].
    + destruct (IH (<["model_path" := PStr mfp]> kw) st) as (kw' & -> & Hk).
      exists kw'. split; [done|]. intros tok Ht. rewrite (Hk tok Ht).
      apply lookup_insert_ne. intros <-. apply Ht. simpl. tauto.
    + destruct (String.eqb a "model_dir") eqn:E2; cbn [orb negb].
      * destruct (IH (<["model_dir" := PStr dir]> kw) st) as (kw' & -> & Hk).
        exists kw'. split; [done|]. intros tok Ht. rewrite (Hk tok Ht).
        apply lookup_insert_ne. intros <-. apply Ht. simpl. tauto.
      * exec.
        destruct (IH kw (State (self st) (calls st ++ [EvWarn (WUnknownLoadArg a)])))
          as (kw' & -> & Hk).
        exists kw'. split; [|done]. cbn. now rewrite <- app_assoc.
Qed.

Lemma predict_kwargs_run (x : pyval) (args : list string) (kw : gmap string pyval)
    (st : state) :
  exists kw',
    App.predict_kwargs x args kw st
    = (Ret kw',
       record st
         (List.map (fun a => EvWarn (WUnknownPredictArg a))
            (List.filter (fun a => negb (in_list a ["input_data"; "model"; "data"])) args)))
    /\ (forall tok, ~ In tok ["input_data"; "model"; "data"] -> kw' !! tok = kw !! tok)
    /\ kw' !! "data" = (if in_list "data" args then Some x else kw !! "data").
Proof.
  revert kw st. induction args as [|a args IH]; intros kw st.
  - exists kw. split; [|split; done].
    unfold record. cbn. now rewrite app_nil_r; destruct st.
  - cbn [App.predict_kwargs List.filter in_list existsb].
    destruct (String.eqb a "input_data") eqn:E1; cbn [orb negb].
    { destruct (IH (<["input_data" := x]> kw) st) as (kw' & -> & Hk & Hd).
      exists kw'. split; [done|]. split.
      - intros tok Ht. rewrite (Hk tok Ht).
        apply lookup_insert_ne. intros <-. apply Ht. simpl. tauto.
      - change (in_list "data" (a :: args))
          with (String.eqb "data" a || in_list "data" args).
        rewrite Hd. apply String.eqb_eq in E1 as ->.
        change (String.eqb "data" "input_data") with false. cbn [orb]. fold (in_list "data" args).
        destruct (in_list "data" args); [done|].
        now apply lookup_insert_ne. }
    destruct (String.eqb a "model") eqn:E2; cbn [orb negb].
    { exec.
      destruct (IH (<["model" := model (self st)]> kw) st) as (kw' & -> & Hk & Hd).
      exists kw'. split; [done|]. split.
      - intros tok Ht. rewrite (Hk tok Ht).
        apply lookup_insert_ne. intros <-. apply Ht. simpl. tauto.
      - change (in_list "data" (a :: args))
          with (String.eqb "data" a || in_list "data" args).
        rewrite Hd. apply String.eqb_eq in E2 as ->.
        change (String.eqb "data" "model") with false. cbn [orb]. fold (in_list "data" args).
        destruct (in_list "data" args); [done|].
        now apply lookup_insert_ne. }
    destruct (String.eqb a "data") eqn:E3; cbn [orb negb].
    { destruct (IH (<["data" := x]> kw) st) as (kw' & -> & Hk & Hd).
      exists kw'. split; [done|]. split.
      - intros tok Ht. rewrite (Hk tok Ht).
        apply lookup_insert_ne. intros <-. apply Ht. simpl. tauto.
      - change (in_list "data" (a :: args))
          with (String.eqb "data" a || in_list "data" args).
        rewrite Hd. apply String.eqb_eq in E3 as ->. rewrite String.eqb_refl.
        cbn [orb]. destruct (in_list "data" args); [done|].
        apply lookup_insert_eq. }
    exec.
    destruct (IH kw (State (self st) (calls st ++ [EvWarn (WUnknownPredictArg a)])))
      as (kw' & -> & Hk & Hd).
    exists kw'. split; [|split; [done|]].
    + cbn. now rewrite <- app_assoc.
    + change (in_list "data" (a :: args))
        with (String.eqb "data" a || in_list "data" args).
      rewrite Hd. rewrite String.eqb_sym in E3. now rewrite E3.
Qed.

Lemma validate_args_rejects (v : list string) (bad : string) :
  In bad v -> ~ In bad Schema.valid_args ->
  exists pre tok post,
    v = pre ++ tok :: post /\
    Forall (fun a => In a Schema.valid_args) pre /\
    ~ In tok Schema.valid_args /\
    Schema.validate_args v = Raise (Schema.invalid_argument tok).
Proof.
  intros Hin Hbad.
  destruct (first_invalid_token v bad Hin Hbad) as (pre & tok & post & -> & Hpre & Htok).
  exists pre, tok, post. repeat split; [done..|].
  unfold Schema.validate_args. now rewrite validate_args_loop_first.
Qed.

Lemma parse_FunctionConfig_rejects (loc : string) (spec : option function_spec) :
  has_invalid_token spec -> snd (Schema.parse_FunctionConfig loc spec) = None.
Proof.
  intros (l & tok & -> & Hin & Hbad).
  destruct (validate_args_rejects _ _ Hin Hbad) as (pre & t & post & _ & _ & _ & Hv).
  unfold Schema.parse_FunctionConfig. rewrite Hv.
  now destruct (Schema.required _ (fs_name l)) as [en [n|]].
Qed.

Lemma parse_ModelConfig_rejects (d : config_data) :
  has_invalid_token (cd_load d) \/ has_invalid_token (cd_predict d) ->
  exists msg, Schema.parse_ModelConfig d = Raise (Exn ValueError msg).
Proof.
  intros H. unfold Schema.parse_ModelConfig. cbv zeta.
  destruct H as [H|H].
  - rewrite (parse_FunctionConfig_rejects "load" _ H).
    repeat case_match; eauto.
  - rewrite (parse_FunctionConfig_rejects "predict" _ H).
    repeat case_match; eauto.
Qed.

(** With the schema importable, a manifest with a token outside the
    vocabulary stops [_load_from_config] before anything is imported or
    called. *)
Lemma load_from_config_rejects (w : world) (cfg dir : string) (d : config_data)
    (st : state) :
  schema_available w = true ->
  read_json w cfg = Ret d ->
  has_invalid_token (cd_load d) \/ has_invalid_token (cd_predict d) ->
  exists msg,
    App._load_from_config w cfg dir st = (Raise (Exn ValueError msg), st).
Proof.
  intros Hs Hd Hbad.
  destruct (parse_ModelConfig_rejects d Hbad) as (msg & Hp).
  unfold App._load_from_config, App.parse_and_validate, Schema.validate_file.
  exec. rewrite Hd, Hs. exec. rewrite Hp. cbn [is_class exn_cls exn_msg]. exec.
  destruct st; cbn; eauto.
Qed.

(** C3, as the code has it.  The schema rejects a list of tokens that holds
    one outside {model_path, model_dir, input_data, model}, with an error
    naming the first such token, and where the schema is importable a
    manifest with such a token in load.args or predict.args stops the
    manifest load with a ValueError before anything is called.  The
    loader's own argument binding does not check the vocabulary: for the
    load function every token other than model_path and model_dir is
    skipped with a warning; for the predict function data is bound to the
    input like input_data, and every token other than input_data, model
    and data is skipped with a warning.  Neither binding raises. *)
Theorem manifest_tokens :
  (forall (v : list string) (bad : string),
      In bad v -> ~ In bad Schema.valid_args ->
      exists pre tok post,
        v = pre ++ tok :: post /\
        Forall (fun a => In a Schema.valid_args) pre /\
        ~ In tok Schema.valid_args /\
        Schema.validate_args v
        = Raise (Exn ValueError
                   ("Invalid argument '" +:+ tok
                      +:+ "'. Must be one of: model_path, model_dir, input_data, model"))) /\
  (forall (w : world) (cfg dir : string) (d : config_data) (st : state),
      schema_available w = true ->
      read_json w cfg = Ret d ->
      has_invalid_token (cd_load d) \/ has_invalid_token (cd_predict d) ->
      exists msg, App._load_from_config w cfg dir st = (Raise (Exn ValueError msg), st)) /\
  (forall (mfp dir : string) (load_args : list string) (kw : gmap string pyval)
          (st : state),
      exists kw',
        App.load_kwargs mfp dir load_args kw st
        = (Ret kw',
           record st
             (List.map (fun a => EvWarn (WUnknownLoadArg a))
                (List.filter (fun a => negb (in_list a ["model_path"; "model_dir"]))
                   load_args)))
        /\ (forall tok, ~ In tok ["model_path"; "model_dir"] -> kw' !! tok = kw !! tok)) /\
  (forall (x : pyval) (predict_args : list string) (kw : gmap string pyval)
          (st : state),
      exists kw',
        App.predict_kwargs x predict_args kw st
        = (Ret kw',
           record st
             (List.map (fun a => EvWarn (WUnknownPredictArg a))
                (List.filter
                   (fun a => negb (in_list a ["input_data"; "model"; "data"]))
                   predict_args)))
        /\ (forall tok, ~ In tok ["input_data"; "model"; "data"] ->
            kw' !! tok = kw !! tok)
        /\ kw' !! "data" = (if in_list "data" predict_args then Some x else kw !! "data")).
Proof.
  split; [|split; [|split]].
  - intros v bad Hin Hbad.
    destruct (validate_args_rejects v bad Hin Hbad)
      as (pre & tok & post & ? & ? & ? & Hv).
    exists pre, tok, post. repeat split; first [done | exact Hv].
  - intros. now apply load_from_config_rejects with (d := d).
  - intros. apply load_kwargs_run.
  - intros. apply predict_kwargs_run.
Qed.

Lemma manifest_tokens_witness :
  (exists pre tok post,
      ["model_path"; "weights"; "data"] = pre ++ tok :: post /\
      Forall (fun a => In a Schema.valid_args) pre /\
      ~ In tok Schema.valid_args /\
      Schema.validate_args ["model_path"; "weights"; "data"]
      = Raise (Exn ValueError
                 ("Invalid argument '" +:+ tok
                    +:+ "'. Must be one of: model_path, model_dir, input_data, model"))) /\
  (exists msg,
      App._load_from_config (manifest_disk true (a_manifest ["weights"] ["data"]))
        "/app/user_model/model_config.json" "/app/user_model" (State init [])
      = (Raise (Exn ValueError msg), State init [])).
Proof.
  destruct manifest_tokens as (H1 & H2 & _). split.
  - apply (H1 ["model_path"; "weights"; "data"] "data").
    + cbn. tauto.
    + vm_compute. intuition discriminate.
  - apply (H2 (manifest_disk true (a_manifest ["weights"] ["data"]))
              "/app/user_model/model_config.json" "/app/user_model"
              (a_manifest ["weights"] ["data"]) (State init [])).
    + reflexivity.
    + reflexivity.
    + left. exists (FunctionSpec (Some "load_model") None (Some ["weights"])), "weights".
      split; [reflexivity|]. split; [cbn; tauto|].
      vm_compute. intuition discriminate.
Defined.

(** C3 as stated fails where the schema module is not importable: the
    manifest with load.args = [weights] and predict.args = [data] loads,
    the token weights being skipped with a warning, and predicts, the
    token data being bound to the input. *)
Lemma manifest_tokens_counterexample :
  let w := manifest_disk false (a_manifest ["weights"] ["data"]) in
  let loaded :=
    App.load_model w "/app/user_model/model.pkl" None None
      (Some "/app/user_model") (State init []) in
  let r := App.predict w (PStr "good movie") (State (self (snd loaded)) []) in
  ~ In "weights" Schema.valid_args /\
  ~ In "data" Schema.valid_args /\
  fst loaded = Ret the_model /\
  calls (snd loaded)
  = [EvExecModule "/app/user_model/inference.py"; EvWarn (WUnknownLoadArg "weights");
     EvCall "load_model" [] ∅] /\
  fst r = Ret a_label /\
  calls (snd r) = [EvCall "classify" [] {[ "data" := PStr "good movie" ]}].
Proof.
  cbv zeta. repeat apply conj; try (vm_compute; reflexivity);
    vm_compute; intuition discriminate.
Qed.

(** ** The manifest tier *)

Lemma in_list_cons (a b : string) (l : list string) :
  in_list a (b :: l) = String.eqb a b || in_list a l.
Proof. reflexivity. Qed.

Lemma in_list_ext (a : string) (l l' : list string) :
  (forall t, In t l <-> In t l') -> in_list a l = in_list a l'.
Proof.
  intros H. destruct (in_list a l) eqn:E, (in_list a l') eqn:E'; try reflexivity.
  - apply in_list_In, H, in_list_In in E. congruence.
  - apply in_list_In, H, in_list_In in E'. congruence.
Qed.

(** The dict [load_kwargs] builds, key by key. *)
Lemma load_kwargs_lookup (mfp dir : string) (args : list string)
    (kw : gmap string pyval) (st : state) :
  exists kw',
    App.load_kwargs mfp dir args kw st
    = (Ret kw',
       record st
         (List.map (fun a => EvWarn (WUnknownLoadArg a))
            (List.filter (fun a => negb (in_list a ["model_path"; "model_dir"])) args)))
    /\ forall k,
        kw' !! k
        = if String.eqb k "model_path" && in_list "model_path" args
          then Some (PStr mfp)
          else if String.eqb k "model_dir" && in_list "model_dir" args
               then Some (PStr dir)
               else kw !! k.
Proof.
  revert kw st. induction args as [|a args IH]; intros kw st.
  - exists kw. split.
    + unfold record. cbn. rewrite app_nil_r. now destruct st.
    + intros k. cbn. now rewrite !andb_false_r.
  - cbn [App.load_kwargs List.filter]. rewrite !in_list_cons.
    change (in_list a ["model_path"; "model_dir"])
      with (String.eqb a "model_path" || (String.eqb a "model_dir" || false)).
    destruct (String.eqb a "model_path") eqn:E1.
    + apply String.eqb_eq in E1 as ->. cbn [orb negb].
      destruct (IH (<["model_path" := PStr mfp]> kw) st) as (kw' & -> & Hk).
      exists kw'. split; [reflexivity|]. intros k. rewrite Hk.
      rewrite String.eqb_refl. change (String.eqb "model_dir" "model_path") with false.
      cbn [orb]. destruct (String.eqb k "model_path") eqn:Ek.
      * apply String.eqb_eq in Ek as ->. cbn [andb].
        destruct (in_list "model_path" args); [reflexivity|].
        change (String.eqb "model_path" "model_dir") with false. cbn [andb].
        apply lookup_insert_eq.
      * cbn [andb]. destruct (String.eqb k "model_dir" && in_list "model_dir" args);
          [reflexivity|].
        apply lookup_insert_ne. intros <-. now rewrite String.eqb_refl in Ek.
    + destruct (String.eqb a "model_dir") eqn:E2.
      * apply String.eqb_eq in E2 as ->. cbn [orb negb].
        destruct (IH (<["model_dir" := PStr dir]> kw) st) as (kw' & -> & Hk).
        exists kw'. split; [reflexivity|]. intros k. rewrite Hk.
        rewrite String.eqb_refl. change (String.eqb "model_path" "model_dir") with false.
        cbn [orb]. destruct (String.eqb k "model_path" && in_list "model_path" args);
          [reflexivity|].
        destruct (String.eqb k "model_dir") eqn:Ek.
        -- apply String.eqb_eq in Ek as ->. cbn [andb].
           destruct (in_list "model_dir" args); [reflexivity|]. apply lookup_insert_eq.
        -- cbn [andb]. apply lookup_insert_ne. intros <-.
           now rewrite String.eqb_refl in Ek.
      * cbn [orb negb]. exec.
        destruct (IH kw (State (self st) (calls st ++ [EvWarn (WUnknownLoadArg a)])))
          as (kw' & -> & Hk).
        exists kw'. split.
        -- unfold record. cbn. now rewrite <- app_assoc.
        -- intros k. rewrite Hk.
           rewrite (String.eqb_sym "model_path" a), E1, (String.eqb_sym "model_dir" a), E2.
           reflexivity.
Qed.

Lemma load_model_manifest (w : world) (p : string) (fw cip : option string)
    (dir : string) (st : state) :
  App.manifest_present w (Some dir) = true ->
  App.load_model w p fw cip (Some dir) st
  = App._load_from_config w (join dir "model_config.json") dir
      (State (set_model_path (Some p) (self st)) (calls st)).
Proof. intros H. unfold App.load_model. exec. now rewrite H. Qed.

Lemma required_some {A} (loc : string) (v : option A) (a : A) :
  snd (Schema.required loc v) = Some a -> v = Some a.
Proof. destruct v; cbn; congruence. Qed.

Lemma validate_entry_point_some (v : option string) (p : string) :
  snd (Schema.validate_entry_point v) = Some p -> v = Some p.
Proof.
  unfold Schema.validate_entry_point. destruct v as [q|]; [|discriminate].
  destruct (negb (endswith q ".py")); cbn; congruence.
Qed.

Lemma parse_FunctionConfig_some (loc : string) (v : option function_spec)
    (fc : Schema.FunctionConfig) :
  snd (Schema.parse_FunctionConfig loc v) = Some fc ->
  exists l, v = Some l /\ fs_name l = Some (Schema.name fc).
Proof.
  unfold Schema.parse_FunctionConfig. destruct v as [l|]; [|discriminate].
  destruct (fs_name l) as [n|] eqn:Hn; cbn [Schema.required].
  - destruct (Schema.validate_args _); cbn; [|discriminate].
    intros [= <-]. exists l. split; [reflexivity | exact Hn].
  - destruct (Schema.validate_args _); cbn; discriminate.
Qed.

(** A document the schema accepts has the four required fields and a
    name for the load function. *)
Lemma parse_ModelConfig_fields (d : config_data) (c : Schema.ModelConfig) :
  Schema.parse_ModelConfig d = Ret c ->
  App.missing_fields d = [] /\
  (forall l, cd_load d = Some l -> fs_name l <> None).
Proof.
  unfold Schema.parse_ModelConfig. cbv zeta.
  destruct (snd (Schema.required "name" _)); [|discriminate].
  destruct (snd (Schema.required "version" _)); [|discriminate].
  destruct (snd (Schema.parse_framework _)); [|discriminate].
  destruct (snd (Schema.validate_entry_point _)) eqn:He; [|discriminate].
  destruct (snd (Schema.parse_entry_point_type _)); [|discriminate].
  destruct (snd (Schema.validate_class_name _ _)); [|discriminate].
  destruct (snd (Schema.parse_FunctionConfig "load" _)) eqn:Hl; [|discriminate].
  destruct (snd (Schema.parse_FunctionConfig "predict" _)) eqn:Hp; [|discriminate].
  destruct (snd (Schema.required "model_file" _)) eqn:Hm; [|discriminate].
  intros _.
  apply validate_entry_point_some in He.
  apply parse_FunctionConfig_some in Hl as (l & Hl & Hn).
  apply parse_FunctionConfig_some in Hp as (q & Hq & _).
  apply required_some in Hm.
  unfold App.missing_fields. rewrite He, Hl, Hq, Hm. split; [reflexivity|].
  intros l' [= <-]. congruence.
Qed.

Lemma parse_and_validate_calls (w : world) (cfg : string) (st st' : state)
    (r : outcome config_data) :
  App.parse_and_validate w cfg st = (r, st') -> calls st' = calls st.
Proof.
  unfold App.parse_and_validate. exec.
  destruct (read_json w cfg) as [d|e].
  - destruct (schema_available w).
    + destruct (Schema.validate_file w cfg) as [c|e]; cbn [self calls].
      * now intros [= _ <-].
      * repeat case_match; now intros [= _ <-].
    + destruct (App.missing_fields d); cbn [self calls].
      * now intros [= _ <-].
      * repeat case_match; now intros [= _ <-].
  - repeat case_match; now intros [= _ <-].
Qed.

Lemma validate_file_ret (w : world) (cfg : string) (d : config_data)
    (c : Schema.ModelConfig) :
  read_json w cfg = Ret d ->
  Schema.validate_file w cfg = Ret c ->
  Schema.parse_ModelConfig d = Ret c.
Proof.
  intros Hd. unfold Schema.validate_file. rewrite Hd.
  destruct (Schema.parse_ModelConfig d); [congruence | discriminate].
Qed.

(** What a manifest load that returns has gone through. *)
Lemma load_from_config_returns (w : world) (cfg dir : string) (st st' : state)
    (v : pyval) :
  App._load_from_config w cfg dir st = (Ret v, st') ->
  exists d ep m l n f mf kw st1 st2,
    read_json w cfg = Ret d /\
    App.missing_fields d = [] /\
    (schema_available w = true -> exists c, Schema.parse_ModelConfig d = Ret c) /\
    cd_entry_point d = Some ep /\
    path_exists w (join dir ep) = true /\
    exec_module w (join dir ep) = Ret m /\
    cd_load d = Some l /\
    App.func_name_of l = Some n /\
    m !! n = Some f /\
    cd_model_file d = Some mf /\
    App.load_kwargs (join dir mf) dir (default [] (fs_args l)) ∅ st1 = (Ret kw, st2) /\
    fn_call f [] kw = Ret v.
Proof.
  unfold App._load_from_config. unfold bind at 1.
  destruct (App.parse_and_validate w cfg st) as [[d|e] st0] eqn:Hp; [|discriminate].
  apply parse_and_validate_ret in Hp as (Hd & _ & slot & _ & Hslot).
  assert (App.missing_fields d = [] /\
          (schema_available w = true -> exists c, Schema.parse_ModelConfig d = Ret c))
    as (Hmiss & Hname).
  { destruct (schema_available w).
    - destruct Hslot as (c & Hv & _).
      apply (validate_file_ret w cfg d c Hd) in Hv.
      pose proof (parse_ModelConfig_fields d c Hv) as (? & _). eauto.
    - destruct Hslot as (? & _). split; [done | discriminate]. }
  exec.
  destruct (cd_entry_point d) as [ep|] eqn:Hep; [|discriminate].
  destruct (path_exists w (join dir ep)) eqn:Hex; cbn [negb]; [|discriminate].
  destruct (exec_module w (join dir ep)) as [m|e] eqn:Hmod; [|discriminate].
  destruct (cd_load d) as [l|] eqn:Hl; [|discriminate].
  destruct (App.func_name_of l) as [n|] eqn:Hn; [|discriminate].
  exec. cbn [getattr].
  destruct (m !! n) as [f|] eqn:Hf; [|discriminate].
  destruct (cd_model_file d) as [mf|] eqn:Hmf; [|discriminate].
  destruct (App.load_kwargs _ _ _ _ _) as [[kw|e] st2] eqn:Hk; [|discriminate].
  cbn [fst snd].
  destruct (fn_call f [] kw) as [u|e] eqn:Hc; [|discriminate].
  intros [= <- _].
  exists d, ep, m, l, n, f, mf, kw. eexists. exists st2.
  repeat (split; [first [eassumption | reflexivity | eauto]|]). exact Hc.
Qed.

Lemma Forall_unknown_load_args (args : list string) :
  Forall (fun e => manifest_tier_event e = true)
    (List.map (fun a => EvWarn (WUnknownLoadArg a))
       (List.filter (fun a => negb (in_list a ["model_path"; "model_dir"])) args)).
Proof.
  induction args as [|a args IH]; [constructor|].
  cbn [List.filter]. destruct (negb _); [constructor; [reflexivity | exact IH] | exact IH].
Qed.

(** Whatever its outcome, a manifest load only makes the calls of the
    manifest tier. *)
Lemma load_from_config_trace (w : world) (cfg dir : string) (st st' : state)
    (r : outcome pyval) :
  App._load_from_config w cfg dir st = (r, st') ->
  exists evs,
    calls st' = calls st ++ evs /\ Forall (fun e => manifest_tier_event e = true) evs.
Proof.
  unfold App._load_from_config. unfold bind at 1.
  destruct (App.parse_and_validate w cfg st) as [[d|e] st0] eqn:Hp;
    apply parse_and_validate_calls in Hp.
  2: { intros [= _ <-]. exists []. rewrite app_nil_r. split; [done | constructor]. }
  assert (forall r0 : outcome pyval, (r0, st0) = (r, st') ->
            exists evs, calls st' = calls st ++ evs /\
                        Forall (fun e => manifest_tier_event e = true) evs) as Stop0.
  { intros ? [= _ <-]. exists []. rewrite app_nil_r. split; [done | constructor]. }
  assert (forall (r0 : outcome pyval) s ep,
             (r0, State s (calls st0 ++ [EvExecModule ep])) = (r, st') ->
            exists evs, calls st' = calls st ++ evs /\
                        Forall (fun e => manifest_tier_event e = true) evs) as Stop1.
  { intros ? ? ep [= _ <-]. exists [EvExecModule ep]. cbn [calls]. rewrite Hp.
    split; [done | repeat constructor]. }
  exec.
  destruct (cd_entry_point d) as [ep|]; [|apply Stop0].
  destruct (negb (path_exists w (join dir ep))); [apply Stop0|].
  destruct (exec_module w (join dir ep)) as [m|e]; [|apply Stop1].
  destruct (cd_load d) as [l|]; [|apply Stop1].
  destruct (App.func_name_of l) as [n|]; [|apply Stop1].
  exec. cbn [getattr]. destruct (m !! n) as [f|]; [|apply Stop1].
  destruct (cd_model_file d) as [mf|]; [|apply Stop1].
  match goal with
  | |- context [App.load_kwargs ?a ?b ?c ?k ?s] =>
      destruct (load_kwargs_run a b c k s) as (kw & -> & _)
  end.
  cbn [fst snd record self calls].
  destruct (fn_call f [] kw) as [u|e]; intros [= _ <-]; cbn [calls];
    rewrite Hp; eexists; rewrite <- !app_assoc; (split; [reflexivity|]);
    (apply Forall_app; split; [repeat constructor|]);
    (apply Forall_app; split; [apply Forall_unknown_load_args | repeat constructor]).
Qed.

Lemma func_name_of_declared (l : function_spec) :
  App.func_name_of l = declared_name l.
Proof.
  unfold App.func_name_of, declared_name, truthy.
  destruct (fs_name l) as [[|a n]|]; reflexivity.
Qed.

Lemma missing_fields_nil (d : config_data) :
  App.missing_fields d = [] ->
  cd_entry_point d <> None /\ cd_load d <> None /\ cd_predict d <> None
  /\ cd_model_file d <> None.
Proof.
  unfold App.missing_fields.
  destruct (cd_entry_point d), (cd_load d), (cd_predict d), (cd_model_file d);
    cbn; intros H; try discriminate H; repeat split; discriminate.
Qed.

(** C2, as the code has it.  When model_config.json is present in the
    model directory, [load_model] is the manifest load and nothing else;
    and each failure the manifest tier detects (unreadable or invalid
    JSON; a document the schema rejects, where the schema is importable;
    an absent entry_point, load, predict or model_file key; a load entry
    that declares no name; a missing entry point; an import error; a
    missing load function; an exception from the load function) makes
    [load_model] raise, having made no call other than those of the
    manifest tier: no candidate is inspected and no adapter is asked to
    load. *)
Theorem manifest_failure_is_fatal (w : world) (p : string) (fw cip : option string)
    (dir : string) (st : state) :
  App.manifest_present w (Some dir) = true ->
  App.load_model w p fw cip (Some dir) st
  = App._load_from_config w (join dir "model_config.json") dir
      (State (set_model_path (Some p) (self st)) (calls st)) /\
  (manifest_failure w dir ->
   exists e st' evs,
     App.load_model w p fw cip (Some dir) st = (Raise e, st') /\
     calls st' = calls st ++ evs /\
     Forall (fun ev => manifest_tier_event ev = true) evs).
Proof.
  intros Hman. split; [now apply load_model_manifest|].
  intros Hfail. rewrite (load_model_manifest w p fw cip dir st Hman).
  destruct (App._load_from_config w _ dir _) as [[v|e] st'] eqn:H.
  - exfalso. apply load_from_config_returns in H
      as (d & ep & m & l & n & f & mf & kw & st1 & st2 & Hd & Hmiss & Hschema & Hep
          & Hex & Hmod & Hl & Hn & Hf & Hmf & Hk & Hc).
    rewrite func_name_of_declared in Hn.
    destruct Hfail as [e He | d' e Hs Hd' Hp | d' Hd' Hx | d' l' Hd' Hl' Hbad
                      | d' ep' Hd' Hep' Hno
                      | d' ep' e Hd' Hep' He | d' ep' m' l' n' Hd' Hep' Hm' Hl' Hn' Hno
                      | d' ep' mf' m' l' n' f' Hd' Hep' Hm' Hl' Hn' Hf' Hmf' Hr];
      try (rewrite Hd in Hd'; injection Hd' as <-).
    + congruence.
    + destruct (Hschema Hs) as (c & Hc'). congruence.
    + apply missing_fields_nil in Hmiss as (H1 & H2 & H3 & H4).
      destruct Hx as [Hx | [Hx | [Hx | Hx]]]; congruence.
    + rewrite Hl in Hl'. injection Hl' as <-. congruence.
    + congruence.
    + congruence.
    + rewrite Hep in Hep'. injection Hep' as <-.
      rewrite Hmod in Hm'. injection Hm' as <-.
      rewrite Hl in Hl'. injection Hl' as <-. congruence.
    + rewrite Hep in Hep'. injection Hep' as <-.
      rewrite Hmod in Hm'. injection Hm' as <-.
      rewrite Hl in Hl'. injection Hl' as <-.
      rewrite Hn in Hn'. injection Hn' as <-.
      rewrite Hf in Hf'. injection Hf' as <-.
      rewrite Hmf in Hmf'. injection Hmf' as <-.
      destruct (load_kwargs_lookup (join dir mf) dir (default [] (fs_args l)) ∅ st1)
        as (kw' & Hk' & Hlook).
      rewrite Hk in Hk'. injection Hk' as <- _.
      assert (raised (fn_call f [] kw) = true) as Hraise.
      { apply Hr. intros k. rewrite Hlook. now rewrite lookup_empty. }
      rewrite Hc in Hraise. discriminate.
  - apply load_from_config_trace in H as (evs & Hevs & Hall).
    exists e, st', evs. auto.
Qed.

Lemma manifest_failure_is_fatal_witness :
  let w := manifest_disk true broken_manifest in
  App.manifest_present w (Some "/app/user_model") = true /\
  exists e st' evs,
    App.load_model w "/app/user_model/model.pkl" None
      (Some "/app/user_model/inference.py") (Some "/app/user_model") (State init [])
    = (Raise e, st') /\
    calls st' = [] ++ evs /\
    Forall (fun ev => manifest_tier_event ev = true) evs.
Proof.
  intros w. split; [reflexivity|].
  apply (manifest_failure_is_fatal w "/app/user_model/model.pkl" None
           (Some "/app/user_model/inference.py") "/app/user_model" (State init [])
           eq_refl).
  apply (MissingLoadName w "/app/user_model" broken_manifest
           (FunctionSpec None None (Some ["model_path"]))); reflexivity.
Defined.

(** C2 as stated fails for a required field the loader does not check
    itself.  The schema requires a name in the predict entry; where the
    schema is not importable, a manifest whose predict entry has none is
    loaded without any error. *)
Lemma manifest_failure_counterexample :
  let w := manifest_disk false unnamed_predict_manifest in
  App.manifest_present w (Some "/app/user_model") = true /\
  cd_predict unnamed_predict_manifest
  = Some (FunctionSpec None None (Some ["input_data"])) /\
  raised (Schema.parse_ModelConfig unnamed_predict_manifest) = true /\
  App.load_model w "/app/user_model/model.pkl" None None (Some "/app/user_model")
    (State init [])
  = (Ret the_model,
     State (Session the_model (Some "custom") (Some "/app/user_model/model.pkl")
              (Some manifest_script) true (ConfigDict unnamed_predict_manifest))
       [EvExecModule "/app/user_model/inference.py";
        EvCall "load_model" [] {[ "model_path" := PStr "/app/user_model/model.pkl" ]}]).
Proof.
  cbv zeta. repeat apply conj; vm_compute; reflexivity.
Qed.

(** ** The search for a load function *)

Lemma try_load_function_run (p : string) (dir : option string) (n : string)
    (f : pyfunc) (m : gmap string pyfunc) (st : state) :
  m !! n = Some f ->
  App.try_load_function p dir n f st
  = match fn_signature f with
    | Raise _ => (Ret false, record st (attempt_events p dir m n))
    | Ret params =>
        match fn_call f (App.load_arguments params p dir) ∅ with
        | Raise _ => (Ret false, record st (attempt_events p dir m n))
        | Ret v =>
            (Ret (negb (is_none v)),
             State (set_model v (self st)) (calls st ++ attempt_events p dir m n))
        end
    end.
Proof.
  intros Hm. unfold App.try_load_function, attempt_events. rewrite Hm. exec.
  destruct (fn_signature f) as [k|e]; cbn [self calls].
  - destruct (fn_call f _ ∅) as [v|e]; cbn [self calls]; now rewrite <- !app_assoc.
  - now rewrite <- !app_assoc.
Qed.

Lemma attempt_events_defined (p : string) (dir : option string)
    (m : gmap string pyfunc) (n : string) (f : pyfunc) :
  m !! n = Some f ->
  attempt_events p dir m n
  = EvSignature n ::
    match fn_signature f with
    | Raise _ => [EvWarn (WCandidateFailed n)]
    | Ret params =>
        EvCall n (App.load_arguments params p dir) ∅ ::
        match fn_call f (App.load_arguments params p dir) ∅ with
        | Raise _ => [EvWarn (WCandidateFailed n)]
        | Ret _ => []
        end
    end.
Proof. intros Hm. unfold attempt_events. now rewrite Hm. Qed.

Lemma try_load_functions_exhausted (p : string) (dir : option string)
    (m : gmap string pyfunc) (names : list string) (st : state) :
  custom_inference (self st) = Some m ->
  Forall (fun n => candidate_fails p dir m n = true) names ->
  exists s',
    App.try_load_functions p dir names st
    = (Ret false, State s' (calls st ++ flat_map (attempt_events p dir m) names))
    /\ (s' = self st \/ s' = set_model PNone (self st)).
Proof.
  intros Hci Hall. revert st Hci.
  induction Hall as [|n names Hn _ IH]; intros st Hci.
  - exists (self st). split; [|now left]. cbn. rewrite app_nil_r. now destruct st.
  - cbn [App.try_load_functions flat_map]. exec. rewrite Hci. cbn [getattr].
    unfold candidate_fails in Hn.
    destruct (m !! n) as [f|] eqn:Hm.
    + rewrite (try_load_function_run p dir n f m _ Hm).
      rewrite (attempt_events_defined p dir m n f Hm).
      destruct (fn_signature f) as [k|e].
      * destruct (fn_call f _ ∅) as [v|e].
        -- rewrite Hn. cbn [negb].
           destruct v; try discriminate.
           destruct (IH (State (set_model PNone (self st))
                           (calls st ++ [EvSignature n; EvCall n (App.load_arguments k p dir) ∅])))
             as (s' & -> & Hs'); [exact Hci|].
           exists s'. split.
           ++ cbn [calls]. now rewrite <- !app_assoc.
           ++ right. destruct Hs' as [-> | ->]; reflexivity.
        -- destruct (IH (record st [EvSignature n; EvCall n (App.load_arguments k p dir) ∅;
                                    EvWarn (WCandidateFailed n)]))
             as (s' & -> & Hs'); [exact Hci|].
           exists s'. split; [|exact Hs'].
           cbn [calls record]. now rewrite <- !app_assoc.
      * destruct (IH (record st [EvSignature n; EvWarn (WCandidateFailed n)]))
          as (s' & -> & Hs'); [exact Hci|].
        exists s'. split; [|exact Hs'].
        cbn [calls record]. now rewrite <- !app_assoc.
    + unfold attempt_events at 1. rewrite Hm. cbn [app].
      apply IH, Hci.
Qed.

Lemma try_load_functions_first (p : string) (dir : option string)
    (m : gmap string pyfunc) (pre post : list string) (n : string) (f : pyfunc)
    (k : nat) (v : pyval) (st : state) :
  custom_inference (self st) = Some m ->
  Forall (fun x => candidate_fails p dir m x = true) pre ->
  m !! n = Some f ->
  fn_signature f = Ret k ->
  fn_call f (App.load_arguments k p dir) ∅ = Ret v ->
  v <> PNone ->
  App.try_load_functions p dir (pre ++ n :: post) st
  = (Ret true,
     State (set_model v (self st))
       (calls st ++ flat_map (attempt_events p dir m) pre
          ++ [EvSignature n; EvCall n (App.load_arguments k p dir) ∅])).
Proof.
  intros Hci Hpre Hm Hsig Hcall Hv. revert st Hci.
  induction Hpre as [|x pre Hx _ IH]; intros st Hci.
  - cbn [app App.try_load_functions flat_map]. exec. rewrite Hci. cbn [getattr].
    rewrite Hm, (try_load_function_run p dir n f m _ Hm), Hsig, Hcall.
    rewrite (attempt_events_defined p dir m n f Hm), Hsig, Hcall.
    destruct v; done.
  - cbn [app App.try_load_functions flat_map]. exec. rewrite Hci. cbn [getattr].
    unfold candidate_fails in Hx.
    destruct (m !! x) as [g|] eqn:Hg.
    + rewrite (try_load_function_run p dir x g m _ Hg).
      rewrite (attempt_events_defined p dir m x g Hg).
      destruct (fn_signature g) as [j|e].
      * destruct (fn_call g _ ∅) as [u|e].
        -- rewrite Hx. cbn [negb]. destruct u; try discriminate.
           rewrite IH by exact Hci. cbn [self calls]. now rewrite <- !app_assoc.
        -- rewrite IH by exact Hci. cbn [self calls record]. now rewrite <- !app_assoc.
      * rewrite IH by exact Hci. cbn [self calls record]. now rewrite <- !app_assoc.
    + unfold attempt_events at 1. rewrite Hg. cbn [app]. apply IH, Hci.
Qed.

Lemma try_custom_load_run (p : string) (dir : option string) (m : gmap string pyfunc)
    (st : state) :
  custom_inference (self st) = Some m ->
  App._try_custom_load p dir st = App.try_load_functions p dir App.load_functions st.
Proof. intros H. unfold App._try_custom_load. exec. now rewrite H. Qed.

(** The explicit-script tier of [load_model], up to the search. *)
Lemma load_model_explicit_script (w : world) (p : string) (fw : option string)
    (cip : string) (dir : option string) (m : gmap string pyfunc) (st : state) :
  App.manifest_present w dir = false ->
  cip <> "" ->
  path_exists w cip = true ->
  exec_module w cip = Ret m ->
  App.load_model w p fw (Some cip) dir st
  = match App.try_load_functions p dir App.load_functions
            (State (set_use_custom_inference true
                      (set_custom_inference (Some m)
                         (set_model_path (Some p) (self st))))
                   (calls st ++ [EvExecModule cip])) with
    | (Ret true, st1) =>
        (Ret (model (self st1)),
         State (set_framework (Some "custom") (self st1)) (calls st1))
    | (Ret false, st1) =>
        load_builtin w p fw
          (State (set_use_custom_inference false (self st1))
                 (calls st1 ++ [EvWarn WCustomLoadFailed]))
    | (Raise e, st1) => (Raise e, st1)
    end.
Proof.
  intros Hman Hne Hex Hmod.
  unfold App.load_model, App.load_custom. exec. rewrite Hman.
  cbn [truthy default]. unfold id. apply String.eqb_neq in Hne. rewrite Hne, Hex. cbn [negb andb].
  exec. rewrite Hmod. exec.
  rewrite (try_custom_load_run p dir m); [|reflexivity].
  destruct (App.try_load_functions _ _ _ _) as [[[|]|e] st1]; reflexivity.
Qed.

(** C4, as the code has it.  In the explicit-script tier (a script path
    is given and exists, no manifest applies) the candidates are tried in
    the order load_model,
    load, initialize, init, setup.  A candidate that exists is inspected
    and called with no argument, the model path, or the model path and the
    model directory (the directory of the model path when none is given)
    according to its 0, 1 or 2 parameters; when the introspection or the
    call raises, a warning is logged and the next name is tried.  The
    first candidate that answers a value other than None ends the search:
    [load_model] returns that value, the session holds it with the tag
    custom and no later candidate is touched.  When every candidate fails,
    nothing is raised by the search and [load_model] goes on with the
    framework adapters, the script switched off and the auto-detection of
    the model directory left out. *)
Theorem custom_load_search (w : world) (p : string) (fw : option string)
    (cip : string) (dir : option string) (m : gmap string pyfunc) (st : state) :
  App.manifest_present w dir = false ->
  cip <> "" ->
  path_exists w cip = true ->
  exec_module w cip = Ret m ->
  let st0 :=
    State (set_use_custom_inference true
             (set_custom_inference (Some m) (set_model_path (Some p) (self st))))
          (calls st ++ [EvExecModule cip]) in
  App.load_functions = ["load_model"; "load"; "initialize"; "init"; "setup"] /\
  (App.load_arguments 0 p dir = [] /\
   App.load_arguments 1 p dir = [PStr p] /\
   App.load_arguments 2 p dir
   = [PStr p; PStr (if truthy dir then default "" dir else dirname p)]) /\
  (forall pre n post f k v,
      App.load_functions = pre ++ n :: post ->
      Forall (fun x => candidate_fails p dir m x = true) pre ->
      m !! n = Some f ->
      fn_signature f = Ret k ->
      fn_call f (App.load_arguments k p dir) ∅ = Ret v ->
      v <> PNone ->
      App.load_model w p fw (Some cip) dir st
      = (Ret v,
         State (set_framework (Some "custom") (set_model v (self st0)))
           (calls st0 ++ flat_map (attempt_events p dir m) pre
              ++ [EvSignature n; EvCall n (App.load_arguments k p dir) ∅]))) /\
  (Forall (fun x => candidate_fails p dir m x = true) App.load_functions ->
   exists s1,
     (s1 = self st0 \/ s1 = set_model PNone (self st0)) /\
     App.load_model w p fw (Some cip) dir st
     = load_builtin w p fw
         (State (set_use_custom_inference false s1)
            (calls st0 ++ flat_map (attempt_events p dir m) App.load_functions
               ++ [EvWarn WCustomLoadFailed]))).
Proof.
  intros Hman Hne Hex Hmod st0.
  split; [reflexivity|]. split; [repeat split|]. split.
  - intros pre n post f k v Hsplit Hpre Hm Hsig Hcall Hv.
    rewrite (load_model_explicit_script w p fw cip dir m st Hman Hne Hex Hmod).
    fold st0. rewrite Hsplit.
    rewrite (try_load_functions_first p dir m pre post n f k v st0);
      [reflexivity | reflexivity | assumption..].
  - intros Hall.
    rewrite (load_model_explicit_script w p fw cip dir m st Hman Hne Hex Hmod).
    fold st0.
    destruct (try_load_functions_exhausted p dir m App.load_functions st0)
      as (s1 & -> & Hs1); [reflexivity | assumption |].
    exists s1. split; [exact Hs1|]. cbn [self calls]. now rewrite <- app_assoc.
Qed.

Lemma custom_load_search_witness :
  App.load_model (script_disk staged_script) "model.pkl" None
    (Some "custom/inference.py") (Some "bundle") (State init [])
  = (Ret the_model,
     State (Session the_model (Some "custom") (Some "model.pkl") (Some staged_script)
              true NoConfig)
       [EvExecModule "custom/inference.py";
        EvSignature "load_model"; EvCall "load_model" [PStr "model.pkl"] ∅;
        EvWarn (WCandidateFailed "load_model");
        EvSignature "load"; EvCall "load" [] ∅;
        EvSignature "initialize";
        EvCall "initialize" [PStr "model.pkl"; PStr "bundle"] ∅]) /\
  App.load_model (script_disk predict_only_script) "model.pkl" None
    (Some "custom/inference.py") None (State init [])
  = (Ret the_model,
     State (Session the_model (Some "sklearn") (Some "model.pkl")
              (Some predict_only_script) false NoConfig)
       [EvExecModule "custom/inference.py"; EvWarn WCustomLoadFailed;
        EvAdapterLoad "sklearn" "model.pkl"]).
Proof.
  split.
  - destruct (custom_load_search (script_disk staged_script) "model.pkl" None
                "custom/inference.py" (Some "bundle") staged_script (State init []))
      as (_ & _ & H & _); [reflexivity | discriminate | reflexivity | reflexivity |].
    rewrite (H ["load_model"; "load"] "initialize" ["init"; "setup"]
               (strict 2 (fun _ => Ret the_model)) 2%nat the_model);
      [vm_compute; reflexivity | reflexivity | repeat constructor
      | reflexivity | reflexivity | reflexivity | discriminate].
  - destruct (custom_load_search (script_disk predict_only_script) "model.pkl" None
                "custom/inference.py" None predict_only_script (State init []))
      as (_ & _ & _ & H); [reflexivity | discriminate | reflexivity | reflexivity |].
    destruct H as (s1 & Hs1 & ->); [repeat constructor|].
    destruct Hs1 as [-> | ->]; vm_compute; reflexivity.
Defined.


(** C4 as stated fails at its last clause.  When every candidate of the
    explicit script has failed, [load_model] does not go on with the next
    tier, the auto-detection in the model directory: it goes on with the
    framework adapters.  Here handler.py of the model directory can load
    the model, and does when no script path is given; with the path of a
    script that has no load function the same call raises, handler.py
    never being imported. *)
Lemma custom_load_search_counterexample :
  Forall (fun x =>
            candidate_fails "/srv/m/weights.bin" (Some "/srv/m") predict_only_script x
            = true) App.load_functions /\
  App.load_model shadowed_disk "/srv/m/weights.bin" None
    (Some "custom/inference.py") (Some "/srv/m") (State init [])
  = (Raise (Exn ValueError "Could not detect framework for: /srv/m/weights.bin"),
     State (Session PNone None (Some "/srv/m/weights.bin") (Some predict_only_script)
              false NoConfig)
       [EvExecModule "custom/inference.py"; EvWarn WCustomLoadFailed]) /\
  App.load_model shadowed_disk "/srv/m/weights.bin" None None (Some "/srv/m")
    (State init [])
  = (Ret the_model,
     State (Session the_model (Some "custom") (Some "/srv/m/weights.bin")
              (Some handler_script) true NoConfig)
       [EvWarn WAutoDetect; EvExecModule "/srv/m/handler.py";
        EvSignature "load_model"; EvCall "load_model" [PStr "/srv/m/weights.bin"] ∅]).
Proof.
  repeat apply conj.
  - repeat constructor.
  - vm_compute. reflexivity.
  - vm_compute. reflexivity.
Qed.

(** * Further properties *)

(** ** The schema of model_config.json *)

Lemma validate_args_loop_sound (v : list string) :
  Schema.validate_args_loop v = Ret tt ->
  Forall (fun a => In a Schema.valid_args) v.
Proof.
  induction v as [|a v IH]; [constructor|].
  cbn [Schema.validate_args_loop].
  destruct (in_list a Schema.valid_args) eqn:Ha; cbn [negb]; [|discriminate].
  intros H. constructor; [now apply in_list_In | auto].
Qed.

Lemma validate_args_ret (v r : list string) :
  Schema.validate_args v = Ret r ->
  r = v /\ Forall (fun a => In a Schema.valid_args) v.
Proof.
  unfold Schema.validate_args.
  destruct (Schema.validate_args_loop v) as [[]|e] eqn:H; [|discriminate].
  intros [= <-]. split; [reflexivity | now apply validate_args_loop_sound].
Qed.

(** X1.  [FunctionConfig.validate_args] returns its argument, and does so
    exactly for the lists drawn from the four known tokens; the empty list
    is accepted. *)
Theorem validate_args_accepts (v : list string) :
  (forall r, Schema.validate_args v = Ret r <->
             r = v /\ Forall (fun a => In a Schema.valid_args) v) /\
  Schema.validate_args [] = Ret [].
Proof.
  split; [|reflexivity].
  intros r. split; [apply validate_args_ret|].
  intros [-> H]. unfold Schema.validate_args. now rewrite (validate_args_loop_ok v H).
Qed.

Lemma required_inv {A} (loc : string) (v : option A) (a : A) :
  snd (Schema.required loc v) = Some a -> v = Some a.
Proof. destruct v; cbn; congruence. Qed.

Lemma parse_framework_inv (v : option string) (f : string) :
  snd (Schema.parse_framework v) = Some f ->
  v = Some f /\ In f Schema.frameworks.
Proof.
  unfold Schema.parse_framework. destruct v as [g|]; [|discriminate].
  destruct (in_list g Schema.frameworks) eqn:Hg; cbn [snd]; [|discriminate].
  intros [= <-]. split; [reflexivity | apply (in_list_In g Schema.frameworks), Hg].
Qed.

Lemma validate_entry_point_inv (v : option string) (p : string) :
  snd (Schema.validate_entry_point v) = Some p ->
  v = Some p /\ endswith p ".py" = true.
Proof.
  unfold Schema.validate_entry_point. destruct v as [q|]; [|discriminate].
  destruct (endswith q ".py") eqn:Hq; cbn [negb snd]; [|discriminate].
  intros [= <-]. auto.
Qed.

Lemma parse_FunctionConfig_inv (loc : string) (v : option function_spec)
    (fc : Schema.FunctionConfig) :
  snd (Schema.parse_FunctionConfig loc v) = Some fc ->
  exists l,
    v = Some l /\ fs_name l = Some (Schema.name fc) /\
    Schema.args fc = default [] (fs_args l) /\
    Forall (fun a => In a Schema.valid_args) (Schema.args fc).
Proof.
  unfold Schema.parse_FunctionConfig. destruct v as [l|]; [|discriminate].
  destruct (fs_name l) as [n|] eqn:Hn; cbn [Schema.required].
  - destruct (Schema.validate_args _) as [r|e] eqn:Hv; cbn; [|discriminate].
    intros [= <-]. exists l. cbn.
    apply validate_args_ret in Hv as [-> Hall]. auto.
  - destruct (Schema.validate_args _); cbn; discriminate.
Qed.

(** X2.  What a validated [ModelConfig] is known to satisfy: its fields are those
    of the document, the framework is one of the five declared, the entry
    point ends in .py, and the tokens of both function entries are in the
    vocabulary. *)
Theorem parse_ModelConfig_sound (d : config_data) (c : Schema.ModelConfig) :
  Schema.parse_ModelConfig d = Ret c ->
  cd_name d = Some (Schema.mc_name c) /\
  cd_version d = Some (Schema.version c) /\
  cd_framework d = Some (Schema.framework c) /\
  In (Schema.framework c) ["sklearn"; "pytorch"; "tensorflow"; "onnx"; "custom"] /\
  cd_entry_point d = Some (Schema.entry_point c) /\
  endswith (Schema.entry_point c) ".py" = true /\
  cd_model_file d = Some (Schema.model_file c) /\
  (exists l,
      cd_load d = Some l /\ fs_name l = Some (Schema.name (Schema.load c)) /\
      Schema.args (Schema.load c) = default [] (fs_args l) /\
      Forall (fun a => In a Schema.valid_args) (Schema.args (Schema.load c))) /\
  (exists q,
      cd_predict d = Some q /\ fs_name q = Some (Schema.name (Schema.predict c)) /\
      Schema.args (Schema.predict c) = default [] (fs_args q) /\
      Forall (fun a => In a Schema.valid_args) (Schema.args (Schema.predict c))).
Proof.
  unfold Schema.parse_ModelConfig. cbv zeta.
  destruct (snd (Schema.required "name" _)) eqn:Hn; [|discriminate].
  destruct (snd (Schema.required "version" _)) eqn:Hv; [|discriminate].
  destruct (snd (Schema.parse_framework _)) eqn:Hf; [|discriminate].
  destruct (snd (Schema.validate_entry_point _)) eqn:He; [|discriminate].
  destruct (snd (Schema.parse_entry_point_type _)); [|discriminate].
  destruct (snd (Schema.validate_class_name _ _)); [|discriminate].
  destruct (snd (Schema.parse_FunctionConfig "load" _)) eqn:Hl; [|discriminate].
  destruct (snd (Schema.parse_FunctionConfig "predict" _)) eqn:Hp; [|discriminate].
  destruct (snd (Schema.required "model_file" _)) eqn:Hm; [|discriminate].
  intros [= <-]. cbn.
  apply required_inv in Hn, Hv, Hm.
  apply parse_framework_inv in Hf as [Hf Hin].
  apply validate_entry_point_inv in He as [He Hpy].
  apply parse_FunctionConfig_inv in Hl, Hp.
  repeat split; assumption.
Qed.

Lemma parse_ModelConfig_sound_witness :
  In "custom" ["sklearn"; "pytorch"; "tensorflow"; "onnx"; "custom"] /\
  endswith "inference.py" ".py" = true.
Proof.
  destruct (parse_ModelConfig_sound (a_manifest ["model_path"] ["input_data"])
              (Schema.MkModelConfig "Movie reviews" "1.0.0" "custom" "inference.py"
                 Schema.MODULE None
                 (Schema.MkFunctionConfig "load_model" ["model_path"])
                 (Schema.MkFunctionConfig "classify" ["input_data"]) "model.pkl")
              eq_refl) as (_ & _ & _ & H1 & _ & H2 & _).
  exact (conj H1 H2).
Defined.

(** X3.  Which documents the schema accepts: a document that gives a
    name, a version, one of the five frameworks, an entry point ending in
    .py, no entry_point_type, load and predict entries that have a name
    and only tokens of the vocabulary, and a model file, is validated, and
    the validated object holds these values, with the entry point type
    set to module. *)
Theorem parse_ModelConfig_complete (d : config_data) (n v f e m : string)
    (l q : function_spec) (ln qn : string) :
  cd_name d = Some n ->
  cd_version d = Some v ->
  cd_framework d = Some f ->
  In f ["sklearn"; "pytorch"; "tensorflow"; "onnx"; "custom"] ->
  cd_entry_point d = Some e ->
  endswith e ".py" = true ->
  cd_entry_point_type d = None ->
  cd_load d = Some l -> fs_name l = Some ln ->
  Forall (fun a => In a Schema.valid_args) (default [] (fs_args l)) ->
  cd_predict d = Some q -> fs_name q = Some qn ->
  Forall (fun a => In a Schema.valid_args) (default [] (fs_args q)) ->
  cd_model_file d = Some m ->
  Schema.parse_ModelConfig d
  = Ret (Schema.MkModelConfig n v f e Schema.MODULE (cd_class_name d)
           (Schema.MkFunctionConfig ln (default [] (fs_args l)))
           (Schema.MkFunctionConfig qn (default [] (fs_args q))) m).
Proof.
  intros Hn Hv Hf Hin He Hpy Ht Hl Hln Hla Hq Hqn Hqa Hm.
  unfold Schema.parse_ModelConfig. cbv zeta.
  rewrite Hn, Hv, Hf, He, Ht, Hl, Hq, Hm.
  unfold Schema.parse_framework, Schema.validate_entry_point,
    Schema.parse_FunctionConfig, Schema.validate_args.
  rewrite (proj2 (in_list_In f Schema.frameworks) Hin), Hpy, Hln, Hqn.
  rewrite (validate_args_loop_ok _ Hla), (validate_args_loop_ok _ Hqa).
  cbn. now destruct (cd_class_name d).
Qed.

Lemma parse_ModelConfig_complete_witness :
  Schema.parse_ModelConfig (a_manifest ["model_path"; "model_dir"] ["model"; "input_data"])
  = Ret (Schema.MkModelConfig "Movie reviews" "1.0.0" "custom" "inference.py"
           Schema.MODULE None
           (Schema.MkFunctionConfig "load_model" ["model_path"; "model_dir"])
           (Schema.MkFunctionConfig "classify" ["model"; "input_data"]) "model.pkl").
Proof.
  apply (parse_ModelConfig_complete
           (a_manifest ["model_path"; "model_dir"] ["model"; "input_data"])
           "Movie reviews" "1.0.0" "custom" "inference.py" "model.pkl"
           (FunctionSpec (Some "load_model") None (Some ["model_path"; "model_dir"]))
           (FunctionSpec (Some "classify") None (Some ["model"; "input_data"]))
           "load_model" "classify"); try reflexivity.
  - cbn. tauto.
  - repeat constructor; cbn; tauto.
  - repeat constructor; cbn; tauto.
Defined.

Lemma startswith_app (a b : string) : startswith (a +:+ b) a = true.
Proof.
  unfold startswith. induction a as [|c a IH]; simpl; [now destruct b|].
  destruct (ascii_dec c c); [exact IH | congruence].
Qed.

(** X4.  [validate_file] fails with a ValueError only, whose message says whether
    the document could not be decoded or was decoded and rejected; and it
    returns exactly what the schema makes of the decoded document. *)
Theorem validate_file_outcomes (w : world) (config_path : string) :
  (forall e, Schema.validate_file w config_path = Raise e ->
     exn_cls e = ValueError /\
     (startswith (exn_msg e) "Invalid JSON in model_config.json: " = true \/
      startswith (exn_msg e) "Invalid model_config.json: " = true)) /\
  (forall e, read_json w config_path = Raise e ->
     Schema.validate_file w config_path
     = Raise (Exn ValueError
                ((if is_class JSONDecodeError e
                  then "Invalid JSON in model_config.json: "
                  else "Invalid model_config.json: ") +:+ exn_msg e))) /\
  (forall c, Schema.validate_file w config_path = Ret c <->
     exists d, read_json w config_path = Ret d /\ Schema.parse_ModelConfig d = Ret c).
Proof.
  unfold Schema.validate_file. repeat apply conj.
  - intros e. destruct (read_json w config_path) as [d|e0].
    + destruct (Schema.parse_ModelConfig d); [discriminate|].
      intros [= <-]. split; [reflexivity | right; apply startswith_app].
    + destruct (is_class JSONDecodeError e0); intros [= <-];
        (split; [reflexivity|]); [left | right]; apply startswith_app.
  - intros e ->. now destruct (is_class JSONDecodeError e).
  - intros c. split.
    + destruct (read_json w config_path) as [d|e0].
      * destruct (Schema.parse_ModelConfig d) eqn:Hp; [|discriminate].
        intros [= <-]. eauto.
      * destruct (is_class JSONDecodeError e0); discriminate.
    + intros (d & -> & ->). reflexivity.
Qed.

Lemma validate_file_outcomes_witness :
  Schema.validate_file (manifest_disk true broken_manifest) "nowhere/model_config.json"
  = Raise (Exn ValueError
             "Invalid model_config.json: No such file or directory: nowhere/model_config.json").
Proof.
  destruct (validate_file_outcomes (manifest_disk true broken_manifest)
              "nowhere/model_config.json") as (_ & H & _).
  apply (H (Exn FileNotFoundError "No such file or directory: nowhere/model_config.json")).
  reflexivity.
Defined.

(** ** The framework adapters *)

(** X5.  A framework hint replaces detection: with one of the four tags the
    matching adapter is asked to load whatever the suffix of the path, and
    any other hint raises after the tag has been stored, no adapter being
    called. *)
Theorem load_builtin_hint (w : world) (p fw : string) (st : state) :
  (In fw ["pytorch"; "tensorflow"; "onnx"; "sklearn"] ->
   exists r st',
     load_builtin w p (Some fw) st = (r, st') /\
     calls st' = calls st ++ [EvAdapterLoad fw p] /\
     framework (self st') = Some fw) /\
  (~ In fw ["pytorch"; "tensorflow"; "onnx"; "sklearn"] ->
   load_builtin w p (Some fw) st
   = (Raise (Exn ValueError ("Unsupported framework: " +:+ fw)),
      State (set_framework (Some fw) (self st)) (calls st))).
Proof.
  split.
  - intros Hin. unfold load_builtin. exec.
    destruct Hin as [<- | [<- | [<- | [<- | []]]]]; cbn [String.eqb Ascii.eqb Bool.eqb];
      unfold _load_pytorch, _load_tensorflow, _load_onnx, _load_sklearn; exec.
    + destruct (or_not_installed _ _); eauto.
    + destruct (or_not_installed _ _); eauto.
    + destruct (or_not_installed _ _); eauto.
    + destruct (pickle_load w p); eauto.
  - intros Hn. unfold load_builtin. exec.
    assert (String.eqb fw "pytorch" = false) as ->
      by (apply String.eqb_neq; intros ->; apply Hn; cbn; tauto).
    assert (String.eqb fw "tensorflow" = false) as ->
      by (apply String.eqb_neq; intros ->; apply Hn; cbn; tauto).
    assert (String.eqb fw "onnx" = false) as ->
      by (apply String.eqb_neq; intros ->; apply Hn; cbn; tauto).
    assert (String.eqb fw "sklearn" = false) as ->
      by (apply String.eqb_neq; intros ->; apply Hn; cbn; tauto).
    reflexivity.
Qed.

Lemma load_builtin_hint_witness :
  (exists r st',
      load_builtin corrupt_disk "weights.bin" (Some "sklearn") (State init []) = (r, st') /\
      calls st' = [] ++ [EvAdapterLoad "sklearn" "weights.bin"] /\
      framework (self st') = Some "sklearn") /\
  load_builtin corrupt_disk "model.pkl" (Some "xgboost") (State init [])
  = (Raise (Exn ValueError "Unsupported framework: xgboost"),
     State (set_framework (Some "xgboost") init) []).
Proof.
  split.
  - apply (load_builtin_hint corrupt_disk "weights.bin" "sklearn" (State init [])).
    cbn. tauto.
  - apply (load_builtin_hint corrupt_disk "model.pkl" "xgboost" (State init [])).
    vm_compute. intuition discriminate.
Defined.

(** X6.  Detection lower-cases the suffix but [_load_tensorflow] tests the path
    itself: a path detected through the suffix .h5 is loaded by Keras when
    it ends in ".h5" as written, and handed to the SavedModel loader
    otherwise. *)
Theorem tensorflow_loader_choice (w : world) (p : string) (st : state) :
  lower (suffix p) = ".h5" ->
  load_builtin w p None st
  = let r := or_not_installed
               (if endswith p ".h5" then keras_load_model w p
                else saved_model_load w p)
               "TensorFlow not installed. Add 'tensorflow' to requirements.txt" in
    (r,
     State (match r with
            | Ret v => set_model v (set_framework (Some "tensorflow") (self st))
            | Raise _ => set_framework (Some "tensorflow") (self st)
            end)
       (calls st ++ [EvAdapterLoad "tensorflow" p])).
Proof.
  intros H. unfold load_builtin, _detect_framework, _load_tensorflow. rewrite H.
  exec. cbn [in_list existsb String.eqb Ascii.eqb Bool.eqb orb]. exec.
  cbn [String.eqb Ascii.eqb Bool.eqb]. exec.
  now destruct (or_not_installed _ _).
Qed.

Lemma tensorflow_loader_choice_witness :
  let w := World (fun _ => true) (fun _ => false) no_such_file no_such_file true
             no_such_file (fun _ => Ret (PObj 2)) (fun _ => Ret (PObj 3))
             no_such_file no_such_file no_method no_method no_method no_method
             (fun _ => None) (fun _ => None) numpy_array in
  fst (load_builtin w "model.h5" None (State init [])) = Ret (PObj 2) /\
  fst (load_builtin w "MODEL.H5" None (State init [])) = Ret (PObj 3).
Proof.
  intros w. split.
  - rewrite (tensorflow_loader_choice w "model.h5" (State init []) eq_refl). reflexivity.
  - rewrite (tensorflow_loader_choice w "MODEL.H5" (State init []) eq_refl). reflexivity.
Defined.

(** X7.  A failure of the runtime that reads the model file is raised to the
    caller of [load_model]: as a ValueError quoting it for scikit-learn, as
    an installation hint when it is an ImportError of torch or onnxruntime,
    as it is otherwise.  The handle is not assigned. *)
Theorem adapter_failure_is_raised (w : world) (p : string) (st : state) (e : exn) :
  (pickle_load w p = Raise e ->
   load_builtin w p (Some "sklearn") st
   = (Raise (Exn ValueError ("Failed to load sklearn model: " +:+ exn_msg e)),
      State (set_framework (Some "sklearn") (self st))
        (calls st ++ [EvAdapterLoad "sklearn" p]))) /\
  (torch_load w p = Raise e ->
   load_builtin w p (Some "pytorch") st
   = (Raise (if is_class ImportError e
             then Exn ImportError "PyTorch not installed. Add 'torch' to requirements.txt"
             else e),
      State (set_framework (Some "pytorch") (self st))
        (calls st ++ [EvAdapterLoad "pytorch" p]))) /\
  (ort_InferenceSession w p = Raise e ->
   load_builtin w p (Some "onnx") st
   = (Raise (if is_class ImportError e
             then Exn ImportError
                    "ONNX Runtime not installed. Add 'onnxruntime' to requirements.txt"
             else e),
      State (set_framework (Some "onnx") (self st))
        (calls st ++ [EvAdapterLoad "onnx" p]))).
Proof.
  repeat apply conj; intros H; unfold load_builtin; exec;
    cbn [String.eqb Ascii.eqb Bool.eqb];
    unfold _load_pytorch, _load_onnx, _load_sklearn, or_not_installed; exec;
    rewrite H; try reflexivity; now destruct (is_class ImportError e).
Qed.

Lemma adapter_failure_is_raised_witness :
  load_builtin corrupt_disk "model.pkl" (Some "sklearn") (State init [])
  = (Raise (Exn ValueError "Failed to load sklearn model: invalid load key"),
     State (set_framework (Some "sklearn") init) [EvAdapterLoad "sklearn" "model.pkl"]).
Proof.
  destruct (adapter_failure_is_raised corrupt_disk "model.pkl" (State init [])
              (Exn RuntimeError "invalid load key")) as (H & _).
  apply H. reflexivity.
Defined.

(** ** The API loader *)

(** X8.  The custom-script tier of the API loader.  The script is imported; when
    it defines load_model, that function alone decides the load: it is
    called with the model path, its value is installed with the tag custom
    whatever the framework hint, and its exception is raised without the
    adapters being tried.  When it does not, the adapters load the model
    and the script is no longer used. *)
Theorem api_custom_tier (w : world) (p : string) (fw : option string) (cip : string)
    (m : gmap string pyfunc) (st : state) :
  cip <> "" ->
  path_exists w cip = true ->
  exec_module w cip = Ret m ->
  let s0 := set_use_custom_inference true
              (set_custom_inference (Some m) (set_model_path (Some p) (self st))) in
  (forall f, m !! "load_model" = Some f ->
     Api.load_model w p fw (Some cip) st
     = match fn_call f [PStr p] ∅ with
       | Ret v =>
           (Ret v,
            State (set_framework (Some "custom") (set_model v s0))
              (calls st ++ [EvExecModule cip; EvCall "load_model" [PStr p] ∅]))
       | Raise e =>
           (Raise e,
            State s0 (calls st ++ [EvExecModule cip; EvCall "load_model" [PStr p] ∅]))
       end) /\
  (m !! "load_model" = None ->
   Api.load_model w p fw (Some cip) st
   = load_builtin w p fw
       (State (set_use_custom_inference false s0)
          (calls st ++ [EvExecModule cip; EvWarn WNoLoadModelFunction]))).
Proof.
  intros Hne Hex Hmod s0. apply String.eqb_neq in Hne.
  split.
  - intros f Hf. unfold Api.load_model, Api.load_custom, Api._load_custom_inference.
    exec. cbn [truthy default]. unfold id. rewrite Hne, Hex. cbn [negb andb].
    exec. rewrite Hmod. exec. rewrite Hf. exec.
    destruct (fn_call f [PStr p] ∅); cbn [self calls]; now rewrite <- !app_assoc.
  - intros Hf. unfold Api.load_model, Api.load_custom, Api._load_custom_inference.
    exec. cbn [truthy default]. unfold id. rewrite Hne, Hex. cbn [negb andb].
    exec. rewrite Hmod. exec. rewrite Hf. exec. now rewrite <- !app_assoc.
Qed.

Lemma api_custom_tier_witness :
  Api.load_model (script_disk predict_only_script) "model.pkl" (Some "pytorch")
    (Some "custom/inference.py") (State init [])
  = load_builtin (script_disk predict_only_script) "model.pkl" (Some "pytorch")
      (State (Session PNone None (Some "model.pkl") (Some predict_only_script) false
                NoConfig)
         [EvExecModule "custom/inference.py"; EvWarn WNoLoadModelFunction]).
Proof.
  destruct (api_custom_tier (script_disk predict_only_script) "model.pkl"
              (Some "pytorch") "custom/inference.py" predict_only_script (State init []))
    as (_ & H); [discriminate | reflexivity | reflexivity |].
  apply H. reflexivity.
Defined.

Lemma api_predict_self (w : world) (x : pyval) (st : state) :
  self (snd (Api.predict w x st)) = self st.
Proof.
  unfold Api.predict, _predict_pytorch, _predict_tensorflow, _predict_onnx,
    _predict_sklearn. exec.
  repeat (case_match; exec; simplify_eq); reflexivity.
Qed.

(** X9.  [predict] of the API loader never changes the loader object, on
    any of its paths: not loaded, script, framework adapters.  So the
    handler of POST /predict hands the loader on as it was, and the path
    and the framework tag it puts in the PredictResponse it returns are
    those the loader had when the request came in. *)
Theorem api_predict_keeps_session (w : world) (x : pyval) (st : state) :
  self (snd (Api.predict w x st)) = self st /\
  (exists st',
      snd (Api.predict_route w (Some st) x) = Some st' /\ self st' = self st) /\
  (forall j mp fw,
      fst (Api.predict_route w (Some st) x) = Api.PredictResponse j mp fw ->
      mp = model_path (self st) /\ fw = framework (self st)).
Proof.
  pose proof (api_predict_self w x st) as Hs.
  split; [exact Hs|].
  unfold Api.predict_route. cbn [Api.get_model_loader]. unfold bind, lift.
  destruct (Api.predict w x st) as [[v|e] st1]; cbn [fst snd] in *.
  - destruct (Api.to_serializable w v) as [j|e]; cbn [fst snd].
    + rewrite Hs. split; [eauto|]. intros j' mp fw [= _ <- <-]. auto.
    + split; [eauto | discriminate].
  - split; [eauto | discriminate].
Qed.

Lemma api_predict_keeps_session_witness :
  fst (Api.predict_route labelling_disk (Some (State sklearn_session []))
         (PList [PList [PNum 5; PNum 3]]))
  = Api.PredictResponse a_label (Some "old.pkl") (Some "sklearn") /\
  Some "old.pkl" = model_path sklearn_session /\
  Some "sklearn" = framework sklearn_session.
Proof.
  split; [reflexivity|].
  destruct (api_predict_keeps_session labelling_disk (PList [PList [PNum 5; PNum 3]])
              (State sklearn_session [])) as (_ & _ & H).
  apply (H a_label). reflexivity.
Defined.

(** X10.  Prediction through the script of the API loader: a script in use that
    defines predict receives the handle and the input, in this order, and
    no adapter runs; a session tagged custom whose script has no predict
    cannot predict. *)
Theorem api_custom_predict (w : world) (x : pyval) (st : state)
    (m : gmap string pyfunc) :
  model (self st) <> PNone ->
  use_custom_inference (self st) = true ->
  custom_inference (self st) = Some m ->
  (forall f, m !! "predict" = Some f ->
     Api.predict w x st
     = (fn_call f [model (self st); x] ∅,
        record st [EvCall "predict" [model (self st); x] ∅])) /\
  (m !! "predict" = None -> framework (self st) = Some "custom" ->
   Api.predict w x st
   = (Raise (Exn ValueError
               "Custom model loaded but no predict() function found in inference.py"),
      st)).
Proof.
  intros Hm Hu Hc. split.
  - intros f Hf. unfold Api.predict. exec.
    destruct (model (self st)) eqn:E; try congruence; cbn [is_none];
      rewrite Hu, Hc; cbn [getattr]; rewrite Hf; exec;
      now destruct (fn_call f _ ∅).
  - intros Hf Hfw. unfold Api.predict. exec.
    destruct (model (self st)) eqn:E; try congruence; cbn [is_none];
      rewrite Hu, Hc; cbn [getattr]; rewrite Hf; exec; rewrite Hfw;
      now destruct st.
Qed.

Lemma api_custom_predict_witness :
  Api.predict corrupt_disk (PStr "good movie") (State guarded_session [])
  = (Raise (Exn ValueError "Model not loaded. Call load_model() first."),
     State guarded_session
       [EvCall "predict" [the_model; PStr "good movie"] ∅]).
Proof.
  destruct (api_custom_predict corrupt_disk (PStr "good movie") (State guarded_session [])
              guarded_script) as (H & _); [discriminate | reflexivity | reflexivity |].
  apply (H (constant 2 (Raise (Exn ValueError "Model not loaded. Call load_model() first.")))).
  reflexivity.
Defined.

(** ** The deployed loader: prediction *)

Lemma try_predict_function_self (n : string) (f : pyfunc) (x : pyval) (st : state) :
  self (snd (App.try_predict_function n f x st)) = self st.
Proof.
  unfold App.try_predict_function. exec.
  repeat (case_match; exec; simplify_eq); reflexivity.
Qed.

Lemma try_predict_functions_self (names : list string) (x : pyval) (st : state) :
  self (snd (App.try_predict_functions names x st)) = self st.
Proof.
  revert st. induction names as [|n names IH]; intros st; [reflexivity|].
  cbn [App.try_predict_functions]. exec.
  destruct (getattr (custom_inference (self st)) n) as [f|]; [|apply IH].
  pose proof (try_predict_function_self n f x st) as H.
  destruct (App.try_predict_function n f x st) as [[[v|]|e] st']; cbn in *;
    [exact H | | exact H].
  rewrite IH. exact H.
Qed.

Lemma predict_from_config_self (d : config_data) (x : pyval) (st : state) :
  self (snd (App._predict_from_config d x st)) = self st.
Proof.
  unfold App._predict_from_config. exec.
  destruct (cd_predict d) as [pc|]; [|reflexivity].
  destruct (App.func_name_of pc) as [n|]; [|reflexivity].
  destruct (getattr (custom_inference (self st)) n) as [f|]; [|reflexivity].
  destruct (predict_kwargs_run x (default [] (fs_args pc)) ∅ st) as (kw & -> & _).
  cbn [fst snd record self calls]. now destruct (fn_call f [] kw).
Qed.

(** X12.  [predict] of the deployed loader never changes the loader object, on
    any of its paths: manifest, common names, adapters, or not loaded. *)
Theorem app_predict_keeps_session (w : world) (x : pyval) (st : state) :
  self (snd (App.predict w x st)) = self st.
Proof.
  unfold App.predict. exec.
  destruct (is_none (model (self st))); [reflexivity|].
  destruct (use_custom_inference (self st) && has_key (custom_inference (self st))).
  - unfold App._try_custom_predict. exec.
    destruct (model_config (self st)) as [|d|c].
    + exec. apply (try_predict_functions_self _ x (record st [EvWarn WFallbackPredict])).
    + destruct (App.dict_truthy d).
      * apply predict_from_config_self.
      * exec. apply (try_predict_functions_self _ x (record st [EvWarn WFallbackPredict])).
    + exec. apply (try_predict_functions_self _ x (record st [EvWarn WFallbackPredict])).
  - unfold _predict_pytorch, _predict_tensorflow, _predict_onnx, _predict_sklearn. exec.
    repeat (case_match; exec; simplify_eq); reflexivity.
Qed.

Lemma try_predict_function_skipped (s : gmap string pyfunc) (n : string) (f : pyfunc)
    (x : pyval) (st : state) :
  s !! n = Some f ->
  predict_candidate_skipped s (model (self st)) x n = true ->
  App.try_predict_function n f x st
  = (Ret None, record st (predict_skip_events s (model (self st)) x n)).
Proof.
  intros Hf. unfold predict_candidate_skipped, predict_skip_events,
    App.try_predict_function, predict_arguments. rewrite Hf. exec.
  destruct (fn_signature f) as [k|e]; cbn [self calls].
  - destruct k as [|[|k]];
      (destruct (fn_call f _ ∅) as [v|e]; [discriminate|]);
      intros H; apply negb_true_iff in H; rewrite H; exec;
      now rewrite <- !app_assoc.
  - intros H. apply negb_true_iff in H. rewrite H. exec. now rewrite <- !app_assoc.
Qed.

Lemma try_predict_function_answers (n : string) (f : pyfunc) (x : pyval) (st : state)
    (k : nat) (v : pyval) :
  fn_signature f = Ret k ->
  fn_call f (predict_arguments k (model (self st)) x) ∅ = Ret v ->
  App.try_predict_function n f x st
  = (Ret (Some v),
     record st [EvSignature n; EvCall n (predict_arguments k (model (self st)) x) ∅]).
Proof.
  intros Hs Hc. unfold App.try_predict_function, predict_arguments in *. exec.
  rewrite Hs. cbn [self calls].
  destruct k as [|[|k]]; rewrite Hc; cbn [self calls]; now rewrite <- !app_assoc.
Qed.

Lemma predict_skip_events_absent (s : gmap string pyfunc) (m x : pyval) (c : string) :
  s !! c = None -> predict_skip_events s m x c = [].
Proof. intros H. unfold predict_skip_events. now rewrite H. Qed.

Lemma try_predict_functions_first (s : gmap string pyfunc) (pre post : list string)
    (n : string) (f : pyfunc) (k : nat) (v x : pyval) (st : state) :
  custom_inference (self st) = Some s ->
  Forall (fun c => predict_candidate_skipped s (model (self st)) x c = true) pre ->
  s !! n = Some f ->
  fn_signature f = Ret k ->
  fn_call f (predict_arguments k (model (self st)) x) ∅ = Ret v ->
  App.try_predict_functions (pre ++ n :: post) x st
  = (Ret v,
     record st (flat_map (predict_skip_events s (model (self st)) x) pre
                  ++ [EvSignature n;
                      EvCall n (predict_arguments k (model (self st)) x) ∅])).
Proof.
  intros Hci Hpre Hf Hs Hc. revert st Hci Hpre Hs Hc.
  induction pre as [|c pre IH]; intros st Hci Hpre Hs Hc.
  - cbn [app App.try_predict_functions flat_map]. exec. rewrite Hci. cbn [getattr].
    rewrite Hf, (try_predict_function_answers n f x st k v Hs Hc). reflexivity.
  - apply Forall_cons_1 in Hpre as [Hc1 Hpre].
    cbn [app App.try_predict_functions flat_map]. exec. rewrite Hci. cbn [getattr].
    destruct (s !! c) as [g|] eqn:Hg.
    + rewrite (try_predict_function_skipped s c g x st Hg Hc1).
      rewrite (IH (record st (predict_skip_events s (model (self st)) x c)));
        [|exact Hci | exact Hpre | exact Hs | exact Hc].
      unfold record. cbn [self calls]. now rewrite <- !app_assoc.
    + rewrite (predict_skip_events_absent s _ x c Hg). cbn [app].
      rewrite (IH st Hci Hpre Hs Hc). reflexivity.
Qed.

Lemma try_predict_functions_exhausted (s : gmap string pyfunc) (names : list string)
    (x : pyval) (st : state) :
  custom_inference (self st) = Some s ->
  Forall (fun c => predict_candidate_skipped s (model (self st)) x c = true) names ->
  App.try_predict_functions names x st
  = (Raise (Exn ValueError
              ("Custom inference loaded but no compatible predict function found. "
                 +:+ "Tried: predict(), inference(), run(), forward(), __call__()")),
     record st (flat_map (predict_skip_events s (model (self st)) x) names)).
Proof.
  intros Hci Hall. revert st Hci Hall.
  induction names as [|c names IH]; intros st Hci Hall.
  - cbn. unfold record. rewrite app_nil_r. now destruct st.
  - apply Forall_cons_1 in Hall as [Hc Hall].
    cbn [App.try_predict_functions flat_map]. exec. rewrite Hci. cbn [getattr].
    destruct (s !! c) as [g|] eqn:Hg.
    + rewrite (try_predict_function_skipped s c g x st Hg Hc).
      rewrite (IH (record st (predict_skip_events s (model (self st)) x c)));
        [|exact Hci | exact Hall].
      unfold record. cbn [self calls]. now rewrite <- !app_assoc.
    + rewrite (predict_skip_events_absent s _ x c Hg). cbn [app].
      rewrite (IH st Hci Hall). reflexivity.
Qed.

(** X13.  The search for a predict function, on a session that holds no manifest
    dict.  The names predict, inference, run, forward, __call__ are tried
    in this order; a name that is not defined, or whose introspection or
    call raises anything but a TypeError, is passed over with a warning;
    the first candidate whose call returns ends the search with the value
    returned, None included, having been called with no argument, the
    input, or the handle and the input as it has 0, 1 or more parameters.
    When all five are passed over, a ValueError listing them is raised. *)
Theorem heuristic_predict_search (s : gmap string pyfunc) (x : pyval) (st : state) :
  custom_inference (self st) = Some s ->
  (forall d, model_config (self st) = ConfigDict d -> App.dict_truthy d = false) ->
  let m := model (self st) in
  App.predict_functions = ["predict"; "inference"; "run"; "forward"; "__call__"] /\
  (forall pre n post f k v,
      App.predict_functions = pre ++ n :: post ->
      Forall (fun c => predict_candidate_skipped s m x c = true) pre ->
      s !! n = Some f ->
      fn_signature f = Ret k ->
      fn_call f (predict_arguments k m x) ∅ = Ret v ->
      App._try_custom_predict x st
      = (Ret v,
         record st ([EvWarn WFallbackPredict]
                      ++ flat_map (predict_skip_events s m x) pre
                      ++ [EvSignature n; EvCall n (predict_arguments k m x) ∅]))) /\
  (Forall (fun c => predict_candidate_skipped s m x c = true) App.predict_functions ->
   App._try_custom_predict x st
   = (Raise (Exn ValueError
               ("Custom inference loaded but no compatible predict function found. "
                  +:+ "Tried: predict(), inference(), run(), forward(), __call__()")),
      record st ([EvWarn WFallbackPredict]
                   ++ flat_map (predict_skip_events s m x) App.predict_functions))).
Proof.
  intros Hci Hcfg m.
  assert (App._try_custom_predict x st
          = App.try_predict_functions App.predict_functions x
              (record st [EvWarn WFallbackPredict])) as Hrun.
  { unfold App._try_custom_predict. exec.
    destruct (model_config (self st)) as [|d|c] eqn:E; [reflexivity | | reflexivity].
    now rewrite (Hcfg d eq_refl). }
  split; [reflexivity|]. split.
  - intros pre n post f k v Hsplit Hpre Hf Hs Hc.
    rewrite Hrun, Hsplit.
    rewrite (try_predict_functions_first s pre post n f k v x
               (record st [EvWarn WFallbackPredict]) Hci Hpre Hf Hs Hc).
    unfold record. cbn [self calls]. now rewrite <- !app_assoc.
  - intros Hall. rewrite Hrun.
    rewrite (try_predict_functions_exhausted s App.predict_functions x
               (record st [EvWarn WFallbackPredict]) Hci Hall).
    unfold record. cbn [self calls]. now rewrite <- !app_assoc.
Qed.

Lemma heuristic_predict_search_witness :
  App._try_custom_predict (PStr "good movie")
    (State (heuristic_session {[ "predict" := builtin_predict;
                                 "run" := constant 0 (Ret PNone) ]}) [])
  = (Ret PNone,
     State (heuristic_session {[ "predict" := builtin_predict;
                                 "run" := constant 0 (Ret PNone) ]})
       [EvWarn WFallbackPredict; EvSignature "predict";
        EvWarn (WCandidateFailed "predict"); EvSignature "run"; EvCall "run" [] ∅]).
Proof.
  destruct (heuristic_predict_search
              {[ "predict" := builtin_predict; "run" := constant 0 (Ret PNone) ]}
              (PStr "good movie")
              (State (heuristic_session {[ "predict" := builtin_predict;
                                           "run" := constant 0 (Ret PNone) ]}) []))
    as (_ & H & _); [reflexivity | discriminate |].
  rewrite (H ["predict"; "inference"] "run" ["forward"; "__call__"]
             (constant 0 (Ret PNone)) 0%nat PNone);
    [vm_compute; reflexivity | reflexivity | repeat constructor
    | reflexivity | reflexivity | reflexivity].
Defined.

(** ** The deployed loader: keyword arguments of the manifest *)

Ltac kwargs_key k :=
  destruct (String.eqb_spec k "input_data") as [->|?];
  [|destruct (String.eqb_spec k "model") as [->|?];
    [|destruct (String.eqb_spec k "data") as [->|?]]];
  cbn [andb orb String.eqb Ascii.eqb Bool.eqb];
  repeat match goal with
         | |- context [in_list ?a ?l] => destruct (in_list a l)
         end;
  cbn [andb orb];
  first [reflexivity | apply lookup_insert_eq | apply lookup_insert_ne; congruence].

(** The dict [predict_kwargs] builds, key by key. *)
Lemma predict_kwargs_lookup (x : pyval) (args : list string)
    (kw : gmap string pyval) (st : state) :
  exists kw',
    App.predict_kwargs x args kw st
    = (Ret kw',
       record st
         (List.map (fun a => EvWarn (WUnknownPredictArg a))
            (List.filter
               (fun a => negb (in_list a ["input_data"; "model"; "data"])) args)))
    /\ forall k,
        kw' !! k
        = if String.eqb k "input_data" && in_list "input_data" args then Some x
          else if String.eqb k "model" && in_list "model" args
               then Some (model (self st))
               else if String.eqb k "data" && in_list "data" args then Some x
                    else kw !! k.
Proof.
  revert kw st. induction args as [|a args IH]; intros kw st.
  - exists kw. split.
    + unfold record. cbn. rewrite app_nil_r. now destruct st.
    + intros k. cbn. now rewrite !andb_false_r.
  - cbn [App.predict_kwargs List.filter]. rewrite !in_list_cons.
    change (in_list a ["input_data"; "model"; "data"])
      with (String.eqb a "input_data"
            || (String.eqb a "model" || (String.eqb a "data" || false))).
    destruct (String.eqb_spec a "input_data") as [->|N1].
    { cbn [orb negb].
      destruct (IH (<["input_data" := x]> kw) st) as (kw' & -> & Hk).
      exists kw'. split; [reflexivity|]. intros k. rewrite Hk. kwargs_key k. }
    destruct (String.eqb_spec a "model") as [->|N2].
    { cbn [orb negb]. exec.
      destruct (IH (<["model" := model (self st)]> kw) st) as (kw' & -> & Hk).
      exists kw'. split; [reflexivity|]. intros k. rewrite Hk. kwargs_key k. }
    destruct (String.eqb_spec a "data") as [->|N3].
    { cbn [orb negb].
      destruct (IH (<["data" := x]> kw) st) as (kw' & -> & Hk).
      exists kw'. split; [reflexivity|]. intros k. rewrite Hk. kwargs_key k. }
    cbn [orb negb]. exec.
    destruct (IH kw (State (self st) (calls st ++ [EvWarn (WUnknownPredictArg a)])))
      as (kw' & -> & Hk).
    exists kw'. split.
    + unfold record. cbn. now rewrite <- app_assoc.
    + intros k. rewrite Hk. cbn [self].
      assert (String.eqb "input_data" a = false) as -> by (apply String.eqb_neq; congruence).
      assert (String.eqb "model" a = false) as -> by (apply String.eqb_neq; congruence).
      assert (String.eqb "data" a = false) as -> by (apply String.eqb_neq; congruence).
      reflexivity.
Qed.

(** X14.  The keyword arguments built from the manifest depend on which tokens
    occur in [args], not on their order nor on how often they occur: two
    token lists with the same members give the same dict, for the load
    function and for the predict function. *)
Theorem kwargs_ignore_token_order (args args' : list string)
    (kw : gmap string pyval) (st : state) :
  (forall t, In t args <-> In t args') ->
  (forall mfp dir,
      fst (App.load_kwargs mfp dir args kw st)
      = fst (App.load_kwargs mfp dir args' kw st)) /\
  (forall x,
      fst (App.predict_kwargs x args kw st) = fst (App.predict_kwargs x args' kw st)).
Proof.
  intros H. split.
  - intros mfp dir.
    destruct (load_kwargs_lookup mfp dir args kw st) as (k1 & -> & H1).
    destruct (load_kwargs_lookup mfp dir args' kw st) as (k2 & -> & H2).
    cbn [fst]. f_equal. apply map_eq. intros k. rewrite H1, H2.
    now rewrite (in_list_ext "model_path" args args' H),
      (in_list_ext "model_dir" args args' H).
  - intros x.
    destruct (predict_kwargs_lookup x args kw st) as (k1 & -> & H1).
    destruct (predict_kwargs_lookup x args' kw st) as (k2 & -> & H2).
    cbn [fst]. f_equal. apply map_eq. intros k. rewrite H1, H2.
    now rewrite (in_list_ext "input_data" args args' H),
      (in_list_ext "model" args args' H), (in_list_ext "data" args args' H).
Qed.

Lemma kwargs_ignore_token_order_witness :
  fst (App.load_kwargs "/m/model.pkl" "/m" ["model_dir"; "model_path"; "model_dir"] ∅
         (State init []))
  = fst (App.load_kwargs "/m/model.pkl" "/m" ["model_path"; "model_dir"] ∅
           (State init [])).
Proof.
  apply (kwargs_ignore_token_order ["model_dir"; "model_path"; "model_dir"]
           ["model_path"; "model_dir"] ∅ (State init [])).
  intros t. cbn. tauto.
Defined.

(** ** Manifest-driven prediction and loading *)

(** X15.  On a loaded session that holds the manifest as
    a raw dict with a predict entry naming [n], [predict] looks [n] up in
    the script and nothing else: when the script does not define [n] it
    raises AttributeError without calling anything; when it does, it makes
    exactly one call, of [n], with no positional argument and the keyword
    arguments the tokens select (input_data and data bound to the input,
    model to the handle), after one warning per skipped token, and hands
    back that call's outcome, leaving the session as it was. *)
Theorem manifest_predict (w : world) (d : config_data) (p : function_spec)
    (n : string) (s : gmap string pyfunc) (x : pyval) (st : state) :
  is_none (model (self st)) = false ->
  use_custom_inference (self st) = true ->
  custom_inference (self st) = Some s ->
  model_config (self st) = ConfigDict d ->
  cd_predict d = Some p ->
  App.func_name_of p = Some n ->
  (s !! n = None ->
   App.predict w x st
   = (Raise (Exn AttributeError ("Function '" +:+ n +:+ "' not found in entry point")),
      st)) /\
  (forall f, s !! n = Some f ->
     exists kw,
       (forall k,
           kw !! k
           = if String.eqb k "input_data" && in_list "input_data" (default [] (fs_args p))
             then Some x
             else if String.eqb k "model" && in_list "model" (default [] (fs_args p))
                  then Some (model (self st))
                  else if String.eqb k "data" && in_list "data" (default [] (fs_args p))
                       then Some x
                       else None) /\
       App.predict w x st
       = (fn_call f [] kw,
          record st
            (List.map (fun a => EvWarn (WUnknownPredictArg a))
               (List.filter
                  (fun a => negb (in_list a ["input_data"; "model"; "data"]))
                  (default [] (fs_args p)))
             ++ [EvCall n [] kw]))).
Proof.
  intros Hm Hu Hs Hc Hp Hn.
  assert (App.dict_truthy d = true) as Ht.
  { unfold App.dict_truthy. rewrite Hp. cbn. now rewrite !orb_true_r. }
  assert (App.predict w x st = App._predict_from_config d x st) as ->.
  { unfold App.predict, App._try_custom_predict. exec.
    rewrite Hm, Hu, Hs. cbn [andb has_key]. now rewrite Hc, Ht. }
  unfold App._predict_from_config. exec. rewrite Hp, Hn, Hs. cbn [getattr].
  split.
  - intros ->. now destruct st.
  - intros f ->. exec.
    destruct (predict_kwargs_lookup x (default [] (fs_args p)) ∅ st)
      as (kw & -> & Hk).
    exists kw. split.
    + intros k. rewrite Hk. now rewrite lookup_empty.
    + cbn [fst snd record self calls]. rewrite <- app_assoc.
      now destruct (fn_call f [] kw).
Qed.

Lemma manifest_predict_witness :
  exists kw,
    App.predict (manifest_disk false (a_manifest ["weights"] ["data"; "top_k"]))
      (PStr "good movie")
      (State (Session the_model (Some "custom") (Some "model.pkl") (Some manifest_script)
                true (ConfigDict (a_manifest ["weights"] ["data"; "top_k"]))) [])
    = (Ret a_label,
       State (Session the_model (Some "custom") (Some "model.pkl") (Some manifest_script)
                true (ConfigDict (a_manifest ["weights"] ["data"; "top_k"])))
         [EvWarn (WUnknownPredictArg "top_k"); EvCall "classify" [] kw]).
Proof.
  destruct (manifest_predict
              (manifest_disk false (a_manifest ["weights"] ["data"; "top_k"]))
              (a_manifest ["weights"] ["data"; "top_k"])
              (FunctionSpec (Some "classify") None (Some ["data"; "top_k"]))
              "classify" manifest_script (PStr "good movie")
              (State (Session the_model (Some "custom") (Some "model.pkl")
                        (Some manifest_script) true
                        (ConfigDict (a_manifest ["weights"] ["data"; "top_k"]))) [])
              eq_refl eq_refl eq_refl eq_refl eq_refl eq_refl) as (_ & H).
  destruct (H (constant 1 (Ret a_label)) eq_refl) as (kw & _ & E).
  exists kw. exact E.
Defined.

Lemma parse_and_validate_accepts (w : world) (cfg : string) (d : config_data)
    (c : Schema.ModelConfig) (st : state) :
  read_json w cfg = Ret d ->
  App.missing_fields d = [] ->
  (schema_available w = true -> Schema.parse_ModelConfig d = Ret c) ->
  App.parse_and_validate w cfg st
  = (Ret d,
     State (set_model_config
              (if schema_available w then ConfigObject c else ConfigDict d) (self st))
       (calls st)).
Proof.
  intros Hd Hm Hc. unfold App.parse_and_validate. exec. rewrite Hd.
  destruct (schema_available w).
  - unfold Schema.validate_file. rewrite Hd, (Hc eq_refl). reflexivity.
  - rewrite Hm. reflexivity.
Qed.

(** X16.  A manifest load that goes through: with
    model_config.json present and accepted, the entry point importable
    and defining the declared load function, [load_model] imports the
    entry point and calls that function once, with keyword arguments
    only: model_path bound to the manifest's model file inside the model
    directory (not to the path [load_model] was given) and model_dir to
    the directory.  Whatever the function answers, None included, becomes
    the handle and the result; the framework tag is the manifest's, or
    custom when it has none; the framework hint and the script path of
    the caller play no part. *)
Theorem manifest_load (w : world) (p : string) (fw cip : option string) (dir : string)
    (d : config_data) (c : Schema.ModelConfig) (ep mf n : string) (l : function_spec)
    (m : gmap string pyfunc) (f : pyfunc) (st : state) :
  App.manifest_present w (Some dir) = true ->
  read_json w (join dir "model_config.json") = Ret d ->
  App.missing_fields d = [] ->
  (schema_available w = true -> Schema.parse_ModelConfig d = Ret c) ->
  cd_entry_point d = Some ep ->
  path_exists w (join dir ep) = true ->
  exec_module w (join dir ep) = Ret m ->
  cd_load d = Some l ->
  App.func_name_of l = Some n ->
  m !! n = Some f ->
  cd_model_file d = Some mf ->
  exists kw,
    (forall k,
        kw !! k
        = if String.eqb k "model_path" && in_list "model_path" (default [] (fs_args l))
          then Some (PStr (join dir mf))
          else if String.eqb k "model_dir" && in_list "model_dir" (default [] (fs_args l))
               then Some (PStr dir)
               else None) /\
    forall v, fn_call f [] kw = Ret v ->
      App.load_model w p fw cip (Some dir) st
      = (Ret v,
         State (Session v (Some (default "custom" (cd_framework d))) (Some p) (Some m)
                  true (if schema_available w then ConfigObject c else ConfigDict d))
           (calls st
              ++ EvExecModule (join dir ep)
              :: List.map (fun a => EvWarn (WUnknownLoadArg a))
                   (List.filter (fun a => negb (in_list a ["model_path"; "model_dir"]))
                      (default [] (fs_args l)))
              ++ [EvCall n [] kw])).
Proof.
  intros Hp Hd Hmiss Hc Hep Hex Hmod Hl Hn Hf Hmf.
  match goal with
  | |- context [List.filter ?g ?a] =>
      destruct (load_kwargs_lookup (join dir mf) dir a ∅
                  (State (set_use_custom_inference true
                            (set_custom_inference (Some m)
                               (set_model_config
                                  (if schema_available w then ConfigObject c
                                   else ConfigDict d)
                                  (set_model_path (Some p) (self st)))))
                     (calls st ++ [EvExecModule (join dir ep)])))
        as (kw & Hk & Hlook)
  end.
  exists kw. split.
  - intros k. rewrite Hlook. now rewrite lookup_empty.
  - intros v Hv. unfold App.load_model. exec. rewrite Hp.
    change (default "" (Some dir)) with dir.
    unfold App._load_from_config. unfold bind at 1.
    rewrite (parse_and_validate_accepts w _ d c _ Hd Hmiss Hc).
    exec. rewrite Hep, Hex. cbn [negb]. rewrite Hmod, Hl, Hn. exec. cbn [getattr].
    rewrite Hf, Hmf. exec. cbn [set_model_config set_model_path] in Hk.
    rewrite Hk. cbn [fst snd self calls]. rewrite Hv.
    cbn [self calls]. rewrite <- !app_assoc. reflexivity.
Qed.

Lemma manifest_load_witness :
  exists kw,
    App.load_model (manifest_disk true (a_manifest ["model_path"] ["input_data"]))
      "/models/other.pkl" (Some "sklearn") (Some "/elsewhere/inference.py")
      (Some "/app/user_model") (State init [])
    = (Ret the_model,
       State (Session the_model (Some "custom") (Some "/models/other.pkl")
                (Some manifest_script) true
                (ConfigObject
                   (Schema.MkModelConfig "Movie reviews" "1.0.0" "custom"
                      "inference.py" Schema.MODULE None
                      (Schema.MkFunctionConfig "load_model" ["model_path"])
                      (Schema.MkFunctionConfig "classify" ["input_data"])
                      "model.pkl")))
         [EvExecModule "/app/user_model/inference.py"; EvCall "load_model" [] kw])
    /\ kw !! "model_path" = Some (PStr "/app/user_model/model.pkl").
Proof.
  destruct (manifest_load
              (manifest_disk true (a_manifest ["model_path"] ["input_data"]))
              "/models/other.pkl" (Some "sklearn") (Some "/elsewhere/inference.py")
              "/app/user_model" (a_manifest ["model_path"] ["input_data"])
              (Schema.MkModelConfig "Movie reviews" "1.0.0" "custom"
                 "inference.py" Schema.MODULE None
                 (Schema.MkFunctionConfig "load_model" ["model_path"])
                 (Schema.MkFunctionConfig "classify" ["input_data"])
                 "model.pkl")
              "inference.py" "model.pkl" "load_model"
              (FunctionSpec (Some "load_model") None (Some ["model_path"]))
              manifest_script (constant 1 (Ret the_model)) (State init []))
    as (kw & Hk & H).
  - vm_compute; reflexivity.
  - vm_compute; reflexivity.
  - vm_compute; reflexivity.
  - intros _. vm_compute; reflexivity.
  - reflexivity.
  - vm_compute; reflexivity.
  - vm_compute; reflexivity.
  - reflexivity.
  - reflexivity.
  - vm_compute; reflexivity.
  - reflexivity.
  - exists kw. split.
    + exact (H the_model eq_refl).
    + rewrite Hk. reflexivity.
Defined.

(** ** The auto-detection tier *)

Lemma auto_detect_files_skip (w : world) (dir p : string) (pre rest : list string)
    (st : state) :
  Forall (fun f => path_exists w (join dir f) = false) pre ->
  App.auto_detect_files w dir p (pre ++ rest) st = App.auto_detect_files w dir p rest st.
Proof.
  induction 1 as [|f pre Hf _ IH]; [reflexivity|].
  cbn [app App.auto_detect_files]. now rewrite Hf.
Qed.

Lemma auto_detect_files_none (w : world) (dir p : string) (files : list string)
    (st : state) :
  Forall (fun f => path_exists w (join dir f) = false) files ->
  App.auto_detect_files w dir p files st = (Ret false, st).
Proof.
  intros H. rewrite <- (app_nil_r files). now rewrite auto_detect_files_skip.
Qed.

(** The auto-detection tier of [load_model], up to the loop over the
    common file names: the manifest step of
    [_try_auto_detect_custom_inference] finds nothing, since the tier is
    only entered when the directory has no model_config.json. *)
Lemma load_model_auto_detect (w : world) (p : string) (fw cip : option string)
    (dir : string) (st : state) :
  truthy cip && path_exists w (default "" cip) = false ->
  dir <> "" ->
  path_exists w dir = true ->
  path_exists w (join dir "model_config.json") = false ->
  App.load_model w p fw cip (Some dir) st
  = match App.auto_detect_files w dir p App.inference_files
            (State (set_model_path (Some p) (self st)) (calls st ++ [EvWarn WAutoDetect]))
    with
    | (Ret true, st1) =>
        (Ret (model (self st1)),
         State (set_framework (Some "custom") (self st1)) (calls st1))
    | (Ret false, st1) => load_builtin w p fw st1
    | (Raise e, st1) => (Raise e, st1)
    end.
Proof.
  intros Hc Hne Hd Hm.
  unfold App.load_model, App.manifest_present, App.load_custom,
    App._try_auto_detect_custom_inference, App.auto_detect_config.
  change (default "" (Some dir)) with dir. cbn [truthy].
  apply String.eqb_neq in Hne. rewrite Hne, Hd, Hm, Hc. cbn [negb andb].
  exec.
  destruct (App.auto_detect_files w dir p App.inference_files _) as [[[|]|e] st1];
    reflexivity.
Qed.

(** X17.  A model directory that holds no
    manifest and none of inference.py, predict.py, model.py, handler.py,
    main.py: [load_model] logs that it auto-detects, imports nothing,
    calls nothing, and loads through the framework adapters as if no
    directory had been given. *)
Theorem auto_detect_nothing_found (w : world) (p : string) (fw cip : option string)
    (dir : string) (st : state) :
  truthy cip && path_exists w (default "" cip) = false ->
  dir <> "" ->
  path_exists w dir = true ->
  path_exists w (join dir "model_config.json") = false ->
  Forall (fun f => path_exists w (join dir f) = false) App.inference_files ->
  App.load_model w p fw cip (Some dir) st
  = load_builtin w p fw
      (State (set_model_path (Some p) (self st)) (calls st ++ [EvWarn WAutoDetect])).
Proof.
  intros Hc Hne Hd Hm Hf.
  rewrite (load_model_auto_detect w p fw cip dir st Hc Hne Hd Hm).
  now rewrite auto_detect_files_none.
Qed.

Lemma auto_detect_nothing_found_witness :
  App.load_model
    (deployment ["/srv/m/model.pkl"] ["/srv/m"] no_such_file no_such_file true
       (fun _ => Ret the_model) no_method)
    "/srv/m/model.pkl" None None (Some "/srv/m") (State init [])
  = (Ret the_model,
     State (Session the_model (Some "sklearn") (Some "/srv/m/model.pkl") None false
              NoConfig)
       [EvWarn WAutoDetect; EvAdapterLoad "sklearn" "/srv/m/model.pkl"]).
Proof.
  rewrite (auto_detect_nothing_found
             (deployment ["/srv/m/model.pkl"] ["/srv/m"] no_such_file no_such_file true
                (fun _ => Ret the_model) no_method)
             "/srv/m/model.pkl" None None "/srv/m" (State init []));
    [reflexivity | reflexivity | discriminate | reflexivity | reflexivity |].
  repeat constructor.
Defined.

(** X18.  The auto-detection tier with a script: the
    first of inference.py, predict.py, model.py, handler.py, main.py that
    exists in the model directory is imported and searched for a load
    function like an explicit script, the model directory being the
    second argument of a two-parameter candidate.  The first candidate
    that answers a value other than None makes [load_model] return it,
    tagged custom.  When every candidate fails and no later file exists,
    [load_model] goes on with the framework adapters, and, unlike the
    explicit-script tier, it logs no warning and leaves the script
    installed and in use, so that later predictions go to the script. *)
Theorem auto_detect_search (w : world) (p : string) (fw cip : option string)
    (dir : string) (pre post : list string) (fname : string) (m : gmap string pyfunc)
    (st : state) :
  truthy cip && path_exists w (default "" cip) = false ->
  dir <> "" ->
  path_exists w dir = true ->
  path_exists w (join dir "model_config.json") = false ->
  App.inference_files = pre ++ fname :: post ->
  Forall (fun f => path_exists w (join dir f) = false) pre ->
  path_exists w (join dir fname) = true ->
  exec_module w (join dir fname) = Ret m ->
  let st0 :=
    State (set_use_custom_inference true
             (set_custom_inference (Some m) (set_model_path (Some p) (self st))))
          (calls st ++ [EvWarn WAutoDetect; EvExecModule (join dir fname)]) in
  (forall lpre n lpost f k v,
      App.load_functions = lpre ++ n :: lpost ->
      Forall (fun x => candidate_fails p (Some dir) m x = true) lpre ->
      m !! n = Some f ->
      fn_signature f = Ret k ->
      fn_call f (App.load_arguments k p (Some dir)) ∅ = Ret v ->
      v <> PNone ->
      App.load_model w p fw cip (Some dir) st
      = (Ret v,
         State (set_framework (Some "custom") (set_model v (self st0)))
           (calls st0 ++ flat_map (attempt_events p (Some dir) m) lpre
              ++ [EvSignature n; EvCall n (App.load_arguments k p (Some dir)) ∅]))) /\
  (Forall (fun x => candidate_fails p (Some dir) m x = true) App.load_functions ->
   Forall (fun f => path_exists w (join dir f) = false) post ->
   exists s1,
     (s1 = self st0 \/ s1 = set_model PNone (self st0)) /\
     use_custom_inference s1 = true /\
     custom_inference s1 = Some m /\
     App.load_model w p fw cip (Some dir) st
     = load_builtin w p fw
         (State s1
            (calls st0 ++ flat_map (attempt_events p (Some dir) m) App.load_functions))).
Proof.
  intros Hc Hne Hd Hm Hfiles Hpre Hex Hmod st0.
  assert (forall st',
             App.auto_detect_files w dir p App.inference_files st'
             = match App.try_load_functions p (Some dir) App.load_functions
                       (State (set_use_custom_inference true
                                 (set_custom_inference (Some m) (self st')))
                          (calls st' ++ [EvExecModule (join dir fname)])) with
               | (Ret true, st1) => (Ret true, st1)
               | (Ret false, st1) => App.auto_detect_files w dir p post st1
               | (Raise e, st1) =>
                   App.auto_detect_files w dir p post
                     (record st1 [EvWarn (WCandidateFailed fname)])
               end) as Hstep.
  { intros st'. rewrite Hfiles, auto_detect_files_skip by exact Hpre.
    cbn [App.auto_detect_files]. rewrite Hex. exec. rewrite Hmod. exec.
    rewrite (try_custom_load_run p (Some dir) m); [|reflexivity].
    destruct (App.try_load_functions _ _ _ _) as [[[|]|e] st1]; reflexivity. }
  split.
  - intros lpre n lpost f k v Hsplit Hl Hn Hsig Hcall Hv.
    rewrite (load_model_auto_detect w p fw cip dir st Hc Hne Hd Hm), Hstep.
    cbn [self calls]. rewrite <- app_assoc. cbn [app]. fold st0.
    rewrite Hsplit.
    rewrite (try_load_functions_first p (Some dir) m lpre lpost n f k v st0);
      [reflexivity | reflexivity | assumption..].
  - intros Hall Hpost.
    rewrite (load_model_auto_detect w p fw cip dir st Hc Hne Hd Hm), Hstep.
    cbn [self calls]. rewrite <- app_assoc. cbn [app]. fold st0.
    destruct (try_load_functions_exhausted p (Some dir) m App.load_functions st0)
      as (s1 & -> & Hs1); [reflexivity | assumption |].
    rewrite auto_detect_files_none by exact Hpost.
    exists s1. split; [exact Hs1|].
    destruct Hs1 as [-> | ->]; repeat split; reflexivity.
Qed.

Lemma auto_detect_search_witness :
  let w :=
    deployment ["/srv/m/model.pkl"; "/srv/m/handler.py"] ["/srv/m"]
      (fun s => if String.eqb s "/srv/m/handler.py" then Ret predict_only_script
                else no_such_file s)
      no_such_file true (fun _ => Ret the_model) no_method in
  App.load_model w "/srv/m/model.pkl" None None (Some "/srv/m") (State init [])
  = (Ret the_model,
     State (Session the_model (Some "sklearn") (Some "/srv/m/model.pkl")
              (Some predict_only_script) true NoConfig)
       [EvWarn WAutoDetect; EvExecModule "/srv/m/handler.py";
        EvAdapterLoad "sklearn" "/srv/m/model.pkl"]).
Proof.
  cbv zeta.
  match goal with
  | |- App.load_model ?w ?p ?fw ?cip (Some ?dir) ?st = _ =>
      destruct (auto_detect_search w p fw cip dir
                  ["inference.py"; "predict.py"; "model.py"] ["main.py"] "handler.py"
                  predict_only_script st) as (_ & H)
  end; [reflexivity | discriminate | reflexivity | reflexivity | reflexivity
        | repeat constructor | reflexivity | reflexivity |].
  destruct H as (s1 & Hs1 & _ & _ & ->).
  - repeat constructor.
  - repeat constructor.
  - destruct Hs1 as [-> | ->]; vm_compute; reflexivity.
Defined.

(** ** The loaders against the first generation *)

(** X19.  Loading without a script is what it was before
    scripts were supported: when no script path is given, or the path
    does not exist, [load_model] of the API loader is [load_model] of the
    first loader, result, session and calls alike; and so is [load_model]
    of the deployed loader when in addition no model directory is given
    or it does not exist. *)
Theorem legacy_load (w : world) (p : string) (fw cip dir : option string) (st : state) :
  truthy cip && path_exists w (default "" cip) = false ->
  Api.load_model w p fw cip st = Legacy.load_model w p fw st /\
  (truthy dir && path_exists w (default "" dir) = false ->
   App.load_model w p fw cip dir st = Legacy.load_model w p fw st).
Proof.
  intros Hc. split.
  - unfold Api.load_model, Api.load_custom, Legacy.load_model. exec.
    now rewrite Hc.
  - intros Hd.
    unfold App.load_model, App.load_custom, App.manifest_present, Legacy.load_model.
    exec. now rewrite Hc, Hd.
Qed.

Lemma legacy_load_witness :
  Api.load_model corrupt_disk "model.pkl" None (Some "inference.py") (State init [])
  = Legacy.load_model corrupt_disk "model.pkl" None (State init []).
Proof.
  destruct (legacy_load corrupt_disk "model.pkl" None (Some "inference.py") None
              (State init [])) as (H & _); [reflexivity | exact H].
Defined.

(** X20.  On a session that uses no script and is not
    tagged custom, [predict] of both later loaders is [predict] of the
    first loader, provided a scikit-learn session is not given text (a
    string, a list starting with a string, or a list starting with a
    list that starts with a string): numeric input is still converted to
    an array and handed to the model. *)
Theorem legacy_predict (w : world) (x : pyval) (st : state) :
  use_custom_inference (self st) = false ->
  framework (self st) <> Some "custom" ->
  (framework (self st) = Some "sklearn" -> text_input x = false) ->
  Api.predict w x st = Legacy.predict w x st /\
  App.predict w x st = Legacy.predict w x st.
Proof.
  intros Hu Hc Hs.
  assert (_predict_sklearn w x st = Legacy._predict_sklearn w x st
          \/ framework (self st) <> Some "sklearn") as Hsk.
  { destruct (decide (framework (self st) = Some "sklearn")) as [E|N]; [left | now right].
    unfold _predict_sklearn, Legacy._predict_sklearn.
    rewrite (sklearn_argument_numeric w x (Hs E)). exec.
    now destruct (isinstance_ndarray x). }
  split.
  - unfold Api.predict, Legacy.predict. exec.
    destruct (is_none (model (self st))); [reflexivity|].
    rewrite Hu.
    destruct (bool_decide (framework (self st) = Some "pytorch")); [reflexivity|].
    destruct (bool_decide (framework (self st) = Some "tensorflow")); [reflexivity|].
    destruct (bool_decide (framework (self st) = Some "onnx")); [reflexivity|].
    case_bool_decide as E; [destruct Hsk as [H|H]; [exact H | done]|].
    case_bool_decide; [done | reflexivity].
  - unfold App.predict, Legacy.predict. exec.
    destruct (is_none (model (self st))); [reflexivity|].
    rewrite Hu. cbn [andb].
    destruct (bool_decide (framework (self st) = Some "pytorch")); [reflexivity|].
    destruct (bool_decide (framework (self st) = Some "tensorflow")); [reflexivity|].
    destruct (bool_decide (framework (self st) = Some "onnx")); [reflexivity|].
    case_bool_decide as E; [destruct Hsk as [H|H]; [exact H | done]|].
    case_bool_decide; [done | reflexivity].
Qed.

Lemma legacy_predict_witness :
  App.predict empty_disk (PList [PList [PNum 5; PNum 3]]) (State sklearn_session [])
  = Legacy.predict empty_disk (PList [PList [PNum 5; PNum 3]]) (State sklearn_session []).
Proof.
  destruct (legacy_predict empty_disk (PList [PList [PNum 5; PNum 3]])
              (State sklearn_session [])) as (_ & H);
    [reflexivity | discriminate | reflexivity | exact H].
Defined.

(** ** The routes after start-up *)

Lemma load_builtin_model_path (w : world) (p : string) (fw : option string)
    (st : state) :
  model_path (self (snd (load_builtin w p fw st))) = model_path (self st).
Proof.
  unfold load_builtin.
  assert (forall f st0,
             model_path (self st0) = model_path (self st) ->
             model_path
               (self (snd ((modify (set_framework (Some f)) ;;
                            v <- (if String.eqb f "pytorch" then _load_pytorch w p
                                  else if String.eqb f "tensorflow"
                                       then _load_tensorflow w p
                                       else if String.eqb f "onnx" then _load_onnx w p
                                            else if String.eqb f "sklearn"
                                                 then _load_sklearn w p
                                                 else raise (Exn ValueError
                                                        ("Unsupported framework: " +:+ f))) ;;
                            modify (set_model v) ;; ret v) st0)))
             = model_path (self st)) as H.
  { intros f st0 H0.
    unfold _load_pytorch, _load_tensorflow, _load_onnx, _load_sklearn. exec.
    destruct (String.eqb f "pytorch");
      [|destruct (String.eqb f "tensorflow");
        [|destruct (String.eqb f "onnx"); [|destruct (String.eqb f "sklearn")]]];
      exec;
      try match goal with
          | |- context [or_not_installed ?a ?b] => destruct (or_not_installed a b)
          | |- context [pickle_load ?a ?b] => destruct (pickle_load a b)
          end;
      exact H0. }
  destruct fw as [f|].
  - exact (H f st eq_refl).
  - unfold bind at 1. unfold lift.
    destruct (_detect_framework w p) as [f|e]; [|reflexivity].
    exact (H f st eq_refl).
Qed.

Lemma api_load_model_path (w : world) (p : string) (fw cip : option string) (st : state) :
  model_path (self (snd (Api.load_model w p fw cip st))) = Some p.
Proof.
  unfold Api.load_model. unfold bind at 1. unfold modify at 1. unfold bind at 1.
  assert (forall st0,
             model_path (self st0) = Some p ->
             match Api.load_custom w p cip st0 with
             | (_, st1) => model_path (self st1) = Some p
             end) as H.
  { intros st0 H0. unfold Api.load_custom, Api._load_custom_inference.
    destruct (truthy cip && path_exists w (default "" cip)); [|exact H0].
    exec. destruct (exec_module w (default "" cip)) as [m|e]; [|exact H0].
    destruct (m !! "load_model") as [f|]; exec; [|exact H0].
    destruct (fn_call f [PStr p] ∅); exact H0. }
  specialize (H (State (set_model_path (Some p) (self st)) (calls st)) eq_refl).
  destruct (Api.load_custom w p cip _) as [[[v|]|e] st1]; [exact H | | exact H].
  now rewrite load_builtin_model_path.
Qed.

(** X21.  What the routes say about a fresh loader after
    its first [load_model], as main.py runs it at start-up.  When the
    load raised, or returned None, GET /health reports initializing and
    shows neither path nor framework, even though the failed load has
    left both in the loader; GET /info answers 503 and POST /predict
    answers 500.  When the load returned a handle, /health reports
    healthy with the path that was loaded and the framework tag, which
    is set, and /info shows the same two values. *)
Theorem startup_health (w : world) (p : string) (fw cip : option string) :
  let r := Api.load_model w p fw cip (State init []) in
  let loader := Some (snd r) in
  let unloaded :=
    Service.health_check loader
    = Service.MkHealthResponse "initializing" false None None /\
    Api.model_info loader = Api.HTTPException 503 "Model not loaded" /\
    (forall x,
        fst (Api.predict_route w loader x)
        = Api.HTTPException 500
            "Prediction failed: Model not loaded. Call load_model() first.") /\
    model_path (self (snd r)) = Some p in
  match fst r with
  | Raise _ => unloaded
  | Ret v =>
      if is_none v then unloaded
      else
        Service.health_check loader
        = Service.MkHealthResponse "healthy" true (Some p) (framework (self (snd r))) /\
        Api.model_info loader = Api.InfoResponse (Some p) (framework (self (snd r))) /\
        framework (self (snd r)) <> None
  end.
Proof.
  cbv zeta.
  pose proof (api_load_model_path w p fw cip (State init [])) as Hp.
  assert (match Api.load_model w p fw cip (State init []) with
          | (Ret v, st') => model (self st') = v /\ framework (self st') <> None
          | (Raise _, st') => model (self st') = PNone
          end) as Hm.
  { unfold Api.load_model. unfold bind at 1. unfold modify at 1. unfold bind.
    pose proof (api_load_custom_state w p cip
                  (State (set_model_path (Some p) (self (State init []))) [])) as L.
    cbn [calls].
    destruct (Api.load_custom w p cip _) as [[[v|]|e] st1]; cbn in L |- *; auto.
    pose proof (load_builtin_state w p fw st1) as B.
    destruct (load_builtin w p fw st1) as [[v|e] st2]; cbn in B |- *;
      [exact B | congruence]. }
  destruct (Api.load_model w p fw cip (State init [])) as [[v|e] st'];
    cbn [fst snd] in *.
  - destruct Hm as (Hv & Hf).
    unfold Service.health_check, Api.model_info. rewrite Hv, Hp.
    destruct (is_none v) eqn:Hn; cbn [negb].
    + repeat apply conj; try reflexivity.
      intros x. rewrite predict_route_unloaded; [reflexivity|].
      rewrite Hv. now destruct v.
    + repeat apply conj; try reflexivity. exact Hf.
  - unfold Service.health_check, Api.model_info. rewrite Hm. cbn [is_none negb].
    repeat apply conj; try reflexivity; [|exact Hp].
    intros x. now rewrite predict_route_unloaded.
Qed.

(** ** The API key *)

(** X22.  With key authentication enabled, a request whose
    key is missing or differs from the configured one is answered by
    [verify_api_key] itself, with 401 when no key was sent and 403
    otherwise, on POST /predict and on GET /info alike; the loader is not
    consulted: it is handed back as it was, with no call recorded. *)
Theorem api_key_gate (s : Service.Settings) (w : world) (key : option string)
    (model_loader : option state) (x : pyval) :
  Service.enable_api_key_auth s = true ->
  key <> Some (Service.api_key s) ->
  exists e,
    Service.predict_endpoint s w key model_loader x = (inl e, model_loader) /\
    Service.info_endpoint s key model_loader = inl e /\
    Service.status_code e = match key with Some _ => 403 | None => 401 end%nat.
Proof.
  intros He Hk.
  unfold Service.predict_endpoint, Service.info_endpoint, Service.verify_api_key.
  rewrite He. cbn [negb].
  destruct key as [k|].
  - destruct (String.eqb_spec k (Service.api_key s)) as [->|_]; [done|].
    cbn [negb]. eauto.
  - eauto.
Qed.

Lemma api_key_gate_witness :
  exists e,
    Service.predict_endpoint Service.default_settings empty_disk (Some "wrong-key")
      (Some (State sklearn_session [])) (PList [PList [PNum 1; PNum 2]])
    = (inl e, Some (State sklearn_session [])) /\
    Service.info_endpoint Service.default_settings (Some "wrong-key")
      (Some (State sklearn_session [])) = inl e /\
    Service.status_code e = 403%nat.
Proof.
  apply (api_key_gate Service.default_settings empty_disk (Some "wrong-key")
           (Some (State sklearn_session [])) (PList [PList [PNum 1; PNum 2]]));
    [reflexivity | discriminate].
Defined.

(** ** Downloads from the bucket *)

Lemma download_loop_no_bucket {disk : Type} (c : Gcs.cloud disk)
    (model_id user_id model_dir : string) (files : list string) (any : bool) (s : disk) :
  Gcs.download_loop c false model_id user_id model_dir files any s = (any, s).
Proof.
  revert any s. induction files as [|f files IH]; intros any s; [reflexivity|].
  cbn [Gcs.download_loop]. unfold Gcs.download_file. cbn [negb fst snd]. apply IH.
Qed.

Lemma download_loop_some {disk : Type} (c : Gcs.cloud disk) (bucket : bool)
    (model_id user_id model_dir : string) (files : list string) (s s' : disk) :
  Gcs.download_loop c bucket model_id user_id model_dir files false s = (true, s') ->
  exists f s1,
    In f files /\
    fst (Gcs.download_file c bucket
           (user_id +:+ "/" +:+ model_id +:+ "/" +:+ f) (Gcs.div c model_dir f) s1)
    = true.
Proof.
  revert s. induction files as [|f files IH]; intros s; [discriminate|].
  cbn [Gcs.download_loop].
  destruct (fst (Gcs.download_file c bucket _ _ s)) eqn:Hf.
  - intros _. exists f, s. split; [now left | exact Hf].
  - intros H. apply IH in H as (g & s1 & Hin & Hg).
    exists g, s1. split; [now right | exact Hg].
Qed.

(** X23.  [download_model_files] creates
    the local directory local_dir/user_id/model_id first; a failure to
    create it is the only exception the method lets out.  Without a
    bucket (no credentials were found) it then answers None and touches
    nothing else.  It answers a directory only when a bucket is there
    and at least one of the eight candidate files, requested as
    user_id/model_id/name, was fetched into that directory, and the
    directory it answers is the one it created. *)
Theorem download_model_files_outcome {disk : Type} (c : Gcs.cloud disk)
    (bucket : bool) (model_id user_id local_dir : string) (s : disk) :
  let model_dir := Gcs.div c (Gcs.div c local_dir user_id) model_id in
  (forall e s1,
      Gcs.mkdir c model_dir s = (Raise e, s1) ->
      Gcs.download_model_files c bucket model_id user_id local_dir s = (Raise e, s1)) /\
  (forall u s1,
      Gcs.mkdir c model_dir s = (Ret u, s1) ->
      (exists r s2,
          Gcs.download_model_files c bucket model_id user_id local_dir s = (Ret r, s2)) /\
      (bucket = false ->
       Gcs.download_model_files c bucket model_id user_id local_dir s = (Ret None, s1))) /\
  (forall d s',
      Gcs.download_model_files c bucket model_id user_id local_dir s = (Ret (Some d), s') ->
      bucket = true /\ d = model_dir /\
      exists f s1 s2 s3,
        In f Gcs.model_files /\
        Gcs.mkdir c (Gcs.parent c (Gcs.div c model_dir f)) s1 = (Ret tt, s2) /\
        Gcs.download_to_filename c (user_id +:+ "/" +:+ model_id +:+ "/" +:+ f)
          (Gcs.div c model_dir f) s2 = (Ret tt, s3)).
Proof.
  cbv zeta. split; [|split].
  - intros e s1 H. unfold Gcs.download_model_files. now rewrite H.
  - intros u s1 H. unfold Gcs.download_model_files. rewrite H. split; [eauto|].
    intros ->. now rewrite download_loop_no_bucket.
  - intros d s'. unfold Gcs.download_model_files.
    destruct (Gcs.mkdir c _ s) as [[u|e] s1]; [|discriminate].
    destruct (Gcs.download_loop c bucket _ _ _ _ false s1) as [any s2] eqn:Hl.
    cbn [fst snd]. destruct any; [|discriminate]. intros [= <- <-].
    apply download_loop_some in Hl as (f & t & Hin & Hf).
    unfold Gcs.download_file in Hf.
    destruct bucket; [|discriminate]. cbn [negb] in Hf.
    split; [reflexivity|]. split; [reflexivity|].
    destruct (Gcs.mkdir c _ t) as [[[]|e] t1] eqn:Hm; [|discriminate].
    destruct (Gcs.download_to_filename c _ _ t1) as [[[]|e] t2] eqn:Hd; [|discriminate].
    exists f, t, t1, t2. auto.
Qed.

Lemma download_model_files_outcome_witness :
  let c :=
    Gcs.Cloud (list string)
      (fun p log => (Ret tt, log ++ ["mkdir " +:+ p]))
      (fun b d log =>
         (if String.eqb b "u1/sentiment/model.pkl" then Ret tt
          else Raise (Exn FileNotFoundError "404 No such object"),
          log ++ ["get " +:+ b]))
      dirname join in
  fst (Gcs.download_model_files c true "sentiment" "u1" "/tmp/models" [])
  = Ret (Some "/tmp/models/u1/sentiment") /\
  Gcs.download_model_files c false "sentiment" "u1" "/tmp/models" []
  = (Ret None, ["mkdir /tmp/models/u1/sentiment"]).
Proof.
  cbv zeta. split.
  - vm_compute. reflexivity.
  - match goal with
    | |- Gcs.download_model_files ?c false ?m ?u ?d ?s = _ =>
        destruct (download_model_files_outcome c false m u d s) as (_ & H & _)
    end.
    destruct (H tt ["mkdir /tmp/models/u1/sentiment"]) as (_ & E);
      [vm_compute; reflexivity|].
    apply E. reflexivity.
Defined.
